(** * Car Showroom backend (backend/app.py): a shallow embedding

    The Flask handlers of [backend/app.py] are embedded as Rocq functions.
    JSON documents are a small inductive type of Python values, the three
    JSON files are passed explicitly to the handlers that read or write
    them, and a Python exception that a handler does not catch is the
    [Raise] outcome of a result type.

    Text.  A Python [str] is a sequence of code points.  The embedding
    covers the code points U+0000 .. U+00FF (Latin-1): a [string] of
    Rocq is read as the sequence of its code points, one per [ascii].
    On that range [str.lower], [str.isdigit], [str.isspace] and
    [str.isprintable] are the finite tables below.

    Numbers.  JSON numbers are restricted to integers; the one float
    the program computes, the mean price, is the double that integer
    division gives: sign, mantissa and exponent. *)

From Stdlib Require Import ZArith List String Ascii Bool Lia.
From Stdlib Require Import DecimalString.
Import ListNotations.

Open Scope string_scope.
Open Scope Z_scope.

(* ================================================================== *)
(** ** Python strings on Latin-1 *)

Module PyStr.

Definition code (c : ascii) : N := N_of_ascii c.

Definition between (lo hi : N) (c : ascii) : bool :=
  ((lo <=? code c) && (code c <=? hi))%N.

Definition is_code (n : N) (c : ascii) : bool := (code c =? n)%N.

(** [str.isspace] on one character: TAB..CR, FS..US, SPACE, NEL, NBSP. *)
Definition isspace_char (c : ascii) : bool :=
  between 9 13 c || between 28 32 c || is_code 133 c || is_code 160 c.

(** The ten characters '0'..'9'. *)
Definition ascii_digit (c : ascii) : bool := between 48 57 c.

(** [str.isdigit] on one character: '0'..'9' and the superscript digits
    U+00B2, U+00B3, U+00B9. *)
Definition isdigit_char (c : ascii) : bool :=
  ascii_digit c || is_code 178 c || is_code 179 c || is_code 185 c.

(** [str.isprintable] on one character. *)
Definition isprintable_char (c : ascii) : bool :=
  negb (between 0 31 c || between 127 160 c || is_code 173 c).

(** [str.lower] on one character: 'A'..'Z' and U+00C0..U+00DE except the
    multiplication sign U+00D7 move up by 32. *)
Definition lower_char (c : ascii) : ascii :=
  if between 65 90 c || (between 192 222 c && negb (is_code 215 c))
  then ascii_of_N (code c + 32)
  else c.

Fixpoint lower (s : string) : string :=
  match s with
  | EmptyString => EmptyString
  | String c r => String (lower_char c) (lower r)
  end.

Fixpoint lstrip (s : string) : string :=
  match s with
  | EmptyString => EmptyString
  | String c r => if isspace_char c then lstrip r else s
  end.

Fixpoint rstrip (s : string) : string :=
  match s with
  | EmptyString => EmptyString
  | String c r =>
      match rstrip r with
      | EmptyString => if isspace_char c then EmptyString else String c EmptyString
      | r' => String c r'
      end
  end.

(** [s.strip()] *)
Definition strip (s : string) : string := rstrip (lstrip s).

(** [s.replace(old, new)] for a one-character [old]. *)
Fixpoint replace (old : ascii) (new : string) (s : string) : string :=
  match s with
  | EmptyString => EmptyString
  | String c r =>
      if Ascii.eqb c old then new ++ replace old new r
      else String c (replace old new r)
  end.

Fixpoint all_chars (p : ascii -> bool) (s : string) : bool :=
  match s with
  | EmptyString => true
  | String c r => p c && all_chars p r
  end.

Definition is_empty (s : string) : bool :=
  match s with EmptyString => true | _ => false end.

(** [s.isdigit()]: at least one character, all of them digits. *)
Definition isdigit (s : string) : bool :=
  negb (is_empty s) && all_chars isdigit_char s.

(** [sub in s] *)
Fixpoint contains (sub s : string) : bool :=
  prefix sub s ||
  match s with
  | EmptyString => false
  | String _ r => contains sub r
  end.

(** [len(s)] *)
Definition len (s : string) : Z := Z.of_nat (String.length s).

(** [sep.join(parts)] *)
Fixpoint join (sep : string) (parts : list string) : string :=
  match parts with
  | [] => EmptyString
  | [p] => p
  | p :: ps => p ++ sep ++ join sep ps
  end.

(** [str(n)] for an integer. *)
Definition of_int (n : Z) : string := NilZero.string_of_int (Z.to_int n).

Definition hex_digit (n : N) : ascii :=
  if (n <? 10)%N then ascii_of_N (48 + n) else ascii_of_N (87 + n).

(** The escape [\xNN] of a character. *)
Definition hex_escape (c : ascii) : string :=
  String "\" (String "x"
    (String (hex_digit (code c / 16)) (String (hex_digit (code c mod 16)) EmptyString))).

Definition squote : ascii := ascii_of_N 39.
Definition dquote : ascii := ascii_of_N 34.
Definition backslash : ascii := ascii_of_N 92.

Definition repr_char (quote c : ascii) : string :=
  if Ascii.eqb c quote || Ascii.eqb c backslash then String backslash (String c EmptyString)
  else if is_code 9 c then String backslash "t"
  else if is_code 10 c then String backslash "n"
  else if is_code 13 c then String backslash "r"
  else if isprintable_char c then String c EmptyString
  else hex_escape c.

Fixpoint repr_body (quote : ascii) (s : string) : string :=
  match s with
  | EmptyString => EmptyString
  | String c r => repr_char quote c ++ repr_body quote r
  end.

(** [repr(s)]: single quotes, unless [s] has a single quote and no
    double quote. *)
Definition repr (s : string) : string :=
  let quote :=
    if contains (String squote EmptyString) s && negb (contains (String dquote EmptyString) s)
    then dquote else squote in
  String quote (repr_body quote s ++ String quote EmptyString).

End PyStr.

(* ================================================================== *)
(** ** Python values, as [json.load] builds them *)

Set Warnings "-register-all".


Inductive value : Type :=
| VNone
| VBool (b : bool)
| VInt (n : Z)
| VStr (s : string)
| VList (l : list value)
| VDict (d : list (string * value)).

(** A [dict] keeps its items in insertion order, which is the order
    [json.dump] writes them in. *)
Definition dict : Type := list (string * value).

Fixpoint dict_get (d : dict) (k : string) : option value :=
  match d with
  | [] => None
  | (k', v) :: r => if String.eqb k' k then Some v else dict_get r k
  end.

Definition dict_has (d : dict) (k : string) : bool :=
  match dict_get d k with Some _ => true | None => false end.

(** [d[k] = v]: an existing key keeps its place, a new one goes last. *)
Fixpoint dict_set (d : dict) (k : string) (v : value) : dict :=
  match d with
  | [] => [(k, v)]
  | (k', v') :: r =>
      if String.eqb k' k then (k', v) :: r else (k', v') :: dict_set r k v
  end.

(** The keys of a Python dict are pairwise distinct. *)
Definition dict_ok (d : dict) : Prop := NoDup (map fst d).

(** [bool(v)] *)
Definition truthy (v : value) : bool :=
  match v with
  | VNone => false
  | VBool b => b
  | VInt n => negb (n =? 0)
  | VStr s => negb (PyStr.is_empty s)
  | VList l => match l with [] => false | _ => true end
  | VDict d => match d with [] => false | _ => true end
  end.

(** [repr(v)] *)
Fixpoint py_repr (v : value) : string :=
  match v with
  | VNone => "None"
  | VBool true => "True"
  | VBool false => "False"
  | VInt n => PyStr.of_int n
  | VStr s => PyStr.repr s
  | VList l => "[" ++ PyStr.join ", " (map py_repr l) ++ "]"
  | VDict d =>
      "{" ++ PyStr.join ", "
               (map (fun kv => PyStr.repr (fst kv) ++ ": " ++ py_repr (snd kv)) d)
          ++ "}"
  end.

(** [str(v)] *)
Definition py_str (v : value) : string :=
  match v with
  | VStr s => s
  | _ => py_repr v
  end.

(* ================================================================== *)
(** ** Exceptions *)

Inductive exn : Type :=
  KeyError | TypeError | AttributeError | OverflowError | ZeroDivisionError.

(** The outcome of an expression: its value, or the exception it raises. *)
Inductive res (A : Type) : Type :=
| Ok (a : A)
| Raise (e : exn).

Arguments Ok {A} a.
Arguments Raise {A} e.

Definition bind {A B : Type} (m : res A) (k : A -> res B) : res B :=
  match m with
  | Ok a => k a
  | Raise e => Raise e
  end.

Notation "x <- m ;; k" := (bind m (fun x => k))
  (at level 61, m at next level, right associativity).

(** A comprehension [[f(c) for c in l]]: left to right, the first
    exception ends it. *)
Fixpoint mapM {A B : Type} (f : A -> res B) (l : list A) : res (list B) :=
  match l with
  | [] => Ok []
  | a :: r => b <- f a ;; bs <- mapM f r ;; Ok (b :: bs)
  end.

(** A comprehension [[c for c in l if p(c)]]. *)
Fixpoint filterM {A : Type} (p : A -> res bool) (l : list A) : res (list A) :=
  match l with
  | [] => Ok []
  | a :: r => b <- p a ;; bs <- filterM p r ;; Ok (if b then a :: bs else bs)
  end.

(* ================================================================== *)
(** ** The operations of Python the handlers use *)

(** [c[k]] for a string [k]. *)
Definition py_getitem (c : value) (k : string) : res value :=
  match c with
  | VDict d => match dict_get d k with Some v => Ok v | None => Raise KeyError end
  | _ => Raise TypeError
  end.

(** [b.get(k, default)] *)
Definition py_get (b : value) (k : string) (default : value) : res value :=
  match b with
  | VDict d => Ok (match dict_get d k with Some v => v | None => default end)
  | _ => Raise AttributeError
  end.

(** [v.lower()] *)
Definition py_lower (v : value) : res string :=
  match v with
  | VStr s => Ok (PyStr.lower s)
  | _ => Raise AttributeError
  end.

(** [v.strip()] *)
Definition py_strip (v : value) : res string :=
  match v with
  | VStr s => Ok (PyStr.strip s)
  | _ => Raise AttributeError
  end.

Definition is_str (k : string) (v : value) : bool :=
  match v with VStr s => String.eqb s k | _ => false end.

(** [k in data] for a string [k]: a key of a dict, an element of a list,
    a substring of a string. *)
Definition py_contains (data : value) (k : string) : res bool :=
  match data with
  | VDict d => Ok (dict_has d k)
  | VList l => Ok (existsb (is_str k) l)
  | VStr s => Ok (PyStr.contains k s)
  | _ => Raise TypeError
  end.

(** The integer a value is in arithmetic and in comparisons with
    integers; [bool] is a subclass of [int]. *)
Definition as_int (v : value) : res Z :=
  match v with
  | VInt n => Ok n
  | VBool b => Ok (Z.b2z b)
  | _ => Raise TypeError
  end.

(** [v == n] for an integer [n]; values of other types are unequal. *)
Definition py_eq_int (v : value) (n : Z) : bool :=
  match v with
  | VInt m => m =? n
  | VBool b => Z.b2z b =? n
  | _ => false
  end.

Fixpoint chars (s : string) : list value :=
  match s with
  | EmptyString => []
  | String c r => VStr (String c EmptyString) :: chars r
  end.

(** [for c in v]: the elements of a list, the keys of a dict, the
    characters of a string. *)
Definition py_iter (v : value) : res (list value) :=
  match v with
  | VList l => Ok l
  | VDict d => Ok (map (fun kv => VStr (fst kv)) d)
  | VStr s => Ok (chars s)
  | _ => Raise TypeError
  end.

(** [len(v)] *)
Definition py_len (v : value) : res Z :=
  match v with
  | VList l => Ok (Z.of_nat (List.length l))
  | VDict d => Ok (Z.of_nat (List.length d))
  | VStr s => Ok (PyStr.len s)
  | _ => Raise TypeError
  end.

(** [max(l, default=0)] of values that are then used as a number. *)
Definition py_max (l : list Z) : Z :=
  match l with
  | [] => 0
  | n :: r => fold_left Z.max r n
  end.

(** [v.append(x)] *)
Definition py_append (v x : value) : res value :=
  match v with
  | VList l => Ok (VList (l ++ [x])%list)
  | _ => Raise AttributeError
  end.

(** [data.items()] *)
Definition py_items (data : value) : res dict :=
  match data with
  | VDict d => Ok d
  | _ => Raise AttributeError
  end.

(** [c[k] = v] *)
Definition py_setitem (c : value) (k : string) (v : value) : res value :=
  match c with
  | VDict d => Ok (VDict (dict_set d k v))
  | _ => Raise TypeError
  end.

(** [[c for c in src if p(c)]] *)
Definition comprehension (src : value) (p : value -> res bool) : res value :=
  l <- py_iter src ;;
  l' <- filterM p l ;;
  Ok (VList l').

(* ================================================================== *)
(** ** Python floats, as far as integer division makes them *)

(** A finite IEEE 754 double: (-1)^[negative] * [mantissa] * 2^[exponent],
    with 2^52 <= mantissa < 2^53 and -1074 <= exponent <= 971 for a
    normal number, and exponent = -1074 and mantissa < 2^52 for a
    subnormal number or a zero. *)
Record double : Type := {
  negative : bool;
  mantissa : Z;
  exponent : Z
}.

(** A JSON number of an answer: an [int] or a [float]. *)
Inductive json_number : Type :=
| Int (n : Z)
| Float (x : double).

(** The fraction [num/den] equal to [(a/b) / 2^e]. *)
Definition scaled (a b e : Z) : Z * Z :=
  if 0 <=? e then (a, b * 2 ^ e) else (a * 2 ^ (- e), b).

(** The integer nearest to [num/den], the even one of two at the same
    distance. *)
Definition round_half_even (num den : Z) : Z :=
  let q := num / den in
  let r := num mod den in
  if 2 * r <? den then q
  else if den <? 2 * r then q + 1
  else if Z.even q then q else q + 1.

(** The [k] with 2^k <= a/b < 2^(k+1), for positive [a] and [b]. *)
Definition floor_log2_ratio (a b : Z) : Z :=
  let d := Z.log2 a - Z.log2 b in
  let (num, den) := scaled a b d in
  if den <=? num then d else d - 1.

(** The double nearest to [a/b], ties to even, for [a >= 0] and
    [b > 0]; [neg] is the sign it gets. *)
Definition nearest_double (neg : bool) (a b : Z) : double :=
  if a =? 0 then {| negative := neg; mantissa := 0; exponent := -1074 |}
  else
    let e := Z.max (floor_log2_ratio a b - 52) (-1074) in
    let (num, den) := scaled a b e in
    let m := round_half_even num den in
    if m =? 2 ^ 53
    then {| negative := neg; mantissa := 2 ^ 52; exponent := e + 1 |}
    else {| negative := neg; mantissa := m; exponent := e |}.

(** From this magnitude on, a quotient rounds to 2^1024, which is no
    double: half a unit in the last place above the largest double. *)
Definition float_limit : Z := 2 ^ 1024 - 2 ^ 970.

(** [a / b] for two integers: the nearest double, [OverflowError] when
    there is none. *)
Definition py_truediv (a b : Z) : res double :=
  if b =? 0 then Raise ZeroDivisionError
  else if float_limit * Z.abs b <=? Z.abs a then Raise OverflowError
  else Ok (nearest_double (xorb (a <? 0) (b <? 0)) (Z.abs a) (Z.abs b)).

(* ================================================================== *)
(** ** UTILITY FUNCTIONS *)

(** What [load_json_file] finds at a path. *)
Inductive file : Type :=
| Absent                (* [filepath.exists()] is false *)
| Unreadable            (* [open] raises [IOError] *)
| Malformed             (* [json.load] raises [json.JSONDecodeError] *)
| Stored (v : value).   (* [json.load] returns [v] *)

(** [x or y] *)
Definition py_or (x y : value) : value := if truthy x then x else y.

Definition load_json_file (filepath : file) (default_data : value) : value :=
  match filepath with
  | Stored v => v
  | Absent | Unreadable | Malformed => py_or default_data (VDict [])
  end.

(** What writing to a path does: it succeeds, or [open]/[json.dump] raises
    [IOError] and leaves the file in some state [after]. *)
Inductive disk : Type :=
| Writes
| Fails (after : file).

Definition save_json_file (io : disk) (data : value) : bool * file :=
  match io with
  | Writes => (true, Stored data)
  | Fails after => (false, after)
  end.

(** A handler's answer: the body given to [jsonify] and the status code. *)
Definition response : Type := (value * Z)%type.

Definition error_body (msg : string) (code : Z) : value :=
  VDict [("error", VStr msg); ("status", VInt code)].

Definition required_booking_fields : list string :=
  ["name"; "email"; "phone"; "carModel"; "preferredDate"; "preferredTime"].

(** The loop over [required_fields] of [validate_booking_data]. *)
Fixpoint check_required (data : value) (fields : list string) (errors : dict)
  : res dict :=
  match fields with
  | [] => Ok errors
  | field :: rest =>
      present <- py_contains data field ;;
      blank <- (if negb present then Ok true
                else v <- py_getitem data field ;;
                     Ok (PyStr.is_empty (PyStr.strip (py_str v)))) ;;
      check_required data rest
        (if blank then dict_set errors field (VStr (field ++ " is required"))
         else errors)
  end.

(** The phone text the validator tests:
    [str(data['phone']).replace('-', '').replace(' ', '')]. *)
Definition clean_phone (v : value) : string :=
  PyStr.replace " " "" (PyStr.replace "-" "" (py_str v)).

(** [not phone.isdigit() or len(phone) != 10] *)
Definition bad_phone (phone : string) : bool :=
  negb (PyStr.isdigit phone) || negb (PyStr.len phone =? 10).

Definition validate_booking_data (data : value) : res value :=
  errors <- check_required data required_booking_fields [] ;;
  has_email <- py_contains data "email" ;;
  errors <- (if has_email then
               v <- py_getitem data "email" ;;
               Ok (if negb (PyStr.contains "@" (py_str v))
                   then dict_set errors "email" (VStr "Invalid email format")
                   else errors)
             else Ok errors) ;;
  has_phone <- py_contains data "phone" ;;
  errors <- (if has_phone then
               v <- py_getitem data "phone" ;;
               Ok (if bad_phone (clean_phone v)
                   then dict_set errors "phone" (VStr "Phone must be 10 digits")
                   else errors)
             else Ok errors) ;;
  Ok (if truthy (VDict errors) then VDict errors else VNone).

(* ================================================================== *)
(** ** CARS ENDPOINTS *)

(** [request.args] of [GET /api/cars]: each parameter as [args.get]
    returns it, [None] when it is not in the query string; with
    [type=int] also when its text is not an integer. *)
Record query : Type := {
  q_brand : option string;
  q_segment : option string;
  q_fuelType : option string;
  q_transmission : option string;
  q_minPrice : option Z;
  q_maxPrice : option Z;
  q_search : option string
}.

(** [if s:] for an optional string. *)
Definition given (o : option string) : bool :=
  match o with Some s => negb (PyStr.is_empty s) | None => false end.

(** [if n:] for an optional integer. *)
Definition given_int (o : option Z) : bool :=
  match o with Some n => negb (n =? 0) | None => false end.

Definition text (o : option string) : string :=
  match o with Some s => s | None => EmptyString end.

Definition number (o : option Z) : Z :=
  match o with Some n => n | None => 0 end.

(** [c[field].lower() == wanted.lower()] *)
Definition field_is (field wanted : string) (c : value) : res bool :=
  v <- py_getitem c field ;;
  s <- py_lower v ;;
  Ok (String.eqb s (PyStr.lower wanted)).

(** [c['price'] >= min_price] *)
Definition price_ge (min_price : Z) (c : value) : res bool :=
  v <- py_getitem c "price" ;; p <- as_int v ;; Ok (p >=? min_price).

(** [c['price'] <= max_price] *)
Definition price_le (max_price : Z) (c : value) : res bool :=
  v <- py_getitem c "price" ;; p <- as_int v ;; Ok (p <=? max_price).

(** [search in c['model'].lower() or search in c['brand'].lower()] *)
Definition search_hit (search : string) (c : value) : res bool :=
  m <- py_getitem c "model" ;;
  m <- py_lower m ;;
  if PyStr.contains search m then Ok true
  else b <- py_getitem c "brand" ;;
       b <- py_lower b ;;
       Ok (PyStr.contains search b).

(** One [if crit: filtered_cars = [c for c in filtered_cars if ...]]. *)
Definition narrow (crit : bool) (p : value -> res bool) (filtered_cars : value)
  : res value :=
  if crit then comprehension filtered_cars p else Ok filtered_cars.

Definition get_cars (CARS_FILE : file) (args : query) : res response :=
  let cars := load_json_file CARS_FILE (VList []) in
  let brand := q_brand args in
  let segment := q_segment args in
  let fuel_type := q_fuelType args in
  let transmission := q_transmission args in
  let min_price := q_minPrice args in
  let max_price := q_maxPrice args in
  let search := PyStr.lower (text (q_search args)) in
  let filtered_cars := cars in
  filtered_cars <- narrow (given brand) (field_is "brand" (text brand)) filtered_cars ;;
  filtered_cars <- narrow (given segment) (field_is "segment" (text segment)) filtered_cars ;;
  filtered_cars <- narrow (given fuel_type) (field_is "fuelType" (text fuel_type)) filtered_cars ;;
  filtered_cars <- narrow (given transmission)
                     (field_is "transmission" (text transmission)) filtered_cars ;;
  filtered_cars <- narrow (given_int min_price) (price_ge (number min_price)) filtered_cars ;;
  filtered_cars <- narrow (given_int max_price) (price_le (number max_price)) filtered_cars ;;
  filtered_cars <- narrow (negb (PyStr.is_empty search)) (search_hit search) filtered_cars ;;
  count <- py_len filtered_cars ;;
  Ok (VDict [("status", VStr "success"); ("count", VInt count); ("data", filtered_cars)],
      200).

Definition required_car_fields : list string :=
  ["brand"; "model"; "price"; "segment"; "fuelType"; "transmission"].

(** The loop over [required_fields] of [add_car]: the first field that
    is not in [data], if any. *)
Fixpoint first_missing (data : value) (fields : list string) : res (option string) :=
  match fields with
  | [] => Ok None
  | field :: rest =>
      present <- py_contains data field ;;
      if negb present then Ok (Some field) else first_missing data rest
  end.

(** [max([c['id'] for c in records], default=0) + 1] *)
Definition next_car_id (records : value) : res Z :=
  l <- py_iter records ;;
  ids <- mapM (fun c => py_getitem c "id") l ;;
  ns <- mapM as_int ids ;;
  Ok (py_max ns + 1).

(** The items [**data] unpacks. *)
Definition py_unpack (data : value) : res dict :=
  match data with
  | VDict d => Ok d
  | _ => Raise TypeError
  end.

(** A dict display [{k1: v1, ..., **items}]: each item is stored in
    turn, a repeated key keeps its first place and takes the later
    value. *)
Definition dict_extend (d items : dict) : dict :=
  fold_left (fun acc kv => dict_set acc (fst kv) (snd kv)) items d.

Definition add_car (now : string) (io : disk) (CARS_FILE : file) (data : value)
  : res (response * file) :=
  if negb (truthy data) then
    Ok ((error_body "No data provided" 400, 400), CARS_FILE)
  else
    missing <- first_missing data required_car_fields ;;
    match missing with
    | Some field =>
        Ok ((error_body ("Missing required field: " ++ field) 400, 400), CARS_FILE)
    | None =>
        let cars := load_json_file CARS_FILE (VList []) in
        new_id <- next_car_id cars ;;
        items <- py_unpack data ;;
        let new_car :=
          VDict (dict_set (dict_extend [("id", VInt new_id)] items)
                          "addedDate" (VStr now)) in
        cars <- py_append cars new_car ;;
        let (saved, CARS_FILE') := save_json_file io cars in
        if saved then
          Ok ((VDict [("status", VStr "success"); ("message", VStr "Car added");
                      ("data", new_car)], 201), CARS_FILE')
        else
          Ok ((error_body "Failed to save car" 500, 500), CARS_FILE')
    end.

(** [next((c for c in records if c['id'] == wanted), None)], as the
    position of the record found: the generator stops at the first
    match and looks no further. *)
Fixpoint find_id (records : list value) (wanted : Z) : res (option nat) :=
  match records with
  | [] => Ok None
  | c :: rest =>
      v <- py_getitem c "id" ;;
      if py_eq_int v wanted then Ok (Some O)
      else o <- find_id rest wanted ;; Ok (option_map S o)
  end.

Fixpoint set_nth (i : nat) (x : value) (l : list value) : list value :=
  match l, i with
  | [], _ => []
  | _ :: r, O => x :: r
  | c :: r, S j => c :: set_nth j x r
  end.

(** The record found is an element of the loaded list, not a copy: a
    store into it is a store into the list at its position. *)
Definition store_back (records : value) (i : nat) (x : value) : value :=
  match records with
  | VList l => VList (set_nth i x l)
  | _ => records
  end.

Definition lookup_id (records : value) (wanted : Z) : res (option nat * value) :=
  l <- py_iter records ;;
  o <- find_id l wanted ;;
  Ok (o, match o with Some i => nth i l VNone | None => VNone end).

(** [for key, value in data.items(): if key != 'id': car[key] = value] *)
Fixpoint merge_items (car : value) (items : dict) : res value :=
  match items with
  | [] => Ok car
  | (key, v) :: rest =>
      car <- (if negb (String.eqb key "id") then py_setitem car key v else Ok car) ;;
      merge_items car rest
  end.

Definition not_found (kind : string) (id : Z) : response :=
  (error_body (kind ++ " with ID " ++ PyStr.of_int id ++ " not found") 404, 404).

Definition update_car (now : string) (io : disk) (CARS_FILE : file) (car_id : Z)
  (data : value) : res (response * file) :=
  let cars := load_json_file CARS_FILE (VList []) in
  found <- lookup_id cars car_id ;;
  let (pos, car) := found in
  if negb (truthy car) then Ok (not_found "Car" car_id, CARS_FILE)
  else if negb (truthy data) then
    Ok ((error_body "No data provided" 400, 400), CARS_FILE)
  else
    items <- py_items data ;;
    car <- merge_items car items ;;
    car <- py_setitem car "updatedDate" (VStr now) ;;
    let cars := match pos with Some i => store_back cars i car | None => cars end in
    let (saved, CARS_FILE') := save_json_file io cars in
    if saved then
      Ok ((VDict [("status", VStr "success"); ("message", VStr "Car updated");
                  ("data", car)], 200), CARS_FILE')
    else
      Ok ((error_body "Failed to update car" 500, 500), CARS_FILE').

(** [c['id'] != wanted] *)
Definition other_id (wanted : Z) (c : value) : res bool :=
  v <- py_getitem c "id" ;; Ok (negb (py_eq_int v wanted)).

Definition delete_car (io : disk) (CARS_FILE : file) (car_id : Z)
  : res (response * file) :=
  let cars := load_json_file CARS_FILE (VList []) in
  cars <- comprehension cars (other_id car_id) ;;
  let (saved, CARS_FILE') := save_json_file io cars in
  if saved then
    Ok ((VDict [("status", VStr "success");
                ("message", VStr ("Car " ++ PyStr.of_int car_id ++ " deleted"))], 200),
        CARS_FILE')
  else
    Ok ((error_body "Failed to delete car" 500, 500), CARS_FILE').

(* ================================================================== *)
(** ** TEST DRIVE BOOKINGS ENDPOINTS *)

(** [max([b.get('id', 0) for b in records], default=0) + 1] *)
Definition next_booking_id (records : value) : res Z :=
  l <- py_iter records ;;
  ids <- mapM (fun b => py_get b "id" (VInt 0)) l ;;
  ns <- mapM as_int ids ;;
  Ok (py_max ns + 1).

(** [data[field].strip()] *)
Definition stripped (data : value) (field : string) : res value :=
  v <- py_getitem data field ;; s <- py_strip v ;; Ok (VStr s).

Definition create_booking (now : string) (io : disk) (BOOKINGS_FILE : file)
  (data : value) : res (response * file) :=
  if negb (truthy data) then
    Ok ((error_body "No data provided" 400, 400), BOOKINGS_FILE)
  else
    errors <- validate_booking_data data ;;
    if truthy errors then
      Ok ((VDict [("error", VStr "Validation failed"); ("details", errors);
                  ("status", VInt 422)], 422), BOOKINGS_FILE)
    else
      let bookings := load_json_file BOOKINGS_FILE (VList []) in
      new_id <- next_booking_id bookings ;;
      name <- stripped data "name" ;;
      email <- stripped data "email" ;;
      phone <- stripped data "phone" ;;
      carModel <- py_getitem data "carModel" ;;
      preferredDate <- py_getitem data "preferredDate" ;;
      preferredTime <- py_getitem data "preferredTime" ;;
      comments <- py_get data "comments" (VStr "") ;;
      comments <- py_strip comments ;;
      let new_booking :=
        VDict [("id", VInt new_id);
               ("name", name);
               ("email", email);
               ("phone", phone);
               ("carModel", carModel);
               ("preferredDate", preferredDate);
               ("preferredTime", preferredTime);
               ("comments", VStr comments);
               ("bookingDate", VStr now);
               ("status", VStr "pending")] in
      bookings <- py_append bookings new_booking ;;
      let (saved, BOOKINGS_FILE') := save_json_file io bookings in
      if saved then
        Ok ((VDict [("status", VStr "success");
                    ("message", VStr "Test drive booking created successfully");
                    ("data", new_booking)], 201), BOOKINGS_FILE')
      else
        Ok ((error_body "Failed to create booking" 500, 500), BOOKINGS_FILE').

Definition update_booking (now : string) (io : disk) (BOOKINGS_FILE : file)
  (booking_id : Z) (data : value) : res (response * file) :=
  let bookings := load_json_file BOOKINGS_FILE (VList []) in
  found <- lookup_id bookings booking_id ;;
  let (pos, booking) := found in
  if negb (truthy booking) then Ok (not_found "Booking" booking_id, BOOKINGS_FILE)
  else
    has_status <- py_contains data "status" ;;
    booking <- (if has_status then
                  v <- py_getitem data "status" ;; py_setitem booking "status" v
                else Ok booking) ;;
    booking <- py_setitem booking "updatedDate" (VStr now) ;;
    let bookings :=
      match pos with Some i => store_back bookings i booking | None => bookings end in
    let (saved, BOOKINGS_FILE') := save_json_file io bookings in
    if saved then
      Ok ((VDict [("status", VStr "success"); ("message", VStr "Booking updated");
                  ("data", booking)], 200), BOOKINGS_FILE')
    else
      Ok ((error_body "Failed to update booking" 500, 500), BOOKINGS_FILE').

Definition delete_booking (io : disk) (BOOKINGS_FILE : file) (booking_id : Z)
  : res (response * file) :=
  let bookings := load_json_file BOOKINGS_FILE (VList []) in
  bookings <- comprehension bookings (other_id booking_id) ;;
  let (saved, BOOKINGS_FILE') := save_json_file io bookings in
  if saved then
    Ok ((VDict [("status", VStr "success");
                ("message", VStr ("Booking " ++ PyStr.of_int booking_id ++ " deleted"))],
         200), BOOKINGS_FILE')
  else
    Ok ((error_body "Failed to delete booking" 500, 500), BOOKINGS_FILE').

(* ================================================================== *)
(** ** STATISTICS ENDPOINT *)

(** Whether two keys of a dict are the same key: equal strings, equal
    numbers ([True] is [1]), [None]. *)
Definition key_eqb (a b : value) : bool :=
  match a, b with
  | VStr s, VStr t => String.eqb s t
  | VNone, VNone => true
  | (VInt _ | VBool _), (VInt _ | VBool _) =>
      match as_int a, as_int b with
      | Ok m, Ok n => m =? n
      | _, _ => false
      end
  | _, _ => false
  end.

Definition hashable (v : value) : bool :=
  match v with
  | VList _ | VDict _ => false
  | _ => true
  end.

(** [stats['brandDistribution']]: a dict from brands to counts. *)
Definition counts : Type := list (value * Z).

Fixpoint counts_get (m : counts) (k : value) (default : Z) : Z :=
  match m with
  | [] => default
  | (k', n) :: r => if key_eqb k' k then n else counts_get r k default
  end.

Fixpoint counts_set (m : counts) (k : value) (n : Z) : counts :=
  match m with
  | [] => [(k, n)]
  | (k', n') :: r =>
      if key_eqb k' k then (k', n) :: r else (k', n') :: counts_set r k n
  end.

Record stats : Type := {
  totalCars : Z;
  totalBrands : Z;
  totalBookings : Z;
  averageCarPrice : json_number;
  brandDistribution : counts
}.

(** [sum(c['price'] for c in cars)] *)
Fixpoint sum_prices (cars : list value) (acc : Z) : res Z :=
  match cars with
  | [] => Ok acc
  | c :: rest =>
      v <- py_getitem c "price" ;;
      p <- as_int v ;;
      sum_prices rest (acc + p)
  end.

(** [sum(...) / len(cars) if cars else 0]: the float quotient of two
    integers, the integer 0 without cars. *)
Definition average_price (cars : value) : res json_number :=
  if truthy cars then
    l <- py_iter cars ;;
    total <- sum_prices l 0 ;;
    n <- py_len cars ;;
    x <- py_truediv total n ;;
    Ok (Float x)
  else Ok (Int 0).

(** The loop [for car in cars] of [get_stats]. *)
Fixpoint count_brands (cars : list value) (dist : counts) : res counts :=
  match cars with
  | [] => Ok dist
  | car :: rest =>
      brand <- py_getitem car "brand" ;;
      if hashable brand then
        count_brands rest (counts_set dist brand (counts_get dist brand 0 + 1))
      else Raise TypeError
  end.

Definition is_text (v : value) : bool :=
  match v with VStr _ => true | _ => false end.

Definition is_number (v : value) : bool :=
  match v with VInt _ | VBool _ => true | _ => false end.

(** [jsonify] writes a dict with its keys sorted.  Strings sort with
    strings and numbers with numbers; two keys of different kinds, or a
    [None] beside another key, raise [TypeError]. *)
Definition sortable (keys : list value) : bool :=
  match keys with
  | [] | [_] => true
  | _ => forallb is_text keys || forallb is_number keys
  end.

(** The handler answers [{'status': 'success', 'data': stats}] with
    status 200.  Of the dicts it gives to [jsonify] only
    [brandDistribution] can have a key that is not a string. *)
Definition get_stats (CARS_FILE BOOKINGS_FILE BRANDS_FILE : file) : res (stats * Z) :=
  let cars := load_json_file CARS_FILE (VList []) in
  let bookings := load_json_file BOOKINGS_FILE (VList []) in
  let brands := load_json_file BRANDS_FILE (VList []) in
  n_cars <- py_len cars ;;
  n_brands <- py_len brands ;;
  n_bookings <- py_len bookings ;;
  average <- average_price cars ;;
  l <- py_iter cars ;;
  dist <- count_brands l [] ;;
  if sortable (map fst dist) then
    Ok ({| totalCars := n_cars;
           totalBrands := n_brands;
           totalBookings := n_bookings;
           averageCarPrice := average;
           brandDistribution := dist |}, 200)
  else Raise TypeError.

(* ================================================================== *)
(** ** SAMPLE DATA CREATION *)

Definition strs (l : list string) : value := VList (map VStr l).

Definition sample_cars : list value :=
  [ VDict [("id", VInt 1); ("brand", VStr "Tata Motors"); ("model", VStr "Nexon EV");
           ("price", VInt 1450000); ("segment", VStr "SUV");
           ("fuelType", VStr "Electric"); ("transmission", VStr "Automatic");
           ("engineCc", VInt 0); ("powerBhp", VInt 129); ("torqueNm", VInt 245);
           ("mileage", VStr "200-250 Wh/km"); ("fuelTank", VInt 0); ("seating", VInt 5);
           ("features", strs ["Electric Range: 312-440 km"; "Fast Charging";
                              "Climate Control"]);
           ("images", strs ["https://via.placeholder.com/400x300?text=Tata+Nexon+EV"])];
    VDict [("id", VInt 2); ("brand", VStr "Tata Motors"); ("model", VStr "Punch");
           ("price", VInt 549000); ("segment", VStr "Hatchback");
           ("fuelType", VStr "Petrol"); ("transmission", VStr "Manual");
           ("engineCc", VInt 1200); ("powerBhp", VInt 86); ("torqueNm", VInt 113);
           ("mileage", VInt 18); ("fuelTank", VInt 44); ("seating", VInt 5);
           ("features", strs ["ABS with EBD"; "Dual Airbags"; "Power Windows"]);
           ("images", strs ["https://via.placeholder.com/400x300?text=Tata+Punch"])];
    VDict [("id", VInt 3); ("brand", VStr "Mahindra & Mahindra"); ("model", VStr "XUV700");
           ("price", VInt 1210000); ("segment", VStr "SUV");
           ("fuelType", VStr "Petrol"); ("transmission", VStr "Automatic");
           ("engineCc", VInt 2000); ("powerBhp", VInt 197); ("torqueNm", VInt 380);
           ("mileage", VInt 14); ("fuelTank", VInt 60); ("seating", VInt 7);
           ("features", strs ["ADAS Technology"; "Panoramic Sunroof"; "Leather Seats"]);
           ("images", strs ["https://via.placeholder.com/400x300?text=Mahindra+XUV700"])] ].

Definition sample_bookings : list value := [].

Definition sample_brands : list value :=
  [ VDict [("id", VInt 1); ("name", VStr "Tata Motors");
           ("description", VStr "Indian multinational automotive");
           ("modelCount", VInt 12)];
    VDict [("id", VInt 2); ("name", VStr "Mahindra & Mahindra");
           ("description", VStr "Leading utility vehicle manufacturer");
           ("modelCount", VInt 8)];
    VDict [("id", VInt 3); ("name", VStr "Maruti Suzuki");
           ("description", VStr "India's largest car manufacturer");
           ("modelCount", VInt 15)] ].

(* ================================================================== *)
(** ** What the specification says, in the terms of the embedding *)

(** The text of a field of a record, when the record has it as a string. *)
Definition str_field (c : value) (k : string) : option string :=
  match c with
  | VDict d => match dict_get d k with Some (VStr s) => Some s | _ => None end
  | _ => None
  end.

(** The number in a field of a record, when the record has it as one. *)
Definition int_field (c : value) (k : string) : option Z :=
  match c with
  | VDict d =>
      match dict_get d k with
      | Some v => match as_int v with Ok n => Some n | Raise _ => None end
      | None => None
      end
  | _ => None
  end.

Definition is_some {A : Type} (o : option A) : bool :=
  match o with Some _ => true | None => false end.

(** A car record: the five text fields and the price the list
    operation reads. *)
Definition is_car (c : value) : bool :=
  is_some (str_field c "brand") && is_some (str_field c "model") &&
  is_some (str_field c "segment") && is_some (str_field c "fuelType") &&
  is_some (str_field c "transmission") && is_some (int_field c "price").

(** Case-insensitive exact match; an absent or empty criterion does not
    filter. *)
Definition matches_text (wanted : option string) (actual : option string) : bool :=
  match wanted with
  | None => true
  | Some w =>
      PyStr.is_empty w ||
      match actual with
      | Some a => String.eqb (PyStr.lower a) (PyStr.lower w)
      | None => false
      end
  end.

(** An inclusive bound [rel actual bound]; [applies] says which bounds
    count as supplied. *)
Definition within (applies : option Z -> bool) (rel : Z -> Z -> bool)
  (bound : option Z) (actual : option Z) : bool :=
  negb (applies bound) ||
  match bound, actual with
  | Some b, Some a => rel a b
  | _, _ => false
  end.

(** Case-insensitive substring of the model or of the brand. *)
Definition matches_search (wanted : option string) (c : value) : bool :=
  match wanted with
  | None => true
  | Some w =>
      PyStr.is_empty w ||
      match str_field c "model", str_field c "brand" with
      | Some m, Some b =>
          PyStr.contains (PyStr.lower w) (PyStr.lower m) ||
          PyStr.contains (PyStr.lower w) (PyStr.lower b)
      | _, _ => false
      end
  end.

Definition satisfies_with (applies : option Z -> bool) (args : query) (c : value) : bool :=
  matches_text (q_brand args) (str_field c "brand") &&
  matches_text (q_segment args) (str_field c "segment") &&
  matches_text (q_fuelType args) (str_field c "fuelType") &&
  matches_text (q_transmission args) (str_field c "transmission") &&
  within applies Z.geb (q_minPrice args) (int_field c "price") &&
  within applies Z.leb (q_maxPrice args) (int_field c "price") &&
  matches_search (q_search args) c.

(** Every supplied criterion, a price bound being supplied whenever it
    is in the query. *)
Definition satisfies_stated : query -> value -> bool := satisfies_with is_some.

(** Every supplied criterion, a price bound of 0 counting as not
    supplied. *)
Definition satisfies : query -> value -> bool := satisfies_with given_int.

Definition no_criteria : query :=
  {| q_brand := None; q_segment := None; q_fuelType := None; q_transmission := None;
     q_minPrice := None; q_maxPrice := None; q_search := None |}.

Definition with_minPrice (args : query) (p : option Z) : query :=
  {| q_brand := q_brand args; q_segment := q_segment args;
     q_fuelType := q_fuelType args; q_transmission := q_transmission args;
     q_minPrice := p; q_maxPrice := q_maxPrice args; q_search := q_search args |}.

Definition with_maxPrice (args : query) (p : option Z) : query :=
  {| q_brand := q_brand args; q_segment := q_segment args;
     q_fuelType := q_fuelType args; q_transmission := q_transmission args;
     q_minPrice := q_minPrice args; q_maxPrice := p; q_search := q_search args |}.

(** The body of a successful list answer. *)
Definition listing (l : list value) : response :=
  (VDict [("status", VStr "success"); ("count", VInt (Z.of_nat (List.length l)));
          ("data", VList l)], 200).

(** The id of a record that carries an integer [id]. *)
Definition id_of (c : value) : option Z :=
  match c with
  | VDict d => match dict_get d "id" with Some (VInt n) => Some n | _ => None end
  | _ => None
  end.

(** A record that has an [id] field. *)
Definition has_id (c : value) : bool :=
  match c with
  | VDict d => dict_has d "id"
  | _ => false
  end.

(** The invariant of a store: every record carries an id, and the ids
    are pairwise distinct. *)
Definition store_ok (records : list value) : Prop :=
  Forall (fun c => id_of c <> None) records /\ NoDup (map id_of records).

(** A record whose [id] equals [n]. *)
Definition id_is (n : Z) (c : value) : bool :=
  match c with
  | VDict d => match dict_get d "id" with Some v => py_eq_int v n | None => false end
  | _ => false
  end.

(** The records other than those with id [n]. *)
Definition without_id (n : Z) (records : list value) : list value :=
  filter (fun c => negb (id_is n c)) records.


(** Absent or, after trimming, empty. *)
Definition blank (d : dict) (f : string) : bool :=
  match dict_get d f with
  | None => true
  | Some v => PyStr.is_empty (PyStr.strip (py_str v))
  end.

(** An email that is there and has no [@]. *)
Definition email_malformed (d : dict) : bool :=
  match dict_get d "email" with
  | Some v => negb (PyStr.contains "@" (py_str v))
  | None => false
  end.

(** Exactly ten characters, each a digit by [isdigit_char]. *)
Definition ten_digits (phone : string) : bool :=
  (PyStr.len phone =? 10) && PyStr.all_chars PyStr.isdigit_char phone.

(** Exactly ten characters, each one of '0'..'9'. *)
Definition ten_ascii_digits (phone : string) : bool :=
  (PyStr.len phone =? 10) && PyStr.all_chars PyStr.ascii_digit phone.

(** A phone that is there and is not ten digits once hyphens and spaces
    are removed. *)
Definition phone_malformed (d : dict) : bool :=
  match dict_get d "phone" with
  | Some v => negb (ten_digits (clean_phone v))
  | None => false
  end.

Definition is_required (f : string) : bool :=
  existsb (String.eqb f) required_booking_fields.

(** A field that breaks one of the three rules of the validator. *)
Definition invalid (d : dict) (f : string) : bool :=
  (is_required f && blank d f) ||
  (String.eqb f "email" && email_malformed d) ||
  (String.eqb f "phone" && phone_malformed d).

(** The message for a field: a failed format check of an email or phone
    that is there comes before "is required". *)
Definition message (d : dict) (f : string) : option value :=
  if String.eqb f "email" && email_malformed d then Some (VStr "Invalid email format")
  else if String.eqb f "phone" && phone_malformed d then Some (VStr "Phone must be 10 digits")
  else if is_required f && blank d f then Some (VStr (f ++ " is required"))
  else None.

(** The message of the validator's answer for a field. *)
Definition error_for (answer : value) (f : string) : option value :=
  match answer with
  | VDict errors => dict_get errors f
  | _ => None
  end.

(** The price of a car record, as a number. *)
Definition price_of (c : value) : Z :=
  match c with
  | VDict d =>
      match dict_get d "price" with
      | Some (VInt n) => n
      | Some (VBool b) => Z.b2z b
      | _ => 0
      end
  | _ => 0
  end.

(** The sum of the prices of the cars. *)
Definition total_price (cars : list value) : Z :=
  fold_right (fun c t => price_of c + t) 0 cars.

(** The mean of the prices is within the range of a float. *)
Definition mean_fits (cars : list value) : Prop :=
  cars = [] \/
  Z.abs (total_price cars) < float_limit * Z.of_nat (List.length cars).

(** [x] is within half a unit in its last place of [a/b]. *)
Definition within_half_ulp (x : double) (a b : Z) : Prop :=
  let (num, den) := scaled (Z.abs a) b (exponent x) in
  2 * Z.abs (num - mantissa x * den) <= den.

(** A car with a price of 10^309. *)
Definition costly_car : value :=
  VDict [("id", VInt 1); ("brand", VStr "Tata Motors"); ("model", VStr "Nexon EV");
         ("price", VInt (10 ^ 309)); ("segment", VStr "SUV");
         ("fuelType", VStr "Electric"); ("transmission", VStr "Automatic")].

(** The number of cars whose brand is [b]. *)
Definition cars_of_brand (b : string) (cars : list value) : Z :=
  Z.of_nat (List.length
              (filter (fun c => match str_field c "brand" with
                                | Some s => String.eqb s b
                                | None => false
                                end) cars)).

(** The entry of a brand in the distribution, if it has one. *)
Fixpoint counts_find (m : counts) (k : value) : option Z :=
  match m with
  | [] => None
  | (k', n) :: r => if key_eqb k' k then Some n else counts_find r k
  end.

(** *** Inputs used below *)

Definition superscript_two : ascii := ascii_of_N 178.

(** A complete booking form. *)
Definition booking_form (email phone : string) : dict :=
  [("name", VStr "Asha Rao"); ("email", VStr email); ("phone", VStr phone);
   ("carModel", VStr "Punch"); ("preferredDate", VStr "2025-01-15");
   ("preferredTime", VStr "10:00")].

Definition ten_superscripts : string :=
  let c := superscript_two in
  String c (String c (String c (String c (String c
    (String c (String c (String c (String c (String c EmptyString))))))))).

(** A car payload that brings its own [id]. *)
Definition car_form (id : Z) : dict :=
  [("id", VInt id); ("brand", VStr "Maruti Suzuki"); ("model", VStr "Swift");
   ("price", VInt 600000); ("segment", VStr "Hatchback"); ("fuelType", VStr "Petrol");
   ("transmission", VStr "Manual")].

Definition one_booking : list value :=
  [VDict [("id", VInt 1); ("name", VStr "Asha Rao"); ("email", VStr "asha@example.com");
          ("phone", VStr "9876543210"); ("carModel", VStr "Punch");
          ("preferredDate", VStr "2025-01-15"); ("preferredTime", VStr "10:00");
          ("comments", VStr ""); ("bookingDate", VStr "2025-01-01T09:00:00");
          ("status", VStr "pending")]].

(** The test of each criterion on a car, as a boolean. *)
Definition text_test (field : string) (wanted : option string) (c : value) : bool :=
  match str_field c field with
  | Some s => String.eqb (PyStr.lower s) (PyStr.lower (text wanted))
  | None => false
  end.

Definition price_test (rel : Z -> Z -> bool) (bound : option Z) (c : value) : bool :=
  match int_field c "price" with
  | Some p => rel p (number bound)
  | None => false
  end.

Definition search_test (search : string) (c : value) : bool :=
  match str_field c "model", str_field c "brand" with
  | Some m, Some b =>
      PyStr.contains search (PyStr.lower m) || PyStr.contains search (PyStr.lower b)
  | _, _ => false
  end.

(** The answer of a successful delete. *)
Definition deleted (kind : string) (id : Z) : response :=
  (VDict [("status", VStr "success");
          ("message", VStr (kind ++ " " ++ PyStr.of_int id ++ " deleted"))], 200).

(** The ids of the records that carry one. *)
Fixpoint ids_of (records : list value) : list Z :=
  match records with
  | [] => []
  | c :: r => match id_of c with Some n => n :: ids_of r | None => ids_of r end
  end.

(** The count after [n] more cars of a brand whose entry was [o]. *)
Definition bump (o : option Z) (n : Z) : option Z :=
  if n =? 0 then o else Some (match o with Some m => m | None => 0 end + n).

(** The brand is a string. *)
Definition has_brand (c : value) : bool := is_some (str_field c "brand").

(** The answer of a successful update. *)
Definition updated (kind : string) (record : value) : response :=
  (VDict [("status", VStr "success"); ("message", VStr (kind ++ " updated"));
          ("data", record)], 200).

(** The value of a field after a merge of [d] into [old]. *)
Definition merged (d old : dict) (k : string) : option value :=
  match dict_get d k with
  | Some v => Some v
  | None => dict_get old k
  end.

(** The answer of a successful add. *)
Definition added (record : value) : response :=
  (VDict [("status", VStr "success"); ("message", VStr "Car added"); ("data", record)],
   201).

(** The answer of a successful booking. *)
Definition booked (record : value) : response :=
  (VDict [("status", VStr "success");
          ("message", VStr "Test drive booking created successfully");
          ("data", record)], 201).

(** The id the store gives next: [max(existing ids, default 0) + 1]. *)
Definition next_id (records : list value) : Z := py_max (ids_of records) + 1.

(** A payload has every field of a list. *)
Definition has_fields (d : dict) (fields : list string) : bool :=
  forallb (dict_has d) fields.

(** A payload whose name, email and phone are strings and whose
    comments, if any, are a string. *)
Definition is_form (d : dict) : bool :=
  is_some (str_field (VDict d) "name") && is_some (str_field (VDict d) "email") &&
  is_some (str_field (VDict d) "phone") &&
  has_fields d ["carModel"; "preferredDate"; "preferredTime"] &&
  (negb (dict_has d "comments") || is_some (str_field (VDict d) "comments")).

(* ================================================================== *)
(** ** The handlers that only read, and the seeding of the files *)

(** The body of a successful get-by-id. *)
Definition fetched (record : value) : response :=
  (VDict [("status", VStr "success"); ("data", record)], 200).

Definition get_car (CARS_FILE : file) (car_id : Z) : res response :=
  let cars := load_json_file CARS_FILE (VList []) in
  found <- lookup_id cars car_id ;;
  let (_, car) := found in
  if negb (truthy car) then Ok (not_found "Car" car_id)
  else Ok (fetched car).

Definition get_brands (BRANDS_FILE : file) : res response :=
  let brands := load_json_file BRANDS_FILE (VList []) in
  count <- py_len brands ;;
  Ok (VDict [("status", VStr "success"); ("count", VInt count); ("data", brands)], 200).

Definition get_brand (BRANDS_FILE : file) (brand_id : Z) : res response :=
  let brands := load_json_file BRANDS_FILE (VList []) in
  found <- lookup_id brands brand_id ;;
  let (_, brand) := found in
  if negb (truthy brand) then Ok (not_found "Brand" brand_id)
  else Ok (fetched brand).

Definition get_bookings (BOOKINGS_FILE : file) : res response :=
  let bookings := load_json_file BOOKINGS_FILE (VList []) in
  count <- py_len bookings ;;
  Ok (VDict [("status", VStr "success"); ("count", VInt count); ("data", bookings)], 200).

Definition get_booking (BOOKINGS_FILE : file) (booking_id : Z) : res response :=
  let bookings := load_json_file BOOKINGS_FILE (VList []) in
  found <- lookup_id bookings booking_id ;;
  let (_, booking) := found in
  if negb (truthy booking) then Ok (not_found "Booking" booking_id)
  else Ok (fetched booking).

(** The three files under [data/]. *)
Record files : Type := {
  CARS_FILE : file;
  BOOKINGS_FILE : file;
  BRANDS_FILE : file
}.

(** [filepath.exists()] *)
Definition file_exists (f : file) : bool :=
  match f with Absent => false | _ => true end.

(** [if not filepath.exists(): save_json_file(filepath, data)]; what
    [save_json_file] returns is dropped. *)
Definition seed (io : disk) (f : file) (data : value) : file :=
  if negb (file_exists f) then snd (save_json_file io data) else f.

Definition create_sample_data (io_cars io_bookings io_brands : disk) (fs : files) : files :=
  {| CARS_FILE := seed io_cars (CARS_FILE fs) (VList sample_cars);
     BOOKINGS_FILE := seed io_bookings (BOOKINGS_FILE fs) (VList sample_bookings);
     BRANDS_FILE := seed io_brands (BRANDS_FILE fs) (VList sample_brands) |}.

(** *** Terms of the properties below *)

(** The first record whose [id] equals [n]. *)
Definition find_record (n : Z) (records : list value) : option value :=
  find (id_is n) records.

(** The answer of a get-by-id, from what the search finds. *)
Definition answer_for (kind : string) (n : Z) (o : option value) : response :=
  match o with
  | Some c => fetched c
  | None => not_found kind n
  end.

(** A file that [load_json_file] cannot read. *)
Definition unavailable (f : file) : bool :=
  match f with Stored _ => false | _ => true end.

(** Two queries that differ at most in the case of their texts and in
    a text being absent or empty. *)
Definition same_criteria (a b : query) : Prop :=
  PyStr.lower (text (q_brand a)) = PyStr.lower (text (q_brand b)) /\
  PyStr.lower (text (q_segment a)) = PyStr.lower (text (q_segment b)) /\
  PyStr.lower (text (q_fuelType a)) = PyStr.lower (text (q_fuelType b)) /\
  PyStr.lower (text (q_transmission a)) = PyStr.lower (text (q_transmission b)) /\
  PyStr.lower (text (q_search a)) = PyStr.lower (text (q_search b)) /\
  q_minPrice a = q_minPrice b /\ q_maxPrice a = q_maxPrice b.

Definition with_brand (args : query) (b : option string) : query :=
  {| q_brand := b; q_segment := q_segment args;
     q_fuelType := q_fuelType args; q_transmission := q_transmission args;
     q_minPrice := q_minPrice args; q_maxPrice := q_maxPrice args;
     q_search := q_search args |}.

(** The sum of the counts of a distribution. *)
Definition counts_total (m : counts) : Z :=
  fold_right (fun kn t => snd kn + t) 0 m.

(** The answer to a payload that fails validation. *)
Definition rejected (errors : value) : response :=
  (VDict [("error", VStr "Validation failed"); ("details", errors);
          ("status", VInt 422)], 422).

(** The first field of a list that a payload lacks. *)
Definition first_lacking (d : dict) (fields : list string) : option string :=
  find (fun f => negb (dict_has d f)) fields.

(** The text of a field of a payload that is a string, trimmed. *)
Definition trimmed (d : dict) (k : string) : option value :=
  match dict_get d k with
  | Some (VStr s) => Some (VStr (PyStr.strip s))
  | _ => None
  end.

(** The record [add_car] builds from a payload. *)
Definition new_car_record (now : string) (id : Z) (d : dict) : dict :=
  dict_set (dict_extend [("id", VInt id)] d) "addedDate" (VStr now).

(** The outcome of a handler that reaches its write: the answer and
    the file when the write succeeds, status 500 with [msg] and the
    file as the failed write left it otherwise. *)
Definition written (io : disk) (ok : response) (data : value) (msg : string)
  : response * file :=
  match io with
  | Writes => (ok, Stored data)
  | Fails after => ((error_body msg 500, 500), after)
  end.

(** The keys of a stored booking, in order. *)
Definition booking_keys : list string :=
  ["id"; "name"; "email"; "phone"; "carModel"; "preferredDate"; "preferredTime";
   "comments"; "bookingDate"; "status"].

(** A value that is not a string. *)
Definition not_str (v : value) : bool :=
  match v with VStr _ => false | _ => true end.

(** [x] is a double: a mantissa of at most 53 bits and an exponent in
    range, the mantissa of full length unless the exponent is the
    least one. *)
Definition is_double (x : double) : Prop :=
  -1074 <= exponent x <= 971 /\
  0 <= mantissa x < 2 ^ 53 /\
  (2 ^ 52 <= mantissa x \/ exponent x = -1074).

(* ================================================================== *)
(** ** Lemmas on the primitives *)

Ltac inv H := inversion H; subst; clear H.

Lemma dict_get_set (d : dict) (k k' : string) (v : value) :
  dict_get (dict_set d k v) k' = if String.eqb k k' then Some v else dict_get d k'.
Proof.
  induction d as [|[k0 v0] r IH]; simpl.
  - reflexivity.
  - destruct (String.eqb k0 k) eqn:E; simpl.
    + apply String.eqb_eq in E; subst k0.
      destruct (String.eqb k k'); reflexivity.
    + rewrite IH. destruct (String.eqb k0 k') eqn:E'; [|reflexivity].
      apply String.eqb_eq in E'; subst k'.
      rewrite String.eqb_sym, E. reflexivity.
Qed.

Lemma dict_get_set_same (d : dict) (k : string) (v : value) :
  dict_get (dict_set d k v) k = Some v.
Proof. rewrite dict_get_set, String.eqb_refl. reflexivity. Qed.

Lemma dict_get_set_other (d : dict) (k k' : string) (v : value) :
  k <> k' -> dict_get (dict_set d k v) k' = dict_get d k'.
Proof.
  intros N. rewrite dict_get_set.
  destruct (String.eqb k k') eqn:E; [apply String.eqb_eq in E; contradiction|reflexivity].
Qed.

Lemma filterM_pure {A : Type} (p : A -> res bool) (q : A -> bool) (l : list A) :
  (forall a, In a l -> p a = Ok (q a)) -> filterM p l = Ok (filter q l).
Proof.
  induction l as [|a r IH]; intros H; simpl.
  - reflexivity.
  - rewrite (H a (or_introl eq_refl)); simpl.
    rewrite IH by (intros; apply H; right; assumption). simpl.
    destruct (q a); reflexivity.
Qed.

Lemma mapM_pure {A B : Type} (f : A -> res B) (g : A -> B) (l : list A) :
  (forall a, In a l -> f a = Ok (g a)) -> mapM f l = Ok (map g l).
Proof.
  induction l as [|a r IH]; intros H; simpl.
  - reflexivity.
  - rewrite (H a (or_introl eq_refl)); simpl.
    rewrite IH by (intros; apply H; right; assumption). reflexivity.
Qed.

Lemma filter_filter {A : Type} (p q : A -> bool) (l : list A) :
  filter q (filter p l) = filter (fun a => p a && q a) l.
Proof.
  induction l as [|a r IH]; simpl; [reflexivity|].
  destruct (p a); simpl; [destruct (q a)|]; rewrite IH; reflexivity.
Qed.

Lemma filter_all {A : Type} (l : list A) : filter (fun _ => true) l = l.
Proof. induction l as [|a r IH]; simpl; [|rewrite IH]; reflexivity. Qed.

Lemma filter_idem {A : Type} (p : A -> bool) (l : list A) :
  filter p (filter p l) = filter p l.
Proof.
  rewrite filter_filter. apply filter_ext. intros a. destruct (p a); reflexivity.
Qed.

Lemma filter_none {A : Type} (p : A -> bool) (l : list A) :
  (forall a, In a l -> p a = true) -> filter p l = l.
Proof.
  induction l as [|a r IH]; intros H; simpl; [reflexivity|].
  rewrite (H a (or_introl eq_refl)), IH; [reflexivity|].
  intros; apply H; right; assumption.
Qed.

(* ================================================================== *)
(** ** The record store: load *)

(** C3, evaluated.  With the empty list as default, a file that is
    missing, unreadable or not JSON makes [load_json_file] return the
    empty dict [{}], which is not the empty list: [[] or {}] is [{}]. *)
Theorem load_default_is_empty_dict :
  load_json_file Absent (VList []) = VDict [] /\
  load_json_file Unreadable (VList []) = VDict [] /\
  load_json_file Malformed (VList []) = VDict [] /\
  VDict [] <> VList [].
Proof. repeat split; try reflexivity. discriminate. Qed.

(** What follows from it: on a missing cars file, adding a car ends in
    [AttributeError], since a dict has no [append]. *)
Lemma add_car_on_missing_file (now : string) (io : disk) :
  add_car now io Absent (VDict (car_form 1)) = Raise AttributeError.
Proof. reflexivity. Qed.

(** A non-empty default is returned as it is. *)
Lemma load_default_truthy (f : file) (default_data : value) :
  (forall v, f <> Stored v) -> truthy default_data = true ->
  load_json_file f default_data = default_data.
Proof.
  intros H T. destruct f; simpl; unfold py_or; try rewrite T; try reflexivity.
  exfalso. apply (H v). reflexivity.
Qed.

(* ================================================================== *)
(** ** The list operation *)

Lemma given_int_zero : given_int (Some 0) = given_int None.
Proof. reflexivity. Qed.

(** C10.  A [minPrice] or [maxPrice] of 0 is treated as if the parameter
    were not there, whatever the cars file holds; so [maxPrice=0] alone
    lists every car. *)
Theorem zero_price_bound_is_no_bound (CARS_FILE : file) (args : query)
    (cars : list value) :
  get_cars CARS_FILE (with_minPrice args (Some 0)) =
    get_cars CARS_FILE (with_minPrice args None) /\
  get_cars CARS_FILE (with_maxPrice args (Some 0)) =
    get_cars CARS_FILE (with_maxPrice args None) /\
  get_cars (Stored (VList cars)) (with_maxPrice no_criteria (Some 0)) =
    Ok (listing cars).
Proof. repeat split; reflexivity. Qed.

Lemma field_is_pure (field wanted : string) (c : value) (s : string) :
  str_field c field = Some s ->
  field_is field wanted c = Ok (String.eqb (PyStr.lower s) (PyStr.lower wanted)).
Proof.
  unfold str_field, field_is. destruct c; try discriminate. simpl.
  destruct (dict_get d field) as [[]|]; try discriminate.
  intros H; inv H. reflexivity.
Qed.

Lemma price_pure (c : value) (p : Z) :
  int_field c "price" = Some p ->
  (forall m, price_ge m c = Ok (p >=? m)) /\ (forall m, price_le m c = Ok (p <=? m)).
Proof.
  unfold int_field, price_ge, price_le. destruct c; try discriminate. simpl.
  destruct (dict_get d "price") as [v|]; try discriminate. simpl.
  destruct (as_int v) eqn:E; try discriminate.
  intros H; inv H. simpl. split; reflexivity.
Qed.

Lemma search_hit_pure (search : string) (c : value) (m b : string) :
  str_field c "model" = Some m -> str_field c "brand" = Some b ->
  search_hit search c =
    Ok (PyStr.contains search (PyStr.lower m) || PyStr.contains search (PyStr.lower b)).
Proof.
  unfold str_field, search_hit. destruct c; try discriminate. simpl.
  destruct (dict_get d "model") as [[]|]; try discriminate.
  destruct (dict_get d "brand") as [[]|]; try discriminate.
  intros H1 H2; inv H1; inv H2. simpl.
  destruct (PyStr.contains search (PyStr.lower m)); reflexivity.
Qed.

Lemma is_empty_lower (s : string) : PyStr.is_empty (PyStr.lower s) = PyStr.is_empty s.
Proof. destruct s; reflexivity. Qed.

Lemma is_car_fields (c : value) :
  is_car c = true ->
  exists b m s f t p,
    str_field c "brand" = Some b /\ str_field c "model" = Some m /\
    str_field c "segment" = Some s /\ str_field c "fuelType" = Some f /\
    str_field c "transmission" = Some t /\ int_field c "price" = Some p.
Proof.
  unfold is_car. intros H.
  repeat (apply andb_prop in H; destruct H as [H ?]).
  destruct (str_field c "brand") as [b|]; try discriminate.
  destruct (str_field c "model") as [m|]; try discriminate.
  destruct (str_field c "segment") as [s|]; try discriminate.
  destruct (str_field c "fuelType") as [f|]; try discriminate.
  destruct (str_field c "transmission") as [t|]; try discriminate.
  destruct (int_field c "price") as [p|]; try discriminate.
  exists b, m, s, f, t, p. repeat split; reflexivity.
Qed.

(** One filtering step over records on which the test does not raise. *)
Lemma narrow_pure (crit : bool) (p : value -> res bool) (q : value -> bool)
    (l : list value) :
  (forall c, In c l -> p c = Ok (q c)) ->
  narrow crit p (VList l) = Ok (VList (filter (fun c => negb crit || q c) l)).
Proof.
  intros H. unfold narrow. destruct crit; simpl.
  - unfold comprehension. simpl. rewrite (filterM_pure p q l H). reflexivity.
  - rewrite filter_all. reflexivity.
Qed.

Lemma tests_pure (args : query) (c : value) :
  is_car c = true ->
  field_is "brand" (text (q_brand args)) c = Ok (text_test "brand" (q_brand args) c) /\
  field_is "segment" (text (q_segment args)) c = Ok (text_test "segment" (q_segment args) c) /\
  field_is "fuelType" (text (q_fuelType args)) c =
    Ok (text_test "fuelType" (q_fuelType args) c) /\
  field_is "transmission" (text (q_transmission args)) c =
    Ok (text_test "transmission" (q_transmission args) c) /\
  price_ge (number (q_minPrice args)) c = Ok (price_test Z.geb (q_minPrice args) c) /\
  price_le (number (q_maxPrice args)) c = Ok (price_test Z.leb (q_maxPrice args) c) /\
  (forall s, search_hit s c = Ok (search_test s c)).
Proof.
  intros H. destruct (is_car_fields c H) as (b & m & s & f & t & p & Hb & Hm & Hs & Hf & Ht & Hp).
  unfold text_test, price_test, search_test.
  rewrite Hb, Hm, Hs, Hf, Ht, Hp.
  destruct (price_pure c p Hp) as [Hge Hle].
  repeat split; auto using field_is_pure, search_hit_pure.
Qed.

Lemma satisfies_tests (args : query) (c : value) :
  is_car c = true ->
  satisfies args c =
    ((negb (given (q_brand args)) || text_test "brand" (q_brand args) c) &&
     (negb (given (q_segment args)) || text_test "segment" (q_segment args) c) &&
     (negb (given (q_fuelType args)) || text_test "fuelType" (q_fuelType args) c) &&
     (negb (given (q_transmission args)) ||
        text_test "transmission" (q_transmission args) c) &&
     (negb (given_int (q_minPrice args)) || price_test Z.geb (q_minPrice args) c) &&
     (negb (given_int (q_maxPrice args)) || price_test Z.leb (q_maxPrice args) c) &&
     (negb (negb (PyStr.is_empty (PyStr.lower (text (q_search args))))) ||
        search_test (PyStr.lower (text (q_search args))) c)).
Proof.
  intros H. destruct (is_car_fields c H) as (b & m & s & f & t & p & Hb & Hm & Hs & Hf & Ht & Hp).
  unfold satisfies, satisfies_with, matches_text, within, matches_search,
    text_test, price_test, search_test.
  rewrite Hb, Hm, Hs, Hf, Ht, Hp, is_empty_lower.
  destruct args as [qb qs qf qt qmin qmax qsearch]; simpl.
  f_equal; [f_equal; [f_equal; [f_equal; [f_equal; [f_equal|]|]|]|]|].
  - destruct qb as [w|]; simpl; [rewrite negb_involutive|]; reflexivity.
  - destruct qs as [w|]; simpl; [rewrite negb_involutive|]; reflexivity.
  - destruct qf as [w|]; simpl; [rewrite negb_involutive|]; reflexivity.
  - destruct qt as [w|]; simpl; [rewrite negb_involutive|]; reflexivity.
  - destruct qmin as [w|]; simpl; reflexivity.
  - destruct qmax as [w|]; simpl; reflexivity.
  - destruct qsearch as [w|]; simpl; [rewrite negb_involutive|]; reflexivity.
Qed.

Lemma filter_cars (p : value -> bool) (cars : list value) :
  Forall (fun c => is_car c = true) cars ->
  Forall (fun c => is_car c = true) (filter p cars).
Proof.
  rewrite !Forall_forall. intros H c Hc. apply filter_In in Hc. apply H, Hc.
Qed.

Ltac narrow_step args q :=
  match goal with
  | HF : Forall (fun c => is_car c = true) ?l |- context [narrow ?crit ?p (VList ?l)] =>
      rewrite (narrow_pure crit p q l)
        by (intros c Hc; rewrite Forall_forall in HF;
            apply (tests_pure args c (HF c Hc)));
      cbn [bind];
      apply (filter_cars (fun c => negb crit || q c)) in HF
  end.

(** C1, as amended.  On car records, the list operation answers with
    exactly the records that satisfy every supplied criterion, in the
    order of the store; a criterion that is empty, and a price bound of
    0, count as not supplied. *)
Theorem get_cars_filters (cars : list value) (args : query) :
  Forall (fun c => is_car c = true) cars ->
  get_cars (Stored (VList cars)) args = Ok (listing (filter (satisfies args) cars)) /\
  (forall c, In c (filter (satisfies args) cars) <->
             In c cars /\ satisfies args c = true).
Proof.
  intros HF. split; [|intros c; apply filter_In].
  assert (HF0 := proj1 (Forall_forall _ cars) HF).
  unfold get_cars. cbn [load_json_file].
  narrow_step args (text_test "brand" (q_brand args)).
  narrow_step args (text_test "segment" (q_segment args)).
  narrow_step args (text_test "fuelType" (q_fuelType args)).
  narrow_step args (text_test "transmission" (q_transmission args)).
  narrow_step args (price_test Z.geb (q_minPrice args)).
  narrow_step args (price_test Z.leb (q_maxPrice args)).
  narrow_step args (search_test (PyStr.lower (text (q_search args)))).
  clear HF. rewrite !filter_filter.
  cbn [py_len bind]. unfold listing.
  erewrite (filter_ext_in _ (satisfies args)); [reflexivity|].
  intros c Hc. rewrite (satisfies_tests args c (HF0 c Hc)), !andb_assoc.
  reflexivity.
Qed.

(** The amended claim at the sample cars and [minPrice=600000]. *)
Lemma get_cars_filters_witness :
  Forall (fun c => is_car c = true) sample_cars /\
  get_cars (Stored (VList sample_cars)) (with_minPrice no_criteria (Some 600000)) =
    Ok (listing (filter (satisfies (with_minPrice no_criteria (Some 600000))) sample_cars)).
Proof.
  assert (H : Forall (fun c => is_car c = true) sample_cars)
    by (repeat constructor).
  split; [exact H|].
  exact (proj1 (get_cars_filters sample_cars
                  (with_minPrice no_criteria (Some 600000)) H)).
Defined.

(** C1, as stated, fails: with [maxPrice=0] the car priced 1450000 is
    listed although it is not at most 0. *)
Lemma get_cars_ignores_zero_bound :
  let args := with_maxPrice no_criteria (Some 0) in
  let car := nth 0 sample_cars VNone in
  get_cars (Stored (VList sample_cars)) args = Ok (listing sample_cars) /\
  In car sample_cars /\
  int_field car "price" = Some 1450000 /\
  satisfies_stated args car = false.
Proof. repeat split; try reflexivity. left; reflexivity. Qed.

(* ================================================================== *)
(** ** Delete *)

Lemma other_id_pure (n : Z) (c : value) :
  has_id c = true -> other_id n c = Ok (negb (id_is n c)).
Proof.
  unfold has_id, other_id, id_is, dict_has. destruct c; try discriminate. simpl.
  destruct (dict_get d "id"); [reflexivity|discriminate].
Qed.

Lemma without_id_has_id (n : Z) (records : list value) :
  Forall (fun c => has_id c = true) records ->
  Forall (fun c => has_id c = true) (without_id n records).
Proof.
  rewrite !Forall_forall. intros H c Hc. apply filter_In in Hc. apply H, Hc.
Qed.

Lemma delete_comprehension (n : Z) (records : list value) :
  Forall (fun c => has_id c = true) records ->
  comprehension (VList records) (other_id n) = Ok (VList (without_id n records)).
Proof.
  intros H. unfold comprehension. simpl.
  rewrite (filterM_pure (other_id n) (fun c => negb (id_is n c))).
  - reflexivity.
  - intros c Hc. rewrite Forall_forall in H. apply other_id_pure, H, Hc.
Qed.

Lemma delete_car_removes (n : Z) (cars : list value) :
  Forall (fun c => has_id c = true) cars ->
  delete_car Writes (Stored (VList cars)) n =
    Ok (deleted "Car" n, Stored (VList (without_id n cars))).
Proof.
  intros H. unfold delete_car. cbn [load_json_file].
  rewrite (delete_comprehension n cars H). reflexivity.
Qed.

Lemma delete_booking_removes (n : Z) (bookings : list value) :
  Forall (fun c => has_id c = true) bookings ->
  delete_booking Writes (Stored (VList bookings)) n =
    Ok (deleted "Booking" n, Stored (VList (without_id n bookings))).
Proof.
  intros H. unfold delete_booking. cbn [load_json_file].
  rewrite (delete_comprehension n bookings H). reflexivity.
Qed.

Lemma without_id_idem (n : Z) (records : list value) :
  without_id n (without_id n records) = without_id n records.
Proof. apply filter_idem. Qed.

Lemma without_id_absent (n : Z) (records : list value) :
  (forall c, In c records -> id_is n c = false) -> without_id n records = records.
Proof.
  intros H. apply filter_none. intros c Hc. rewrite (H c Hc). reflexivity.
Qed.

(** C7.  On a store whose records carry an id and with a save that
    succeeds, delete answers success for every id; a second delete of
    the same id answers success again and leaves the store as the first
    left it.  For an id that no record has, already the first delete
    leaves the store as it was. *)
Theorem delete_is_idempotent (records : list value) (n : Z) :
  Forall (fun c => has_id c = true) records ->
  let after := Stored (VList (without_id n records)) in
  delete_car Writes (Stored (VList records)) n = Ok (deleted "Car" n, after) /\
  delete_car Writes after n = Ok (deleted "Car" n, after) /\
  delete_booking Writes (Stored (VList records)) n = Ok (deleted "Booking" n, after) /\
  delete_booking Writes after n = Ok (deleted "Booking" n, after) /\
  snd (deleted "Car" n) = 200 /\ snd (deleted "Booking" n) = 200 /\
  ((forall c, In c records -> id_is n c = false) -> after = Stored (VList records)).
Proof.
  intros H after. subst after.
  assert (H' := without_id_has_id n records H).
  repeat split.
  - apply delete_car_removes, H.
  - rewrite (delete_car_removes n _ H'), without_id_idem. reflexivity.
  - apply delete_booking_removes, H.
  - rewrite (delete_booking_removes n _ H'), without_id_idem. reflexivity.
  - intros A. rewrite (without_id_absent n records A). reflexivity.
Qed.

(** C7 at the sample cars: car 2 is deleted twice, car 9 does not
    exist. *)
Lemma delete_is_idempotent_witness :
  Forall (fun c => has_id c = true) sample_cars /\
  delete_car Writes (Stored (VList (without_id 2 sample_cars))) 2 =
    Ok (deleted "Car" 2, Stored (VList (without_id 2 sample_cars))) /\
  delete_car Writes (Stored (VList sample_cars)) 9 =
    Ok (deleted "Car" 9, Stored (VList sample_cars)).
Proof.
  assert (H : Forall (fun c => has_id c = true) sample_cars) by (repeat constructor).
  split; [exact H|]. split.
  - exact (proj1 (proj2 (delete_is_idempotent sample_cars 2 H))).
  - exact (proj1 (delete_is_idempotent sample_cars 9 H)).
Defined.

(* ================================================================== *)
(** ** Statistics *)

Lemma key_eqb_sym (a b : value) : key_eqb a b = key_eqb b a.
Proof.
  destruct a, b; simpl; try reflexivity;
    first [apply Z.eqb_sym | apply String.eqb_sym].
Qed.

Lemma key_eqb_trans (a b c : value) :
  key_eqb a b = true -> key_eqb b c = key_eqb a c.
Proof.
  destruct a, b; simpl; try discriminate; intros H;
    first [apply Z.eqb_eq in H | apply String.eqb_eq in H | idtac];
    destruct c; simpl; try reflexivity; try (rewrite H; reflexivity);
    try (rewrite <- H; reflexivity); subst; reflexivity.
Qed.

Lemma key_eqb_refl (a : value) : hashable a = true -> key_eqb a a = true.
Proof.
  destruct a; simpl; try discriminate; intros _;
    first [reflexivity | apply Z.eqb_refl | apply String.eqb_refl].
Qed.

Lemma counts_get_find (m : counts) (k : value) (default : Z) :
  counts_get m k default =
    match counts_find m k with Some n => n | None => default end.
Proof.
  induction m as [|[k0 n0] r IH]; simpl; [reflexivity|].
  destruct (key_eqb k0 k); [reflexivity|apply IH].
Qed.

Lemma counts_find_set (m : counts) (k k' : value) (n : Z) :
  hashable k = true ->
  counts_find (counts_set m k n) k' =
    if key_eqb k k' then Some n else counts_find m k'.
Proof.
  intros Hk. induction m as [|[k0 n0] r IH]; simpl.
  - reflexivity.
  - destruct (key_eqb k0 k) eqn:E; simpl.
    + rewrite (key_eqb_trans k0 k k' E).
      destruct (key_eqb k0 k'); reflexivity.
    + rewrite IH. destruct (key_eqb k0 k') eqn:E'; [|reflexivity].
      destruct (key_eqb k k') eqn:E''; [|reflexivity].
      rewrite key_eqb_sym in E''.
      rewrite <- (key_eqb_trans k0 k' k E'), E'' in E. discriminate.
Qed.

Lemma sum_prices_pure (cars : list value) (acc : Z) :
  Forall (fun c => is_car c = true) cars ->
  sum_prices cars acc = Ok (acc + total_price cars).
Proof.
  intros H. revert acc. induction H as [|c r Hc Hr IH]; intros acc; simpl.
  - rewrite Z.add_0_r. reflexivity.
  - destruct (is_car_fields c Hc) as (_ & _ & _ & _ & _ & p & _ & _ & _ & _ & _ & Hp).
    unfold int_field in Hp. unfold price_of. destruct c; try discriminate. simpl.
    destruct (dict_get d "price") as [v|]; try discriminate. simpl.
    destruct v; try discriminate; simpl; rewrite IH; f_equal; lia.
Qed.

Lemma round_half_even_close (num den : Z) :
  0 < den -> 2 * Z.abs (num - round_half_even num den * den) <= den.
Proof.
  intros Hd. unfold round_half_even.
  pose proof (Z.div_mod num den ltac:(lia)) as E.
  pose proof (Z.mod_pos_bound num den Hd) as B.
  destruct (2 * (num mod den) <? den) eqn:L1.
  - apply Z.ltb_lt in L1. nia.
  - apply Z.ltb_ge in L1. destruct (den <? 2 * (num mod den)) eqn:L2.
    + apply Z.ltb_lt in L2. nia.
    + apply Z.ltb_ge in L2. destruct (Z.even (num / den)); nia.
Qed.

Lemma scaled_den_pos (a b e : Z) : 0 < b -> 0 < snd (scaled a b e).
Proof.
  intros Hb. unfold scaled. destruct (0 <=? e) eqn:E; simpl; [|exact Hb].
  apply Z.leb_le in E. pose proof (Z.pow_pos_nonneg 2 e ltac:(lia) E). nia.
Qed.

(** The double of a quotient is within half a unit in the last place
    of the quotient. *)
Lemma nearest_double_close (neg : bool) (a b : Z) :
  0 < b -> within_half_ulp (nearest_double neg (Z.abs a) b) a b.
Proof.
  intros Hb. unfold within_half_ulp.
  generalize (Z.abs_nonneg a). generalize (Z.abs a). clear a. intros a Ha.
  unfold nearest_double.
  destruct (a =? 0) eqn:A0.
  - apply Z.eqb_eq in A0. subst a. cbn [exponent mantissa]. unfold scaled. simpl.
    lia.
  - set (e := Z.max (floor_log2_ratio a b - 52) (-1074)).
    destruct (scaled a b e) as [num den] eqn:S.
    pose proof (scaled_den_pos a b e Hb) as Dp. rewrite S in Dp. simpl in Dp.
    pose proof (round_half_even_close num den Dp) as C.
    destruct (round_half_even num den =? 2 ^ 53) eqn:M; cbn [exponent mantissa].
    + apply Z.eqb_eq in M. rewrite M in C.
      unfold scaled in *. destruct (0 <=? e) eqn:E.
      * apply Z.leb_le in E. inv S.
        replace (0 <=? e + 1) with true by (symmetry; apply Z.leb_le; lia).
        rewrite Z.pow_add_r by lia. change (2 ^ 53) with (2 * 2 ^ 52) in C.
        pose proof (Z.pow_pos_nonneg 2 e ltac:(lia) E). nia.
      * apply Z.leb_gt in E. inv S.
        assert (P : 2 ^ (- e) = 2 * 2 ^ (- (e + 1))).
        { replace (- e) with (Z.succ (- (e + 1))) by lia.
          apply Z.pow_succ_r. lia. }
        rewrite P in C. change (2 ^ 53) with (2 * 2 ^ 52) in C.
        destruct (0 <=? e + 1) eqn:E1.
        -- apply Z.leb_le in E1. clearbody e. assert (e = -1) by lia. subst e.
           change (-1 + 1) with 0 in *. change (- 0) with 0 in *.
           rewrite Z.pow_0_r in *. lia.
        -- clearbody e. nia.
    + rewrite S. exact C.
Qed.

Lemma cars_of_brand_nonneg (b : string) (cars : list value) : 0 <= cars_of_brand b cars.
Proof. unfold cars_of_brand. lia. Qed.

Lemma cars_of_brand_cons (b : string) (c : value) (cars : list value) :
  cars_of_brand b (c :: cars) =
    (match str_field c "brand" with
     | Some s => if String.eqb s b then 1 else 0
     | None => 0
     end) + cars_of_brand b cars.
Proof.
  unfold cars_of_brand. simpl.
  destruct (str_field c "brand") as [s|]; [destruct (String.eqb s b)|];
    simpl List.length; lia.
Qed.

Lemma count_brands_pure (cars : list value) (dist : counts) :
  Forall (fun c => has_brand c = true) cars ->
  exists dist',
    count_brands cars dist = Ok dist' /\
    forall b, counts_find dist' (VStr b) =
                bump (counts_find dist (VStr b)) (cars_of_brand b cars).
Proof.
  intros H. revert dist. induction H as [|c r Hc Hr IH]; intros dist.
  - exists dist. split; reflexivity.
  - unfold has_brand, str_field in Hc.
    destruct c as [| | | | |d]; try discriminate.
    destruct (dict_get d "brand") as [[| | |s| |]|] eqn:E; try discriminate.
    destruct (IH (counts_set dist (VStr s) (counts_get dist (VStr s) 0 + 1)))
      as (dist' & Hrun & Hfind).
    exists dist'. split.
    + simpl. rewrite E. simpl. exact Hrun.
    + intros b. rewrite Hfind, counts_find_set by reflexivity.
      rewrite cars_of_brand_cons. unfold str_field. rewrite E.
      rewrite counts_get_find. simpl key_eqb.
      pose proof (cars_of_brand_nonneg b r) as N.
      unfold bump.
      destruct (String.eqb s b) eqn:Esb.
      * apply String.eqb_eq in Esb; subst s.
        destruct (cars_of_brand b r =? 0) eqn:Z0.
        -- apply Z.eqb_eq in Z0. rewrite Z0. simpl. reflexivity.
        -- replace (1 + cars_of_brand b r =? 0) with false
             by (symmetry; apply Z.eqb_neq; lia).
           f_equal. lia.
      * reflexivity.
Qed.

Lemma is_car_has_brand (cars : list value) :
  Forall (fun c => is_car c = true) cars -> Forall (fun c => has_brand c = true) cars.
Proof.
  apply Forall_impl. intros c H.
  destruct (is_car_fields c H) as (b & _ & _ & _ & _ & _ & Hb & _).
  unfold has_brand. rewrite Hb. reflexivity.
Qed.

Lemma counts_set_text_keys (m : counts) (k : value) (n : Z) :
  forallb is_text (map fst m) = true -> is_text k = true ->
  forallb is_text (map fst (counts_set m k n)) = true.
Proof.
  intros Hm Hk. induction m as [|[k0 n0] r IH]; simpl in *.
  - rewrite Hk. reflexivity.
  - apply andb_prop in Hm. destruct Hm as [H0 Hr].
    destruct (key_eqb k0 k); simpl; rewrite H0; [exact Hr|apply IH, Hr].
Qed.

(** With brands that are strings, the keys of the distribution are
    strings, which [jsonify] can sort. *)
Lemma count_brands_text_keys (cars : list value) (dist dist' : counts) :
  Forall (fun c => has_brand c = true) cars ->
  forallb is_text (map fst dist) = true ->
  count_brands cars dist = Ok dist' ->
  forallb is_text (map fst dist') = true.
Proof.
  intros H. revert dist. induction H as [|c r Hc Hr IH]; intros dist Hd Hrun.
  - simpl in Hrun. inv Hrun. exact Hd.
  - unfold has_brand, str_field in Hc.
    destruct c as [| | | | |d]; try discriminate.
    destruct (dict_get d "brand") as [[| | |s| |]|] eqn:E; try discriminate.
    simpl in Hrun. rewrite E in Hrun. simpl in Hrun.
    apply (IH _ (counts_set_text_keys dist (VStr s) _ Hd eq_refl) Hrun).
Qed.

Lemma text_keys_sortable (keys : list value) :
  forallb is_text keys = true -> sortable keys = true.
Proof.
  intros H. unfold sortable. destruct keys as [|k [|k' r]]; try reflexivity.
  rewrite H. reflexivity.
Qed.

Lemma pow2_pos (e : Z) : 0 <= e -> 0 < 2 ^ e.
Proof. intros H. apply Z.pow_pos_nonneg; lia. Qed.

Lemma scaled_pos (a b e : Z) :
  0 < a -> 0 < b -> 0 < fst (scaled a b e) /\ 0 < snd (scaled a b e).
Proof.
  intros Ha Hb. unfold scaled. destruct (0 <=? e) eqn:E; simpl.
  - apply Z.leb_le in E. pose proof (pow2_pos e E). split; nia.
  - apply Z.leb_gt in E. pose proof (pow2_pos (- e) ltac:(lia)). split; nia.
Qed.

(** (a/b)/2^k = ((a/b)/2^(k+j)) * 2^j, cross-multiplied. *)
Lemma scaled_shift (a b k j : Z) :
  0 <= j ->
  fst (scaled a b k) * snd (scaled a b (k + j)) =
  fst (scaled a b (k + j)) * snd (scaled a b k) * 2 ^ j.
Proof.
  intros Hj. unfold scaled.
  destruct (0 <=? k) eqn:K; destruct (0 <=? k + j) eqn:KJ; simpl;
    try apply Z.leb_le in K; try apply Z.leb_gt in K;
    try apply Z.leb_le in KJ; try apply Z.leb_gt in KJ; try lia.
  - rewrite Z.pow_add_r by lia. ring.
  - replace j with (- k + (k + j)) at 2 by lia.
    rewrite (Z.pow_add_r 2 (- k) (k + j)) by lia. ring.
  - replace (- k) with (- (k + j) + j) by lia.
    rewrite (Z.pow_add_r 2 (- (k + j)) j) by lia. ring.
Qed.

Lemma floor_log2_ratio_spec (a b : Z) :
  0 < a -> 0 < b ->
  let k := floor_log2_ratio a b in
  snd (scaled a b k) <= fst (scaled a b k) < 2 * snd (scaled a b k).
Proof.
  intros Ha Hb.
  assert (B : snd (scaled a b (Z.log2 a - Z.log2 b)) < 2 * fst (scaled a b (Z.log2 a - Z.log2 b))
              /\ fst (scaled a b (Z.log2 a - Z.log2 b)) < 2 * snd (scaled a b (Z.log2 a - Z.log2 b))).
  { pose proof (Z.log2_spec a Ha) as [A1 A2]. pose proof (Z.log2_spec b Hb) as [B1 B2].
    pose proof (Z.log2_nonneg a) as La. pose proof (Z.log2_nonneg b) as Lb.
    rewrite Z.pow_succ_r in A2, B2 by lia.
    unfold scaled. destruct (0 <=? Z.log2 a - Z.log2 b) eqn:D; cbn [fst snd].
    - apply Z.leb_le in D.
      assert (E : 2 ^ Z.log2 a = 2 ^ Z.log2 b * 2 ^ (Z.log2 a - Z.log2 b)).
      { rewrite <- Z.pow_add_r by lia. f_equal. lia. }
      pose proof (pow2_pos _ D) as Pd. pose proof (pow2_pos _ Lb) as Pb.
      set (y := 2 ^ (Z.log2 a - Z.log2 b)) in *. clearbody y.
      set (x := 2 ^ Z.log2 b) in *. clearbody x.
      set (z := 2 ^ Z.log2 a) in *. clearbody z. subst z.
      assert (b * y < 2 * x * y) by (apply Z.mul_lt_mono_pos_r; lia).
      assert (x * y <= b * y) by (apply Z.mul_le_mono_nonneg_r; lia).
      split; lia.
    - apply Z.leb_gt in D.
      assert (E : 2 ^ Z.log2 b = 2 ^ Z.log2 a * 2 ^ (- (Z.log2 a - Z.log2 b))).
      { rewrite <- Z.pow_add_r by lia. f_equal. lia. }
      pose proof (pow2_pos (- (Z.log2 a - Z.log2 b)) ltac:(lia)) as Py.
      pose proof (pow2_pos _ La) as Pz.
      set (y := 2 ^ (- (Z.log2 a - Z.log2 b))) in *. clearbody y.
      set (z := 2 ^ Z.log2 a) in *. clearbody z.
      set (x := 2 ^ Z.log2 b) in *. clearbody x. subst x.
      assert (a * y < 2 * z * y) by (apply Z.mul_lt_mono_pos_r; lia).
      assert (z * y <= a * y) by (apply Z.mul_le_mono_nonneg_r; lia).
      split; lia. }
  unfold floor_log2_ratio. set (d := Z.log2 a - Z.log2 b) in *. clearbody d.
  destruct (scaled a b d) as [n dn] eqn:S. cbn [fst snd] in B.
  destruct (dn <=? n) eqn:T; cbv zeta.
  - apply Z.leb_le in T. rewrite S. cbn [fst snd]. lia.
  - apply Z.leb_gt in T.
    pose proof (scaled_shift a b (d - 1) 1 ltac:(lia)) as H.
    replace (d - 1 + 1) with d in H by lia. rewrite S in H. cbn [fst snd] in H.
    destruct (scaled_pos a b (d - 1) Ha Hb) as [P1 P2].
    destruct (scaled_pos a b d Ha Hb) as [Q1 Q2]. rewrite S in Q1, Q2.
    cbn [fst snd] in Q1, Q2. change (2 ^ 1) with 2 in H.
    set (u := fst (scaled a b (d - 1))) in *. set (v := snd (scaled a b (d - 1))) in *.
    clearbody u v. split; nia.
Qed.

Lemma round_half_even_bounds (num den : Z) :
  num / den <= round_half_even num den <= num / den + 1.
Proof.
  unfold round_half_even.
  destruct (2 * (num mod den) <? den); [lia|].
  destruct (den <? 2 * (num mod den)); [lia|].
  destruct (Z.even (num / den)); lia.
Qed.

Lemma round_up_remainder (num den : Z) :
  0 < den -> round_half_even num den = num / den + 1 -> den <= 2 * (num mod den).
Proof.
  intros Hd. unfold round_half_even.
  destruct (2 * (num mod den) <? den) eqn:L; [lia|]. intros _.
  apply Z.ltb_ge in L. exact L.
Qed.

Lemma nearest_double_is_double (neg : bool) (a b : Z) :
  0 <= a -> 0 < b -> a < float_limit * b -> is_double (nearest_double neg a b).
Proof.
  intros Ha Hb Hfit. unfold nearest_double.
  destruct (a =? 0) eqn:A0.
  - unfold is_double. cbn [exponent mantissa]. lia.
  - apply Z.eqb_neq in A0. assert (Hpos : 0 < a) by lia.
    pose proof (floor_log2_ratio_spec a b Hpos Hb) as K. cbv zeta in K.
    set (k := floor_log2_ratio a b) in *. clearbody k.
    assert (Klim : k <= 1023).
    { destruct (Z.le_gt_cases k 1023) as [L|G]; [exact L|exfalso].
      unfold scaled in K. replace (0 <=? k) with true in K
        by (symmetry; apply Z.leb_le; lia).
      cbn [fst snd] in K.
      assert (2 ^ 1024 <= 2 ^ k) by (apply Z.pow_le_mono_r; lia).
      unfold float_limit in Hfit.
      assert (b * 2 ^ 1024 <= b * 2 ^ k) by (apply Z.mul_le_mono_nonneg_l; lia).
      lia. }
    pose proof (scaled_shift a b (k - 52) 52 ltac:(lia)) as S52.
    replace (k - 52 + 52) with k in S52 by lia.
    destruct (scaled_pos a b k Hpos Hb) as [Uk Vk].
    destruct (scaled_pos a b (k - 52) Hpos Hb) as [U52 V52].
    set (uk := fst (scaled a b k)) in *. set (vk := snd (scaled a b k)) in *.
    set (u := fst (scaled a b (k - 52))) in *. set (v := snd (scaled a b (k - 52))) in *.
    assert (R52 : 2 ^ 52 * v <= u < 2 ^ 53 * v).
    { clearbody uk vk u v. change (2 ^ 53) with (2 * 2 ^ 52).
      set (p := 2 ^ 52) in *. assert (0 < p) by (subst p; lia). clearbody p.
      split; nia. }
    destruct (Z.le_gt_cases (-1074) (k - 52)) as [Hn|Hs].
    + (* normal *)
      rewrite (Z.max_l (k - 52) (-1074)) by lia.
      destruct (scaled a b (k - 52)) as [num den] eqn:S.
      subst u v. cbn [fst snd] in *.
      assert (Q : 2 ^ 52 <= num / den < 2 ^ 53).
      { split; [apply Z.div_le_lower_bound; lia|apply Z.div_lt_upper_bound; lia]. }
      pose proof (round_half_even_bounds num den) as Rb.
      destruct (round_half_even num den =? 2 ^ 53) eqn:M;
        unfold is_double; cbn [exponent mantissa].
      * apply Z.eqb_eq in M.
        split; [|split; [lia|left; lia]].
        split; [lia|].
        destruct (Z.eq_dec k 1023) as [->|Hk]; [exfalso|lia].
        assert (Hq : round_half_even num den = num / den + 1) by lia.
        pose proof (round_up_remainder num den V52 Hq) as Hr.
        pose proof (Z.div_mod num den ltac:(lia)) as Ediv.
        assert (Eq : num / den = 2 ^ 53 - 1) by lia.
        unfold scaled in S. change (0 <=? 1023 - 52) with true in S. inv S.
        unfold float_limit in Hfit.
        rewrite Eq in Ediv. change (1023 - 52) with 971 in *.
        set (r := num mod (b * 2 ^ 971)) in *. clearbody r. lia.
      * apply Z.eqb_neq in M. split; [lia|]. split; [lia|left; lia].
    + (* subnormal *)
      rewrite (Z.max_r (k - 52) (-1074)) by lia.
      pose proof (scaled_shift a b (k - 52) (-1074 - (k - 52)) ltac:(lia)) as Sj.
      replace (k - 52 + (-1074 - (k - 52))) with (-1074) in Sj by lia.
      destruct (scaled_pos a b (-1074) Hpos Hb) as [Un Vn].
      destruct (scaled a b (-1074)) as [num den] eqn:S.
      fold u v in Sj. cbn [fst snd] in *.
      assert (J : 2 <= 2 ^ (-1074 - (k - 52))).
      { change 2 with (2 ^ 1) at 1. apply Z.pow_le_mono_r; lia. }
      set (pj := 2 ^ (-1074 - (k - 52))) in *. clearbody pj.
      assert (Q : num / den < 2 ^ 52).
      { apply Z.div_lt_upper_bound; [lia|].
        clearbody uk vk u v. change (2 ^ 53) with (2 * 2 ^ 52) in R52.
        set (p := 2 ^ 52) in *. assert (0 < p) by (subst p; lia). clearbody p.
        assert (E1 : u * den < 2 * p * v * den) by (apply Z.mul_lt_mono_pos_r; lia).
        assert (E2 : num * pj * v < 2 * p * den * v) by lia.
        assert (E3 : num * pj < 2 * p * den)
          by (apply (Z.mul_lt_mono_pos_r v); [lia|exact E2]).
        assert (E4 : num * 2 <= num * pj) by (apply Z.mul_le_mono_nonneg_l; lia).
        lia. }
      assert (Q0 : 0 <= num / den) by (apply Z.div_pos; lia).
      pose proof (round_half_even_bounds num den) as Rb.
      replace (round_half_even num den =? 2 ^ 53) with false
        by (symmetry; apply Z.eqb_neq; lia).
      unfold is_double; cbn [exponent mantissa].
      split; [lia|]. split; [lia|right; reflexivity].
Qed.

(** Integer division at a few quotients: a third, a negative half, two
    ties (to the even mantissa), the largest double and the first
    quotient that has none, a subnormal and a quotient that rounds to
    zero. *)
Lemma py_truediv_examples :
  py_truediv 1 3 =
    Ok {| negative := false; mantissa := 6004799503160661; exponent := -54 |} /\
  py_truediv (-7) 2 =
    Ok {| negative := true; mantissa := 7881299347898368; exponent := -51 |} /\
  py_truediv (2 ^ 53 + 1) 1 =
    Ok {| negative := false; mantissa := 2 ^ 52; exponent := 1 |} /\
  py_truediv (2 ^ 53 + 3) 1 =
    Ok {| negative := false; mantissa := 2 ^ 52 + 2; exponent := 1 |} /\
  py_truediv (float_limit - 1) 1 =
    Ok {| negative := false; mantissa := 2 ^ 53 - 1; exponent := 971 |} /\
  py_truediv float_limit 1 = Raise OverflowError /\
  py_truediv 3 (2 ^ 1076) =
    Ok {| negative := false; mantissa := 1; exponent := -1074 |} /\
  py_truediv 1 (2 ^ 1075) =
    Ok {| negative := false; mantissa := 0; exponent := -1074 |} /\
  py_truediv 1 0 = Raise ZeroDivisionError.
Proof. repeat split; vm_compute; reflexivity. Qed.

(** Brands of two kinds, a number and a string, are counted, and then
    cannot be written: the statistics raise [TypeError]. *)
Lemma get_stats_mixed_brands :
  get_stats (Stored (VList [VDict [("brand", VInt 5); ("price", VInt 1)];
                            VDict [("brand", VStr "Tata Motors"); ("price", VInt 2)]]))
            (Stored (VList [])) (Stored (VList [])) = Raise TypeError.
Proof. vm_compute. reflexivity. Qed.

(** The division of a total by a count that is within the range. *)
Lemma py_truediv_fits (total n : Z) :
  0 < n -> Z.abs total < float_limit * n ->
  py_truediv total n = Ok (nearest_double (total <? 0) (Z.abs total) n).
Proof.
  intros Hn Hfit. unfold py_truediv.
  replace (n =? 0) with false by (symmetry; apply Z.eqb_neq; lia).
  rewrite (Z.abs_eq n) by lia.
  replace (float_limit * n <=? Z.abs total) with false
    by (symmetry; apply Z.leb_gt; exact Hfit).
  replace (n <? 0) with false by (symmetry; apply Z.ltb_ge; lia).
  rewrite xorb_false_r. reflexivity.
Qed.

(** The statistics on car records whose mean price fits a float. *)
Lemma get_stats_runs (cars bookings brands : list value) :
  Forall (fun c => is_car c = true) cars -> mean_fits cars ->
  exists dist,
    count_brands cars [] = Ok dist /\
    (forall b, counts_find dist (VStr b) =
                 bump (counts_find [] (VStr b)) (cars_of_brand b cars)) /\
    get_stats (Stored (VList cars)) (Stored (VList bookings)) (Stored (VList brands)) =
      Ok ({| totalCars := Z.of_nat (List.length cars);
             totalBrands := Z.of_nat (List.length brands);
             totalBookings := Z.of_nat (List.length bookings);
             averageCarPrice :=
               match cars with
               | [] => Int 0
               | _ => Float (nearest_double (total_price cars <? 0)
                               (Z.abs (total_price cars))
                               (Z.of_nat (List.length cars)))
               end;
             brandDistribution := dist |}, 200).
Proof.
  intros H Hfit.
  destruct (count_brands_pure cars [] (is_car_has_brand cars H)) as (dist & Hrun & Hfind).
  pose proof (count_brands_text_keys cars [] dist (is_car_has_brand cars H) eq_refl Hrun)
    as Hkeys.
  exists dist. split; [exact Hrun|]. split; [exact Hfind|].
  unfold get_stats. cbn [load_json_file py_len bind py_iter].
  unfold average_price. destruct cars as [|c r].
  - cbn [truthy bind]. rewrite Hrun. cbn [bind].
    rewrite (text_keys_sortable _ Hkeys). reflexivity.
  - cbn [truthy py_iter bind py_len].
    rewrite (sum_prices_pure (c :: r) 0 H). cbn [bind]. rewrite Z.add_0_l.
    destruct Hfit as [Hfit|Hfit]; [discriminate Hfit|].
    assert (Hn : 0 < Z.of_nat (List.length (c :: r))) by (simpl List.length; lia).
    rewrite (py_truediv_fits _ _ Hn Hfit). cbn [bind].
    rewrite Hrun. cbn [bind]. rewrite (text_keys_sortable _ Hkeys). reflexivity.
Qed.

(** C8, as amended.  From the three collections as they are, with car
    records whose mean price is within the range of a float, the
    statistics are the three counts, the mean price (the integer 0
    without cars, else the float nearest to the total over the count)
    and, per brand, the number of cars of that brand; a brand without
    cars has no entry. *)
Theorem get_stats_computes (cars bookings brands : list value) :
  Forall (fun c => is_car c = true) cars -> mean_fits cars ->
  exists s,
    get_stats (Stored (VList cars)) (Stored (VList bookings)) (Stored (VList brands)) =
      Ok (s, 200) /\
    totalCars s = Z.of_nat (List.length cars) /\
    totalBookings s = Z.of_nat (List.length bookings) /\
    totalBrands s = Z.of_nat (List.length brands) /\
    (cars = [] -> averageCarPrice s = Int 0) /\
    (cars <> [] ->
     exists x,
       averageCarPrice s = Float x /\
       x = nearest_double (total_price cars <? 0) (Z.abs (total_price cars))
             (Z.of_nat (List.length cars)) /\
       is_double x /\
       within_half_ulp x (total_price cars) (Z.of_nat (List.length cars))) /\
    (forall b, counts_find (brandDistribution s) (VStr b) =
                 if cars_of_brand b cars =? 0 then None
                 else Some (cars_of_brand b cars)).
Proof.
  intros H Hfit.
  destruct (get_stats_runs cars bookings brands H Hfit) as (dist & _ & Hfind & Hrun).
  eexists. split; [exact Hrun|].
  cbn [totalCars totalBookings totalBrands averageCarPrice brandDistribution].
  split; [reflexivity|]. split; [reflexivity|]. split; [reflexivity|].
  split; [intros ->; reflexivity|]. split.
  - intros Hne. destruct cars as [|c r]; [contradiction Hne; reflexivity|].
    eexists. split; [reflexivity|]. split; [reflexivity|]. split.
    + destruct Hfit as [Hfit|Hfit]; [discriminate Hfit|].
      apply nearest_double_is_double; [lia|simpl List.length; lia|exact Hfit].
    + apply nearest_double_close. simpl List.length. lia.
  - intros b. rewrite Hfind. reflexivity.
Qed.

Lemma sample_cars_are_cars : Forall (fun c => is_car c = true) sample_cars.
Proof. repeat constructor. Qed.

Lemma sample_mean_fits : mean_fits sample_cars.
Proof. right. vm_compute. reflexivity. Qed.

(** C8, as amended, at the sample data: three cars, no booking, three
    brands, a mean of 3209000/3, which as a double is
    4594183350954667 * 2^-32. *)
Lemma get_stats_computes_witness :
  Forall (fun c => is_car c = true) sample_cars /\ mean_fits sample_cars /\
  exists s,
    get_stats (Stored (VList sample_cars)) (Stored (VList sample_bookings))
              (Stored (VList sample_brands)) = Ok (s, 200) /\
    totalCars s = 3 /\
    averageCarPrice s =
      Float {| negative := false; mantissa := 4594183350954667; exponent := -32 |} /\
    counts_find (brandDistribution s) (VStr "Tata Motors") = Some 2 /\
    counts_find (brandDistribution s) (VStr "Maruti Suzuki") = None.
Proof.
  split; [exact sample_cars_are_cars|]. split; [exact sample_mean_fits|].
  destruct (get_stats_computes sample_cars sample_bookings sample_brands
              sample_cars_are_cars sample_mean_fits)
    as (s & Hs & Hc & _ & _ & _ & Hm & Hd).
  exists s. split; [exact Hs|]. split; [exact Hc|]. split.
  - destruct (Hm ltac:(discriminate)) as (x & Hx & Ex & _).
    rewrite Hx, Ex. reflexivity.
  - split; [exact (Hd "Tata Motors")|exact (Hd "Maruti Suzuki")].
Defined.

(** C8, as stated, fails: a car can have any number as its price, and
    with one car priced 10^309 the division of the total by the count
    has no float; the statistics raise [OverflowError]. *)
Lemma get_stats_overflows :
  is_car costly_car = true /\
  total_price [costly_car] = 10 ^ 309 /\
  get_stats (Stored (VList [costly_car])) (Stored (VList sample_bookings))
            (Stored (VList sample_brands)) = Raise OverflowError.
Proof. repeat split; vm_compute; reflexivity. Qed.

(** Without cars, or without any of the files, the mean is the integer
    0 and nothing is divided. *)
Lemma get_stats_without_cars (bookings brands : list value) :
  (exists s, get_stats (Stored (VList [])) (Stored (VList bookings))
               (Stored (VList brands)) = Ok (s, 200) /\ averageCarPrice s = Int 0) /\
  (exists s, get_stats Absent Absent Absent = Ok (s, 200) /\
             averageCarPrice s = Int 0 /\ totalCars s = 0).
Proof.
  split; eexists; repeat split; reflexivity.
Qed.

(* ================================================================== *)
(** ** The booking validator *)

Lemma check_required_pure (d : dict) (fields : list string) (errors : dict) :
  exists errors',
    check_required (VDict d) fields errors = Ok errors' /\
    forall f, dict_get errors' f =
                if existsb (String.eqb f) fields && blank d f
                then Some (VStr (f ++ " is required"))
                else dict_get errors f.
Proof.
  revert errors. induction fields as [|field rest IH]; intros errors.
  - exists errors. split; reflexivity.
  - set (errors1 := if blank d field
                    then dict_set errors field (VStr (field ++ " is required"))
                    else errors).
    destruct (IH errors1) as (errors' & Hrun & Hget).
    exists errors'. split.
    + simpl. unfold dict_has, blank in *.
      destruct (dict_get d field) as [v|]; simpl; exact Hrun.
    + intros f. rewrite Hget. simpl existsb.
      destruct (String.eqb f field) eqn:E.
      * apply String.eqb_eq in E; subst f. subst errors1.
        destruct (blank d field) eqn:B.
        -- rewrite andb_true_r, orb_true_l. simpl.
           destruct (existsb (String.eqb field) rest); [reflexivity|].
           apply dict_get_set_same.
        -- rewrite !andb_false_r. reflexivity.
      * simpl orb. destruct (existsb (String.eqb f) rest && blank d f); [reflexivity|].
        subst errors1. destruct (blank d field); [|reflexivity].
        apply dict_get_set_other. intros ->. rewrite String.eqb_refl in E. discriminate.
Qed.

Lemma bad_phone_ten_digits (phone : string) :
  bad_phone phone = negb (ten_digits phone).
Proof.
  unfold bad_phone, ten_digits, PyStr.isdigit. destruct phone as [|c r].
  - reflexivity.
  - cbn [PyStr.is_empty negb andb].
    destruct (PyStr.len (String c r) =? 10), (PyStr.all_chars PyStr.isdigit_char (String c r));
      reflexivity.
Qed.

Lemma email_step (d e : dict) :
  (if dict_has d "email" then
     v <- py_getitem (VDict d) "email" ;;
     Ok (if negb (PyStr.contains "@" (py_str v))
         then dict_set e "email" (VStr "Invalid email format")
         else e)
   else Ok e) =
  Ok (if email_malformed d then dict_set e "email" (VStr "Invalid email format") else e).
Proof.
  unfold dict_has, email_malformed. simpl.
  destruct (dict_get d "email"); reflexivity.
Qed.

Lemma phone_step (d e : dict) :
  (if dict_has d "phone" then
     v <- py_getitem (VDict d) "phone" ;;
     Ok (if bad_phone (clean_phone v)
         then dict_set e "phone" (VStr "Phone must be 10 digits")
         else e)
   else Ok e) =
  Ok (if phone_malformed d then dict_set e "phone" (VStr "Phone must be 10 digits") else e).
Proof.
  unfold dict_has, phone_malformed. simpl.
  destruct (dict_get d "phone"); [simpl; rewrite bad_phone_ten_digits|]; reflexivity.
Qed.

(** The validator on a JSON object: it does not raise, and its errors
    are the messages of [message]. *)
Lemma validate_pure (d : dict) :
  exists errors,
    validate_booking_data (VDict d) =
      Ok (match errors with [] => VNone | _ => VDict errors end) /\
    forall f, dict_get errors f = message d f.
Proof.
  destruct (check_required_pure d required_booking_fields []) as (e0 & Hrun & Hget).
  set (e1 := if email_malformed d
             then dict_set e0 "email" (VStr "Invalid email format") else e0).
  set (e2 := if phone_malformed d
             then dict_set e1 "phone" (VStr "Phone must be 10 digits") else e1).
  exists e2. split.
  - unfold validate_booking_data. rewrite Hrun. cbn [bind py_contains].
    rewrite email_step. cbn [bind]. rewrite phone_step. cbn [bind].
    fold e1 e2. destruct e2; reflexivity.
  - intros f. unfold message. subst e2 e1.
    destruct (String.eqb f "phone") eqn:Ep.
    + apply String.eqb_eq in Ep; subst f. cbn [String.eqb Ascii.eqb Bool.eqb andb].
      destruct (phone_malformed d).
      * apply dict_get_set_same.
      * destruct (email_malformed d);
          [rewrite dict_get_set_other by discriminate|]; apply Hget.
    + rewrite andb_false_l.
      assert (Hp : forall e v, dict_get (if phone_malformed d
                                         then dict_set e "phone" v else e) f =
                               dict_get e f).
      { intros e v. destruct (phone_malformed d); [|reflexivity].
        apply dict_get_set_other. intros <-. discriminate. }
      rewrite Hp.
      destruct (String.eqb f "email") eqn:Ee.
      * apply String.eqb_eq in Ee; subst f. rewrite andb_true_l.
        destruct (email_malformed d); [apply dict_get_set_same|apply Hget].
      * rewrite andb_false_l.
        destruct (email_malformed d); [|apply Hget].
        rewrite dict_get_set_other; [apply Hget|].
        intros <-. discriminate.
Qed.

Lemma message_invalid (d : dict) (f : string) :
  message d f <> None <-> invalid d f = true.
Proof.
  unfold message, invalid.
  destruct (String.eqb f "email" && email_malformed d);
    destruct (String.eqb f "phone" && phone_malformed d);
    destruct (is_required f && blank d f); simpl; split;
    congruence.
Qed.

Lemma no_errors_iff (errors : dict) :
  match errors with [] => VNone | _ => VDict errors end = VNone <->
  forall f, dict_get errors f = None.
Proof.
  destruct errors as [|[k v] r]; split; intros H.
  - reflexivity.
  - reflexivity.
  - discriminate.
  - specialize (H k). simpl in H. rewrite String.eqb_refl in H. discriminate.
Qed.

Lemma error_for_wrap (errors : dict) (f : string) :
  error_for (match errors with [] => VNone | _ => VDict errors end) f = dict_get errors f.
Proof. destruct errors; reflexivity. Qed.

(** C4, as amended.  On every payload the validator checks every field:
    a field has a message exactly when it breaks a rule, and the answer
    is the no-errors value exactly when no field does.  A required field
    that is absent, and a blank name, carModel, preferredDate or
    preferredTime, gets "<field> is required"; an email or phone that is
    there and fails its format check gets the message of that check,
    also when it is blank. *)
Theorem validate_checks_every_field (d : dict) :
  exists answer,
    validate_booking_data (VDict d) = Ok answer /\
    (forall f, error_for answer f = message d f) /\
    (forall f, invalid d f = true <-> error_for answer f <> None) /\
    (answer = VNone <-> forall f, invalid d f = false) /\
    (forall f, is_required f = true -> blank d f = true ->
               dict_get d f = None \/ (f <> "email" /\ f <> "phone") ->
               error_for answer f = Some (VStr (f ++ " is required"))) /\
    (email_malformed d = true ->
       error_for answer "email" = Some (VStr "Invalid email format")) /\
    (phone_malformed d = true ->
       error_for answer "phone" = Some (VStr "Phone must be 10 digits")).
Proof.
  destruct (validate_pure d) as (errors & Hrun & Hget).
  eexists. split; [exact Hrun|].
  assert (Hmsg : forall f,
             error_for (match errors with [] => VNone | _ => VDict errors end) f =
             message d f)
    by (intros f; rewrite error_for_wrap; apply Hget).
  split; [exact Hmsg|]. split; [|split; [|split; [|split]]].
  - intros f. rewrite Hmsg. symmetry. apply message_invalid.
  - rewrite no_errors_iff. split; intros H f.
    + destruct (invalid d f) eqn:E; [|reflexivity].
      apply message_invalid in E. rewrite <- Hget in E. contradiction (E (H f)).
    + rewrite Hget. destruct (message d f) eqn:E; [|reflexivity].
      assert (N : message d f <> None) by congruence.
      apply message_invalid in N. rewrite H in N. discriminate.
  - intros f R B A. rewrite Hmsg. unfold message. rewrite R, B.
    unfold email_malformed, phone_malformed.
    destruct (String.eqb f "email") eqn:Ee.
    + apply String.eqb_eq in Ee; subst f.
      destruct A as [A|[A _]]; [rewrite A; reflexivity|contradiction A; reflexivity].
    + destruct (String.eqb f "phone") eqn:Ep; [|reflexivity].
      apply String.eqb_eq in Ep; subst f.
      destruct A as [A|[_ A]]; [rewrite A; reflexivity|contradiction A; reflexivity].
  - intros E. rewrite Hmsg. unfold message. rewrite E. reflexivity.
  - intros E. rewrite Hmsg. unfold message. rewrite E.
    unfold email_malformed. simpl. reflexivity.
Qed.

(** C4, as stated, fails: an email that is there and empty is reported
    as "Invalid email format", not as "email is required"; likewise an
    empty phone. *)
Lemma blank_email_is_invalid_format :
  let form := booking_form "" "" in
  blank form "email" = true /\ blank form "phone" = true /\
  validate_booking_data (VDict form) =
    Ok (VDict [("email", VStr "Invalid email format");
               ("phone", VStr "Phone must be 10 digits")]) /\
  error_for (VDict [("email", VStr "Invalid email format");
                    ("phone", VStr "Phone must be 10 digits")]) "email"
    <> Some (VStr "email is required").
Proof. repeat split; try reflexivity. discriminate. Qed.

(** Two invalid fields give two messages: no phone and an email without
    [@]. *)
Lemma validate_two_errors :
  let form := [("name", VStr "Asha Rao"); ("email", VStr "bad");
               ("carModel", VStr "Punch"); ("preferredDate", VStr "2025-01-15");
               ("preferredTime", VStr "10:00")] in
  validate_booking_data (VDict form) =
    Ok (VDict [("phone", VStr "phone is required");
               ("email", VStr "Invalid email format")]).
Proof. reflexivity. Qed.

Lemma rstrip_keeps_text (c : ascii) (r : string) :
  PyStr.isspace_char c = false -> PyStr.is_empty (PyStr.rstrip (String c r)) = false.
Proof.
  intros H. simpl. destruct (PyStr.rstrip r); [rewrite H|]; reflexivity.
Qed.

Lemma blank_all_space (s : string) :
  PyStr.is_empty (PyStr.strip s) = true -> PyStr.all_chars PyStr.isspace_char s = true.
Proof.
  unfold PyStr.strip. induction s as [|c r IH]; intros H.
  - reflexivity.
  - cbn [PyStr.lstrip] in H. cbn [PyStr.all_chars].
    destruct (PyStr.isspace_char c) eqn:E.
    + rewrite (IH H). reflexivity.
    + rewrite (rstrip_keeps_text c r E) in H. discriminate.
Qed.

Lemma all_chars_removed (p : ascii -> bool) (old : ascii) (s : string) :
  PyStr.all_chars p s = true -> PyStr.all_chars p (PyStr.replace old "" s) = true.
Proof.
  induction s as [|c r IH]; intros H; simpl in *.
  - reflexivity.
  - apply andb_prop in H. destruct H as [Hc Hr].
    destruct (Ascii.eqb c old); simpl; [|rewrite Hc]; apply IH, Hr.
Qed.

Lemma space_is_no_digit (c : ascii) :
  PyStr.isspace_char c = true -> PyStr.isdigit_char c = false.
Proof.
  destruct c as [[] [] [] [] [] [] [] []]; vm_compute; intros H;
    first [reflexivity | discriminate H].
Qed.

(** A phone that passes is not blank. *)
Lemma ten_digits_not_blank (v : value) :
  ten_digits (clean_phone v) = true ->
  PyStr.is_empty (PyStr.strip (py_str v)) = false.
Proof.
  intros T. destruct (PyStr.is_empty (PyStr.strip (py_str v))) eqn:B; [|reflexivity].
  apply blank_all_space in B.
  apply (all_chars_removed _ "-") in B. apply (all_chars_removed _ " ") in B.
  fold (clean_phone v) in B.
  unfold ten_digits in T. apply andb_prop in T. destruct T as [L D].
  destruct (clean_phone v) as [|c r]; [discriminate L|].
  simpl in B, D. apply andb_prop in B. apply andb_prop in D.
  rewrite (space_is_no_digit c (proj1 B)) in D. destruct D; discriminate.
Qed.

(** C6, as amended.  The phone of a payload passes exactly when, with
    hyphens and spaces removed, it is ten characters that [str.isdigit]
    takes as digits: '0'..'9' and the superscripts U+00B2, U+00B3,
    U+00B9; otherwise its message is "Phone must be 10 digits". *)
Theorem validate_phone (d : dict) (v : value) :
  dict_get d "phone" = Some v ->
  exists answer,
    validate_booking_data (VDict d) = Ok answer /\
    error_for answer "phone" =
      if ten_digits (clean_phone v) then None
      else Some (VStr "Phone must be 10 digits").
Proof.
  intros Hv. destruct (validate_pure d) as (errors & Hrun & Hget).
  eexists. split; [exact Hrun|].
  rewrite error_for_wrap, Hget. unfold message, phone_malformed, blank.
  rewrite Hv. simpl.
  destruct (ten_digits (clean_phone v)) eqn:T; simpl; [|reflexivity].
  replace (PyStr.is_empty (PyStr.strip (py_str v))) with false; [reflexivity|].
  symmetry. apply (ten_digits_not_blank v T).
Qed.

(** C6, as amended, at a form whose phone is written with a space and a
    hyphen. *)
Lemma validate_phone_witness :
  dict_get (booking_form "asha@example.com" "98765 43-210") "phone" =
    Some (VStr "98765 43-210") /\
  exists answer,
    validate_booking_data (VDict (booking_form "asha@example.com" "98765 43-210")) =
      Ok answer /\
    error_for answer "phone" = None.
Proof.
  split; [reflexivity|].
  exact (validate_phone (booking_form "asha@example.com" "98765 43-210")
           (VStr "98765 43-210") eq_refl).
Defined.

(** C6, as stated, fails: ten superscript twos are not ten ASCII digits,
    and the validator accepts them. *)
Lemma superscript_phone_accepted :
  let form := booking_form "asha@example.com" ten_superscripts in
  dict_get form "phone" = Some (VStr ten_superscripts) /\
  ten_ascii_digits (clean_phone (VStr ten_superscripts)) = false /\
  validate_booking_data (VDict form) = Ok VNone /\
  error_for VNone "phone" = None.
Proof. repeat split; reflexivity. Qed.

(* ================================================================== *)
(** ** Update *)

Lemma id_of_getitem (c : value) (n : Z) :
  id_of c = Some n -> py_getitem c "id" = Ok (VInt n).
Proof.
  unfold id_of, py_getitem. destruct c; try discriminate.
  destruct (dict_get d "id") as [[]|]; try discriminate.
  intros H; inv H. reflexivity.
Qed.

(** In a store with distinct ids, the search by id finds the record
    that has the id. *)
Lemma find_id_found (records : list value) (c : value) (n : Z) :
  store_ok records -> In c records -> id_of c = Some n ->
  exists i, find_id records n = Ok (Some i) /\
            nth_error records i = Some c /\ nth i records VNone = c.
Proof.
  intros [Hall Hnd]. induction records as [|c0 r IH]; intros Hin Hid.
  - contradiction.
  - inv Hall. simpl in Hnd. inv Hnd.
    destruct (id_of c0) as [m|] eqn:E0; [|congruence].
    simpl. rewrite (id_of_getitem c0 m E0). cbn [bind py_eq_int].
    destruct (m =? n) eqn:Emn.
    + apply Z.eqb_eq in Emn; subst m. exists O.
      destruct Hin as [->|Hin]; [repeat split; reflexivity|].
      exfalso. apply H3. rewrite <- Hid. apply in_map, Hin.
    + destruct Hin as [->|Hin].
      * rewrite Hid in E0. inv E0. rewrite Z.eqb_refl in Emn. discriminate.
      * destruct (IH H2 H4 Hin Hid) as (i & Hf & Hn & Hn').
        exists (S i). rewrite Hf. repeat split; assumption.
Qed.

Lemma dict_get_absent (d : dict) (k : string) :
  ~ In k (map fst d) -> dict_get d k = None.
Proof.
  induction d as [|[k0 v0] r IH]; simpl; intros H; [reflexivity|].
  destruct (String.eqb k0 k) eqn:E.
  - apply String.eqb_eq in E. contradiction H. left; exact E.
  - apply IH. intros N. apply H. right; exact N.
Qed.

(** The loop of [update_car] on a record: every field of the payload
    but [id] is stored. *)
Lemma merge_items_pure (items old : dict) :
  dict_ok items ->
  exists car,
    merge_items (VDict old) items = Ok (VDict car) /\
    forall k, dict_get car k =
                if String.eqb k "id" then dict_get old k else merged items old k.
Proof.
  intros Hok. revert old. induction items as [|[key v] rest IH]; intros old.
  - exists old. split; [reflexivity|]. intros k. unfold merged. simpl.
    destruct (String.eqb k "id"); reflexivity.
  - inv Hok.
    set (old1 := if negb (String.eqb key "id") then dict_set old key v else old).
    destruct (IH H2 old1) as (car & Hrun & Hget).
    exists car. split.
    + simpl. subst old1. destruct (String.eqb key "id"); simpl; exact Hrun.
    + intros k. rewrite Hget. unfold merged. simpl.
      destruct (String.eqb key k) eqn:Ek.
      * apply String.eqb_eq in Ek; subst k.
        rewrite (dict_get_absent rest key H1). subst old1.
        destruct (String.eqb key "id"); simpl; [reflexivity|].
        apply dict_get_set_same.
      * assert (Hother : dict_get old1 k = dict_get old k).
        { subst old1. destruct (String.eqb key "id"); simpl; [reflexivity|].
          apply dict_get_set_other. intros ->. rewrite String.eqb_refl in Ek.
          discriminate. }
        rewrite Hother. reflexivity.
Qed.

Lemma lookup_id_found (records : list value) (c : value) (n : Z) :
  store_ok records -> In c records -> id_of c = Some n ->
  exists i, lookup_id (VList records) n = Ok (Some i, c) /\
            nth_error records i = Some c.
Proof.
  intros Hs Hin Hid. destruct (find_id_found records c n Hs Hin Hid) as (i & Hf & Hn & Hn').
  exists i. unfold lookup_id. simpl. rewrite Hf. simpl. rewrite Hn'. split; [reflexivity|assumption].
Qed.

Lemma update_car_merges (now : string) (cars : list value) (n : Z) (old d : dict) :
  store_ok cars -> In (VDict old) cars -> dict_get old "id" = Some (VInt n) ->
  dict_ok d -> d <> [] ->
  exists i car,
    nth_error cars i = Some (VDict old) /\
    update_car now Writes (Stored (VList cars)) n (VDict d) =
      Ok (updated "Car" (VDict car), Stored (VList (set_nth i (VDict car) cars))) /\
    dict_get car "id" = Some (VInt n) /\
    dict_get car "updatedDate" = Some (VStr now) /\
    (forall k, k <> "id" -> k <> "updatedDate" -> dict_get car k = merged d old k).
Proof.
  intros Hs Hin Hid Hok Hne.
  assert (Hid' : id_of (VDict old) = Some n) by (simpl; rewrite Hid; reflexivity).
  destruct (lookup_id_found cars (VDict old) n Hs Hin Hid') as (i & Hl & Hn).
  destruct (merge_items_pure d old Hok) as (car & Hrun & Hget).
  exists i, (dict_set car "updatedDate" (VStr now)). split; [exact Hn|].
  split; [|split; [|split]].
  - unfold update_car. cbn [load_json_file]. rewrite Hl. cbn [bind].
    assert (T1 : truthy (VDict old) = true) by (destruct old; [discriminate Hid|reflexivity]).
    assert (T2 : truthy (VDict d) = true) by (destruct d; [contradiction Hne|]; reflexivity).
    rewrite T1, T2. cbn [negb py_items bind]. rewrite Hrun. reflexivity.
  - rewrite dict_get_set_other by discriminate. rewrite Hget. exact Hid.
  - apply dict_get_set_same.
  - intros k K1 K2. rewrite dict_get_set_other by congruence. rewrite Hget.
    destruct (String.eqb k "id") eqn:E; [|reflexivity].
    apply String.eqb_eq in E. contradiction.
Qed.

Lemma update_booking_merges (now : string) (bookings : list value) (n : Z)
    (old d : dict) :
  store_ok bookings -> In (VDict old) bookings -> dict_get old "id" = Some (VInt n) ->
  exists i booking,
    nth_error bookings i = Some (VDict old) /\
    update_booking now Writes (Stored (VList bookings)) n (VDict d) =
      Ok (updated "Booking" (VDict booking),
          Stored (VList (set_nth i (VDict booking) bookings))) /\
    dict_get booking "updatedDate" = Some (VStr now) /\
    dict_get booking "status" = merged d old "status" /\
    (forall k, k <> "status" -> k <> "updatedDate" ->
               dict_get booking k = dict_get old k).
Proof.
  intros Hs Hin Hid.
  assert (Hid' : id_of (VDict old) = Some n) by (simpl; rewrite Hid; reflexivity).
  destruct (lookup_id_found bookings (VDict old) n Hs Hin Hid') as (i & Hl & Hn).
  set (b1 := match dict_get d "status" with
             | Some v => dict_set old "status" v
             | None => old
             end).
  exists i, (dict_set b1 "updatedDate" (VStr now)). split; [exact Hn|].
  split; [|split; [|split]].
  - unfold update_booking. cbn [load_json_file]. rewrite Hl. cbn [bind].
    assert (T1 : truthy (VDict old) = true) by (destruct old; [discriminate Hid|reflexivity]).
    rewrite T1. cbn [negb py_contains bind py_getitem]. unfold dict_has. subst b1.
    destruct (dict_get d "status"); reflexivity.
  - apply dict_get_set_same.
  - rewrite dict_get_set_other by discriminate. subst b1. unfold merged.
    destruct (dict_get d "status"); [apply dict_get_set_same|reflexivity].
  - intros k K1 K2. rewrite dict_get_set_other by congruence. subst b1.
    destruct (dict_get d "status"); [|reflexivity].
    apply dict_get_set_other. congruence.
Qed.

(** C5, as amended.  For a record of a store found by its id, and a
    save that succeeds: the update of a booking stores the [status] of
    the payload and no other field; the update of a car with a payload
    that is not empty stores every field of the payload except [id]
    and [updatedDate]; both leave the id as it was, stamp
    [updatedDate], write the record back at its place and answer 200.
    The update of a car with an empty payload answers 400 and changes
    nothing. *)
Theorem update_merges (now : string) (records : list value) (n : Z) (old d : dict) :
  store_ok records -> In (VDict old) records -> dict_get old "id" = Some (VInt n) ->
  exists i booking,
    nth_error records i = Some (VDict old) /\
    update_booking now Writes (Stored (VList records)) n (VDict d) =
      Ok (updated "Booking" (VDict booking),
          Stored (VList (set_nth i (VDict booking) records))) /\
    dict_get booking "id" = Some (VInt n) /\
    dict_get booking "updatedDate" = Some (VStr now) /\
    dict_get booking "status" = merged d old "status" /\
    (forall k, k <> "status" -> k <> "updatedDate" ->
               dict_get booking k = dict_get old k) /\
    (dict_ok d -> d <> [] ->
     exists car,
       update_car now Writes (Stored (VList records)) n (VDict d) =
         Ok (updated "Car" (VDict car), Stored (VList (set_nth i (VDict car) records))) /\
       dict_get car "id" = Some (VInt n) /\
       dict_get car "updatedDate" = Some (VStr now) /\
       (forall k, k <> "id" -> k <> "updatedDate" -> dict_get car k = merged d old k)) /\
    (d = [] ->
     forall io,
       update_car now io (Stored (VList records)) n (VDict d) =
         Ok ((error_body "No data provided" 400, 400), Stored (VList records))).
Proof.
  intros Hs Hin Hid.
  destruct (update_booking_merges now records n old d Hs Hin Hid)
    as (i & booking & Hn & Hrun & Bdate & Bstatus & Bother).
  exists i, booking.
  split; [exact Hn|]. split; [exact Hrun|].
  split; [rewrite Bother by discriminate; exact Hid|].
  split; [exact Bdate|]. split; [exact Bstatus|]. split; [exact Bother|]. split.
  - intros Hok Hne.
    destruct (update_car_merges now records n old d Hs Hin Hid Hok Hne)
      as (j & car & Hn' & Hrun' & Cid & Cdate & Cmerge).
    assert (j = i).
    { destruct Hs as [_ Hnd].
      assert (Hi : nth_error (map id_of records) i = Some (id_of (VDict old)))
        by (apply map_nth_error, Hn).
      assert (Hj : nth_error (map id_of records) j = Some (id_of (VDict old)))
        by (apply map_nth_error, Hn').
      apply (proj1 (NoDup_nth_error (map id_of records)) Hnd).
      - apply nth_error_Some. rewrite Hj. discriminate.
      - rewrite Hi, Hj. reflexivity. }
    subst j. exists car. repeat split; assumption.
  - intros -> io.
    assert (Hid' : id_of (VDict old) = Some n) by (simpl; rewrite Hid; reflexivity).
    destruct (lookup_id_found records (VDict old) n Hs Hin Hid') as (j & Hl & _).
    unfold update_car. cbn [load_json_file]. rewrite Hl. cbn [bind].
    assert (T : truthy (VDict old) = true) by (destruct old; [discriminate Hid|reflexivity]).
    rewrite T. reflexivity.
Qed.

Lemma sample_cars_ok : store_ok sample_cars.
Proof.
  split.
  - repeat constructor; discriminate.
  - simpl. repeat constructor; simpl; intuition discriminate.
Qed.

(** C5, as amended, at the sample cars: a new price, a new field and
    an id in the payload for car 2; and the empty payload. *)
Lemma update_merges_witness :
  let old := match nth 1 sample_cars VNone with VDict d => d | _ => [] end in
  let d := [("price", VInt 560000); ("colour", VStr "red"); ("id", VInt 99);
            ("status", VStr "sold")] in
  store_ok sample_cars /\ In (VDict old) sample_cars /\
  dict_get old "id" = Some (VInt 2) /\ dict_ok d /\ d <> [] /\
  (exists i car booking,
     nth_error sample_cars i = Some (VDict old) /\
     update_car "2025-02-01T12:00:00" Writes (Stored (VList sample_cars)) 2 (VDict d) =
       Ok (updated "Car" (VDict car),
           Stored (VList (set_nth i (VDict car) sample_cars))) /\
     update_booking "2025-02-01T12:00:00" Writes (Stored (VList sample_cars)) 2 (VDict d) =
       Ok (updated "Booking" (VDict booking),
           Stored (VList (set_nth i (VDict booking) sample_cars))) /\
     dict_get car "id" = Some (VInt 2) /\
     dict_get car "price" = Some (VInt 560000) /\
     dict_get booking "id" = Some (VInt 2) /\
     dict_get booking "status" = Some (VStr "sold") /\
     dict_get booking "price" = Some (VInt 549000)) /\
  update_car "2025-02-01T12:00:00" Writes (Stored (VList sample_cars)) 2 (VDict []) =
    Ok ((error_body "No data provided" 400, 400), Stored (VList sample_cars)).
Proof.
  intros old d.
  assert (Hin : In (VDict old) sample_cars) by (right; left; reflexivity).
  assert (Hok : dict_ok d)
    by (unfold dict_ok; simpl; repeat constructor; simpl; intuition discriminate).
  assert (Hne : d <> []) by discriminate.
  split; [exact sample_cars_ok|]. split; [exact Hin|]. split; [reflexivity|].
  split; [exact Hok|]. split; [exact Hne|]. split.
  - destruct (update_merges "2025-02-01T12:00:00" sample_cars 2 old d
                sample_cars_ok Hin eq_refl)
      as (i & booking & H1 & H2 & H3 & _ & H5 & H6 & Hcar & _).
    destruct (Hcar Hok Hne) as (car & C1 & C2 & _ & C4).
    exists i, car, booking.
    split; [exact H1|]. split; [exact C1|]. split; [exact H2|]. split; [exact C2|].
    split; [rewrite C4 by discriminate; reflexivity|]. split; [exact H3|].
    split; [rewrite H5; reflexivity|]. rewrite H6 by discriminate. reflexivity.
  - destruct (update_merges "2025-02-01T12:00:00" sample_cars 2 old []
                sample_cars_ok Hin eq_refl)
      as (_ & _ & _ & _ & _ & _ & _ & _ & _ & Hempty).
    exact (Hempty eq_refl Writes).
Defined.

(** C5, as stated, fails: the update of a booking does not store the
    [name] of the payload. *)
Lemma update_booking_keeps_name :
  let d := [("name", VStr "Bina Shah")] in
  exists booking,
    update_booking "2025-02-01T12:00:00" Writes (Stored (VList one_booking)) 1 (VDict d) =
      Ok (updated "Booking" (VDict booking), Stored (VList [VDict booking])) /\
    dict_get d "name" = Some (VStr "Bina Shah") /\
    dict_get booking "name" = Some (VStr "Asha Rao").
Proof. eexists. repeat split; reflexivity. Qed.

(* ================================================================== *)
(** ** Add: the id of the new record *)

Lemma fold_max_ge (r : list Z) (n : Z) :
  n <= fold_left Z.max r n /\ forall x, In x r -> x <= fold_left Z.max r n.
Proof.
  revert n. induction r as [|m r IH]; intros n; simpl.
  - split; [lia|contradiction].
  - destruct (IH (Z.max n m)) as [H1 H2]. split; [lia|].
    intros x [->|Hx]; [lia|apply H2, Hx].
Qed.

(** [max] is at least every element. *)
Lemma py_max_ge (l : list Z) (x : Z) : In x l -> x <= py_max l.
Proof.
  destruct l as [|n r]; [contradiction|]. simpl.
  destruct (fold_max_ge r n) as [H1 H2].
  intros [<-|Hx]; [exact H1|apply H2, Hx].
Qed.

Lemma ids_of_map (records : list value) :
  Forall (fun c => id_of c <> None) records ->
  map id_of records = map Some (ids_of records).
Proof.
  induction 1 as [|c r Hc Hr IH]; simpl; [reflexivity|].
  destruct (id_of c); [|congruence]. simpl. rewrite IH. reflexivity.
Qed.

Lemma next_car_id_pure (records : list value) :
  Forall (fun c => id_of c <> None) records ->
  next_car_id (VList records) = Ok (next_id records).
Proof.
  intros H. unfold next_car_id, next_id. simpl.
  assert (E : mapM (fun c => py_getitem c "id") records =
              Ok (map VInt (ids_of records))).
  { induction H as [|c r Hc Hr IH]; simpl; [reflexivity|].
    destruct (id_of c) as [n|] eqn:En; [|congruence].
    rewrite (id_of_getitem c n En). simpl. rewrite IH. reflexivity. }
  rewrite E. simpl.
  rewrite (mapM_pure as_int (fun v => match v with VInt n => n | _ => 0 end)).
  - simpl. rewrite map_map, map_id. reflexivity.
  - intros a Ha. apply in_map_iff in Ha. destruct Ha as (n & <- & _). reflexivity.
Qed.

Lemma next_booking_id_pure (records : list value) :
  Forall (fun c => id_of c <> None) records ->
  next_booking_id (VList records) = Ok (next_id records).
Proof.
  intros H. unfold next_booking_id, next_id. simpl.
  assert (E : mapM (fun b => py_get b "id" (VInt 0)) records =
              Ok (map VInt (ids_of records))).
  { induction H as [|c r Hc Hr IH]; simpl; [reflexivity|].
    unfold id_of in *. destruct c; try congruence. simpl.
    destruct (dict_get d "id") as [[]|]; try congruence.
    simpl. rewrite IH. reflexivity. }
  rewrite E. simpl.
  rewrite (mapM_pure as_int (fun v => match v with VInt n => n | _ => 0 end)).
  - simpl. rewrite map_map, map_id. reflexivity.
  - intros a Ha. apply in_map_iff in Ha. destruct Ha as (n & <- & _). reflexivity.
Qed.

Lemma first_missing_none (d : dict) (fields : list string) :
  has_fields d fields = true -> first_missing (VDict d) fields = Ok None.
Proof.
  unfold has_fields. induction fields as [|f r IH]; simpl; intros H; [reflexivity|].
  apply andb_prop in H. destruct H as [Hf Hr]. rewrite Hf. simpl. apply IH, Hr.
Qed.

Lemma dict_extend_get (items base : dict) (k : string) :
  dict_get items k = None -> dict_get (dict_extend base items) k = dict_get base k.
Proof.
  unfold dict_extend. revert base.
  induction items as [|[k0 v0] r IH]; intros base H; simpl in *; [reflexivity|].
  destruct (String.eqb k0 k) eqn:E; [discriminate|].
  rewrite (IH _ H). apply dict_get_set_other.
  intros ->. rewrite String.eqb_refl in E. discriminate.
Qed.

(** The part of C2 that holds for cars: a payload without an [id] gets
    the next id of the store. *)
Lemma add_car_assigns_next_id (now : string) (cars : list value) (d : dict) :
  Forall (fun c => id_of c <> None) cars ->
  has_fields d required_car_fields = true -> dict_get d "id" = None ->
  exists car,
    add_car now Writes (Stored (VList cars)) (VDict d) =
      Ok (added (VDict car), Stored (VList (cars ++ [VDict car])%list)) /\
    id_of (VDict car) = Some (next_id cars).
Proof.
  intros H Hf Hid. eexists. split.
  - unfold add_car.
    assert (T : truthy (VDict d) = true) by (destruct d; [discriminate Hf|reflexivity]).
    rewrite T. cbn [negb]. rewrite (first_missing_none d _ Hf). cbn [bind load_json_file].
    rewrite (next_car_id_pure cars H). reflexivity.
  - unfold id_of. rewrite dict_get_set_other by discriminate.
    rewrite (dict_extend_get d _ "id" Hid). reflexivity.
Qed.

(** The part of C2 that holds for bookings: a valid form gets the next
    id of the store, whatever it brings as [id]. *)
Lemma create_booking_assigns_next_id (now : string) (bookings : list value) (d : dict) :
  Forall (fun c => id_of c <> None) bookings ->
  is_form d = true -> validate_booking_data (VDict d) = Ok VNone ->
  exists booking,
    create_booking now Writes (Stored (VList bookings)) (VDict d) =
      Ok (booked (VDict booking), Stored (VList (bookings ++ [VDict booking])%list)) /\
    id_of (VDict booking) = Some (next_id bookings).
Proof.
  intros H Hf Hv. unfold is_form, has_fields in Hf. simpl forallb in Hf.
  repeat (apply andb_prop in Hf; destruct Hf as [Hf ?]).
  unfold str_field, dict_has in *.
  destruct (dict_get d "name") as [[| | |name| |]|] eqn:E1; try discriminate.
  destruct (dict_get d "email") as [[| | |email| |]|] eqn:E2; try discriminate.
  destruct (dict_get d "phone") as [[| | |phone| |]|] eqn:E3; try discriminate.
  destruct (dict_get d "carModel") as [model|] eqn:E4; try discriminate.
  destruct (dict_get d "preferredDate") as [date|] eqn:E5; try discriminate.
  destruct (dict_get d "preferredTime") as [time|] eqn:E6; try discriminate.
  assert (T : truthy (VDict d) = true) by (destruct d; [discriminate E1|reflexivity]).
  assert (C : exists comments,
             (c <- py_get (VDict d) "comments" (VStr "") ;; py_strip c) = Ok comments).
  { simpl. destruct (dict_get d "comments") as [[| | |s| |]|]; try discriminate;
      eexists; reflexivity. }
  destruct C as (comments & C).
  eexists. split.
  - unfold create_booking. rewrite T. cbn [negb]. rewrite Hv. cbn [bind truthy load_json_file].
    rewrite (next_booking_id_pure bookings H). cbn [bind]. unfold stripped.
    cbn [py_getitem]. rewrite E1, E2, E3, E4, E5, E6. cbn [bind py_strip].
    unfold bind at 1 in C. unfold bind at 1.
    destruct (py_get (VDict d) "comments" (VStr "")) as [c|e]; [|discriminate C].
    rewrite C. reflexivity.
  - reflexivity.
Qed.

(** On an empty store the first id is 1. *)
Lemma next_id_empty : next_id [] = 1.
Proof. reflexivity. Qed.

(** The next id is above every id of the store. *)
Lemma next_id_fresh (records : list value) (c : value) (n : Z) :
  In c records -> id_of c = Some n -> n < next_id records.
Proof.
  intros Hin Hid. unfold next_id.
  assert (In n (ids_of records)).
  { induction records as [|c0 r IH]; [contradiction|]. simpl.
    destruct Hin as [->|Hin].
    - rewrite Hid. left; reflexivity.
    - destruct (id_of c0); [right|]; apply IH, Hin. }
  pose proof (py_max_ge _ _ H). lia.
Qed.

(** C2, evaluated.  A car payload that has an [id] keeps it: added to
    the sample cars, whose largest id is 3, the payload with id 7
    becomes the record with id 7, not 4. *)
Theorem add_car_keeps_payload_id (now : string) :
  exists car,
    add_car now Writes (Stored (VList sample_cars)) (VDict (car_form 7)) =
      Ok (added (VDict car), Stored (VList (sample_cars ++ [VDict car])%list)) /\
    id_of (VDict car) = Some 7 /\
    next_id sample_cars = 4.
Proof. eexists. repeat split; reflexivity. Qed.

(** A form that also brings an [id] is booked under the next id. *)
Example create_booking_ignores_payload_id :
  exists booking,
    create_booking "2025-02-01T12:00:00" Writes (Stored (VList one_booking))
      (VDict (("id", VInt 1) :: booking_form "asha@example.com" "9876543210")) =
      Ok (booked (VDict booking), Stored (VList (one_booking ++ [VDict booking])%list)) /\
    id_of (VDict booking) = Some 2.
Proof. eexists. split; reflexivity. Qed.

(* ================================================================== *)
(** ** The invariant of a store *)

(** The ids of the records a comprehension keeps stay distinct. *)
Lemma kept_ids_distinct (keep : value -> bool) (records : list value) :
  NoDup (map id_of records) -> NoDup (map id_of (filter keep records)).
Proof.
  intros Hnd. induction records as [|c r IH]; simpl; [constructor|].
  simpl in Hnd. inv Hnd. destruct (keep c); simpl; [constructor|]; auto.
  intros N. apply H1. apply in_map_iff in N. destruct N as (x & Hx & Hin).
  apply filter_In in Hin. rewrite <- Hx. apply in_map, Hin.
Qed.

(** Delete keeps the invariant. *)
Lemma store_ok_without_id (n : Z) (records : list value) :
  store_ok records -> store_ok (without_id n records).
Proof.
  intros [Hall Hnd]. split.
  - rewrite Forall_forall in *. intros c Hc. apply filter_In in Hc. apply Hall, Hc.
  - apply kept_ids_distinct, Hnd.
Qed.

Lemma set_nth_map (f : value -> option Z) (i : nat) (c c' : value) (l : list value) :
  nth_error l i = Some c -> f c' = f c -> map f (set_nth i c' l) = map f l.
Proof.
  revert i. induction l as [|a r IH]; intros i Hn Hf; [destruct i; discriminate Hn|].
  destruct i as [|j]; simpl in *.
  - inv Hn. rewrite Hf. reflexivity.
  - rewrite (IH j Hn Hf). reflexivity.
Qed.

(** Writing back a record under its old id keeps the invariant. *)
Lemma store_ok_set_nth (i : nat) (c c' : value) (records : list value) :
  store_ok records -> nth_error records i = Some c -> id_of c' = id_of c ->
  store_ok (set_nth i c' records).
Proof.
  intros [Hall Hnd] Hn Hid. split.
  - rewrite Forall_forall in *. intros x Hx.
    assert (In (id_of x) (map id_of (set_nth i c' records))) by (apply in_map, Hx).
    rewrite (set_nth_map id_of i c c' records Hn Hid) in H.
    apply in_map_iff in H. destruct H as (y & Hy & Hin). rewrite <- Hy. apply Hall, Hin.
  - rewrite (set_nth_map id_of i c c' records Hn Hid). exact Hnd.
Qed.

(** Appending a record under the next id keeps the invariant. *)
Lemma store_ok_next_id (c : value) (records : list value) :
  store_ok records -> id_of c = Some (next_id records) ->
  store_ok (records ++ [c])%list.
Proof.
  intros [Hall Hnd] Hid. split.
  - apply Forall_app. split; [exact Hall|]. constructor; [congruence|constructor].
  - rewrite map_app. simpl. apply NoDup_app; [exact Hnd|repeat constructor; intros []|].
    intros x Hx [<-|[]]. apply in_map_iff in Hx. destruct Hx as (y & Hy & Hin).
    rewrite Hid in Hy. pose proof (next_id_fresh records y _ Hin Hy). lia.
Qed.

(** The part of C9 that holds: delete, update, a booking, and an add
    whose payload has no [id], keep the invariant. *)
Lemma store_ok_preserved (now : string) (records : list value) (n : Z) (old d : dict) :
  store_ok records ->
  (exists after,
     delete_car Writes (Stored (VList records)) n = Ok (deleted "Car" n, Stored (VList after)) /\
     store_ok after) /\
  (In (VDict old) records -> dict_get old "id" = Some (VInt n) -> dict_ok d -> d <> [] ->
   exists r after,
     update_car now Writes (Stored (VList records)) n (VDict d) =
       Ok (r, Stored (VList after)) /\ store_ok after) /\
  (has_fields d required_car_fields = true -> dict_get d "id" = None ->
   exists r after,
     add_car now Writes (Stored (VList records)) (VDict d) =
       Ok (r, Stored (VList after)) /\ store_ok after) /\
  (is_form d = true -> validate_booking_data (VDict d) = Ok VNone ->
   exists r after,
     create_booking now Writes (Stored (VList records)) (VDict d) =
       Ok (r, Stored (VList after)) /\ store_ok after).
Proof.
  intros Hs. assert (Hall := proj1 Hs). repeat split.
  - exists (without_id n records). split; [|apply store_ok_without_id, Hs].
    apply delete_car_removes. rewrite Forall_forall in *. intros c Hc.
    specialize (Hall c Hc). unfold id_of, has_id, dict_has in *.
    destruct c; try congruence. destruct (dict_get d0 "id"); congruence.
  - intros Hin Hid Hok Hne.
    destruct (update_car_merges now records n old d Hs Hin Hid Hok Hne)
      as (i & car & Hn & Hrun & Cid & _).
    eexists _, _. split; [exact Hrun|].
    apply (store_ok_set_nth i (VDict old)); [exact Hs|exact Hn|].
    simpl. rewrite Cid, Hid. reflexivity.
  - intros Hf Hid.
    destruct (add_car_assigns_next_id now records d Hall Hf Hid) as (car & Hrun & Cid).
    eexists _, _. split; [exact Hrun|]. apply store_ok_next_id; assumption.
  - intros Hf Hv.
    destruct (create_booking_assigns_next_id now records d Hall Hf Hv)
      as (booking & Hrun & Bid).
    eexists _, _. split; [exact Hrun|]. apply store_ok_next_id; assumption.
Qed.

(** C9, evaluated.  The sample cars have distinct ids; after adding a
    payload that has the id 1, two records of the store have the id 1. *)
Theorem add_car_repeats_an_id (now : string) :
  store_ok sample_cars /\
  exists car,
    add_car now Writes (Stored (VList sample_cars)) (VDict (car_form 1)) =
      Ok (added (VDict car), Stored (VList (sample_cars ++ [VDict car])%list)) /\
    map id_of (sample_cars ++ [VDict car])%list = [Some 1; Some 2; Some 3; Some 1] /\
    ~ store_ok (sample_cars ++ [VDict car])%list.
Proof.
  split; [exact sample_cars_ok|].
  eexists. split; [reflexivity|]. split; [reflexivity|].
  intros [_ Hnd]. simpl in Hnd. inv Hnd. apply H1. right; right; left; reflexivity.
Qed.

(* ================================================================== *)
(** ** Get by id *)

Lemma has_id_getitem (c : value) :
  has_id c = true ->
  exists d v, c = VDict d /\ dict_get d "id" = Some v /\ py_getitem c "id" = Ok v /\
              truthy c = true.
Proof.
  unfold has_id, dict_has. destruct c; try discriminate.
  destruct (dict_get d "id") as [v|] eqn:E; [|discriminate]. intros _.
  exists d, v. simpl. rewrite E. repeat split.
  destruct d; [discriminate E|reflexivity].
Qed.

Lemma id_is_getitem (c : value) (v : value) (n : Z) :
  has_id c = true -> py_getitem c "id" = Ok v -> id_is n c = py_eq_int v n.
Proof.
  intros H G. destruct (has_id_getitem c H) as (d & v' & -> & E & G' & _).
  rewrite G' in G. inv G. simpl. rewrite E. reflexivity.
Qed.

(** The search stops at the first record whose id is the wanted one. *)
Lemma find_id_first (records : list value) (n : Z) :
  Forall (fun c => has_id c = true) records ->
  exists o, find_id records n = Ok o /\
            match o with Some i => nth_error records i | None => None end =
              find_record n records.
Proof.
  unfold find_record. induction 1 as [|c r Hc Hr IH]; simpl.
  - exists None. split; reflexivity.
  - destruct (has_id_getitem c Hc) as (d & v & -> & E & G & _).
    rewrite G. cbn [bind]. rewrite (id_is_getitem (VDict d) v n Hc G).
    destruct (py_eq_int v n).
    + exists (Some O). split; reflexivity.
    + destruct IH as (o & Hf & Hn). rewrite Hf. cbn [bind].
      exists (option_map S o). split; [reflexivity|].
      destruct o; simpl; exact Hn.
Qed.

Lemma lookup_id_first (records : list value) (n : Z) :
  Forall (fun c => has_id c = true) records ->
  exists o, lookup_id (VList records) n =
              Ok (o, match find_record n records with Some c => c | None => VNone end) /\
            (o = None <-> find_record n records = None).
Proof.
  intros H. destruct (find_id_first records n H) as (o & Hf & Hn).
  exists o. unfold lookup_id. cbn [py_iter bind]. rewrite Hf. cbn [bind].
  rewrite <- Hn. destruct o as [i|].
  - destruct (nth_error records i) as [c|] eqn:E.
    + rewrite (nth_error_nth records i VNone E). split; [reflexivity|split; discriminate].
    + apply nth_error_None in E. rewrite (nth_overflow records VNone E).
      split; [reflexivity|]. split; [discriminate|].
      intros _. exfalso.
      assert (K : forall l : list value, forall m k,
                 find_id l m = Ok (Some k) -> (k < List.length l)%nat).
      { clear. induction l as [|c r IH]; simpl; intros m k Hk; [discriminate|].
        destruct (py_getitem c "id"); [|discriminate]. simpl in Hk.
        destruct (py_eq_int a m); [inv Hk; lia|].
        destruct (find_id r m) as [[j|]|] eqn:F; simpl in Hk; try discriminate.
        inv Hk. specialize (IH m j F). lia. }
      specialize (K records n i Hf). lia.
  - split; [reflexivity|]. split; reflexivity.
Qed.

Lemma find_record_truthy (records : list value) (n : Z) (c : value) :
  Forall (fun c => has_id c = true) records ->
  find_record n records = Some c -> truthy c = true /\ In c records /\ id_is n c = true.
Proof.
  intros H F. apply find_some in F. destruct F as [Hin Hid].
  rewrite Forall_forall in H.
  destruct (has_id_getitem c (H c Hin)) as (_ & _ & _ & _ & _ & T). auto.
Qed.

Lemma get_by_id_first (kind : string) (records : list value) (n : Z) :
  Forall (fun c => has_id c = true) records ->
  (found <- lookup_id (VList records) n ;;
   let (_, c) := found in
   if negb (truthy c) then Ok (not_found kind n) else Ok (fetched c)) =
  Ok (answer_for kind n (find_record n records)).
Proof.
  intros H. destruct (lookup_id_first records n H) as (o & Hl & _).
  rewrite Hl. cbn [bind].
  destruct (find_record n records) as [c|] eqn:F; [|reflexivity].
  destruct (find_record_truthy records n c H F) as (T & _). rewrite T. reflexivity.
Qed.

(** X1.  On a store whose records have an id, get-by-id answers with
    the first record whose id equals the one asked for, and with 404
    when no record has it; the same for cars, bookings and brands. *)
Theorem get_by_id_answers_first_match (records : list value) (n : Z) :
  Forall (fun c => has_id c = true) records ->
  get_car (Stored (VList records)) n = Ok (answer_for "Car" n (find_record n records)) /\
  get_booking (Stored (VList records)) n =
    Ok (answer_for "Booking" n (find_record n records)) /\
  get_brand (Stored (VList records)) n =
    Ok (answer_for "Brand" n (find_record n records)) /\
  (find_record n records = None <-> forall c, In c records -> id_is n c = false).
Proof.
  intros H. unfold get_car, get_booking, get_brand. cbn [load_json_file].
  repeat split; try apply (get_by_id_first _ records n H).
  - intros F c Hc. apply (find_none _ _ F c Hc).
  - intros A. unfold find_record. destruct (find (id_is n) records) as [c|] eqn:F; [|reflexivity].
    apply find_some in F. destruct F as [Hin Hid]. rewrite (A c Hin) in Hid. discriminate.
Qed.

Lemma sample_cars_have_id : Forall (fun c => has_id c = true) sample_cars.
Proof. repeat constructor. Qed.

Lemma get_by_id_answers_first_match_witness :
  Forall (fun c => has_id c = true) sample_cars /\
  get_car (Stored (VList sample_cars)) 3 = Ok (fetched (nth 2 sample_cars VNone)) /\
  get_car (Stored (VList sample_cars)) 8 = Ok (not_found "Car" 8).
Proof.
  split; [exact sample_cars_have_id|]. split.
  - exact (proj1 (get_by_id_answers_first_match sample_cars 3 sample_cars_have_id)).
  - exact (proj1 (get_by_id_answers_first_match sample_cars 8 sample_cars_have_id)).
Defined.

(* ================================================================== *)
(** ** Get after a change of the store *)

Lemma py_eq_int_unique (v : value) (n m : Z) :
  py_eq_int v n = true -> py_eq_int v m = true -> n = m.
Proof.
  destruct v; simpl; try discriminate; intros A B;
    apply Z.eqb_eq in A; apply Z.eqb_eq in B; congruence.
Qed.

Lemma id_is_unique (c : value) (n m : Z) :
  id_is n c = true -> id_is m c = true -> n = m.
Proof.
  unfold id_is. destruct c; try discriminate.
  destruct (dict_get d "id"); [apply py_eq_int_unique|discriminate].
Qed.

Lemma find_record_without_same (n : Z) (records : list value) :
  find_record n (without_id n records) = None.
Proof.
  unfold find_record, without_id. induction records as [|c r IH]; simpl; [reflexivity|].
  destruct (id_is n c) eqn:E; simpl; [exact IH|]. rewrite E. exact IH.
Qed.

Lemma find_record_without_other (n m : Z) (records : list value) :
  m <> n -> find_record m (without_id n records) = find_record m records.
Proof.
  intros N. unfold find_record, without_id.
  induction records as [|c r IH]; simpl; [reflexivity|].
  destruct (id_is n c) eqn:E; simpl.
  - destruct (id_is m c) eqn:E'; [|exact IH].
    contradiction N. apply (id_is_unique c m n E' E).
  - destruct (id_is m c); [reflexivity|exact IH].
Qed.

(** X2.  After a delete, get-by-id of the deleted id answers 404, and
    get-by-id of any other id answers as before the delete. *)
Theorem get_after_delete (records : list value) (n m : Z) :
  Forall (fun c => has_id c = true) records ->
  exists after,
    delete_car Writes (Stored (VList records)) n = Ok (deleted "Car" n, after) /\
    delete_booking Writes (Stored (VList records)) n = Ok (deleted "Booking" n, after) /\
    get_car after n = Ok (not_found "Car" n) /\
    get_booking after n = Ok (not_found "Booking" n) /\
    (m <> n -> get_car after m = get_car (Stored (VList records)) m) /\
    (m <> n -> get_booking after m = get_booking (Stored (VList records)) m).
Proof.
  intros H. exists (Stored (VList (without_id n records))).
  assert (H' := without_id_has_id n records H).
  split; [apply delete_car_removes, H|].
  split; [apply delete_booking_removes, H|].
  unfold get_car, get_booking. cbn [load_json_file].
  rewrite !(get_by_id_first _ _ _ H'), !(get_by_id_first _ _ _ H).
  rewrite find_record_without_same.
  repeat split; intros N; rewrite (find_record_without_other n m records N); reflexivity.
Qed.

Lemma get_after_delete_witness :
  Forall (fun c => has_id c = true) sample_cars /\
  exists after,
    delete_car Writes (Stored (VList sample_cars)) 2 = Ok (deleted "Car" 2, after) /\
    get_car after 2 = Ok (not_found "Car" 2) /\
    get_car after 3 = get_car (Stored (VList sample_cars)) 3.
Proof.
  split; [exact sample_cars_have_id|].
  destruct (get_after_delete sample_cars 2 3 sample_cars_have_id)
    as (after & D & _ & G & _ & K & _).
  exists after. split; [exact D|]. split; [exact G|]. apply K. discriminate.
Defined.

Lemma id_of_has_id (records : list value) :
  Forall (fun c => id_of c <> None) records ->
  Forall (fun c => has_id c = true) records.
Proof.
  apply Forall_impl. intros c. unfold id_of, has_id, dict_has.
  destruct c; try congruence. destruct (dict_get d "id"); congruence.
Qed.

Lemma id_of_id_is (c : value) (m n : Z) : id_of c = Some m -> id_is n c = (m =? n).
Proof.
  unfold id_of, id_is. destruct c; try discriminate.
  destruct (dict_get d "id") as [[]|]; try discriminate.
  intros H; inv H. reflexivity.
Qed.

Lemma find_record_last (k : Z) (records : list value) (c : value) :
  (forall x, In x records -> id_is k x = false) -> id_is k c = true ->
  find_record k (records ++ [c])%list = Some c.
Proof.
  unfold find_record. intros F Hc. induction records as [|x r IH]; simpl.
  - rewrite Hc. reflexivity.
  - rewrite (F x (or_introl eq_refl)). apply IH. intros y Hy. apply F. right; exact Hy.
Qed.

Lemma find_record_appended (records : list value) (c : value) :
  Forall (fun c => id_of c <> None) records ->
  id_of c = Some (next_id records) ->
  find_record (next_id records) (records ++ [c])%list = Some c.
Proof.
  intros H Hid. apply find_record_last.
  - intros x Hx. rewrite Forall_forall in H. specialize (H x Hx).
    destruct (id_of x) as [m|] eqn:E; [|congruence].
    rewrite (id_of_id_is x m _ E). apply Z.eqb_neq.
    pose proof (next_id_fresh records x m Hx E). lia.
  - rewrite (id_of_id_is c _ _ Hid). apply Z.eqb_refl.
Qed.

(** X3.  A car added without an id of its own, and a booking made from
    a valid form, is what get-by-id then answers for the id it was
    given. *)
Theorem get_after_add (now : string) (records : list value) (d : dict) :
  Forall (fun c => id_of c <> None) records ->
  (has_fields d required_car_fields = true -> dict_get d "id" = None ->
   exists car after,
     add_car now Writes (Stored (VList records)) (VDict d) = Ok (added car, after) /\
     get_car after (next_id records) = Ok (fetched car)) /\
  (is_form d = true -> validate_booking_data (VDict d) = Ok VNone ->
   exists booking after,
     create_booking now Writes (Stored (VList records)) (VDict d) =
       Ok (booked booking, after) /\
     get_booking after (next_id records) = Ok (fetched booking)).
Proof.
  intros H. split.
  - intros Hf Hid.
    destruct (add_car_assigns_next_id now records d H Hf Hid) as (car & Hrun & Cid).
    eexists _, _. split; [exact Hrun|].
    unfold get_car. cbn [load_json_file]. rewrite get_by_id_first.
    + rewrite (find_record_appended records _ H Cid). reflexivity.
    + apply id_of_has_id, Forall_app. split; [exact H|].
      constructor; [congruence|constructor].
  - intros Hf Hv.
    destruct (create_booking_assigns_next_id now records d H Hf Hv) as (b & Hrun & Bid).
    eexists _, _. split; [exact Hrun|].
    unfold get_booking. cbn [load_json_file]. rewrite get_by_id_first.
    + rewrite (find_record_appended records _ H Bid). reflexivity.
    + apply id_of_has_id, Forall_app. split; [exact H|].
      constructor; [congruence|constructor].
Qed.

Lemma get_after_add_witness :
  Forall (fun c => id_of c <> None) one_booking /\
  is_form (booking_form "asha@example.com" "9876543210") = true /\
  validate_booking_data (VDict (booking_form "asha@example.com" "9876543210")) = Ok VNone /\
  exists booking after,
    create_booking "2025-02-01T12:00:00" Writes (Stored (VList one_booking))
      (VDict (booking_form "asha@example.com" "9876543210")) =
      Ok (booked booking, after) /\
    get_booking after 2 = Ok (fetched booking).
Proof.
  assert (H : Forall (fun c => id_of c <> None) one_booking)
    by (repeat constructor; discriminate).
  split; [exact H|]. split; [reflexivity|]. split; [reflexivity|].
  exact (proj2 (get_after_add "2025-02-01T12:00:00" one_booking
                  (booking_form "asha@example.com" "9876543210") H)
               eq_refl eq_refl).
Defined.

Lemma find_record_rewritten (records : list value) (i : nat) (c c' : value) (n : Z) :
  store_ok records -> nth_error records i = Some c ->
  id_of c = Some n -> id_of c' = Some n ->
  find_record n (set_nth i c' records) = Some c'.
Proof.
  unfold find_record. intros [Hall Hnd]. revert i.
  induction records as [|x r IH]; intros i Hn Hc Hc'.
  - destruct i; discriminate Hn.
  - inv Hall. simpl in Hnd. inv Hnd. destruct i as [|j]; simpl in *.
    + rewrite (id_of_id_is c' n n Hc'), Z.eqb_refl. reflexivity.
    + destruct (id_of x) as [m|] eqn:Ex; [|congruence].
      rewrite (id_of_id_is x m n Ex).
      destruct (m =? n) eqn:E.
      * apply Z.eqb_eq in E; subst m. exfalso. apply H3. rewrite <- Hc.
        apply in_map. apply (nth_error_In r j Hn).
      * apply (IH H2 H4 j Hn Hc Hc').
Qed.

Lemma find_record_elsewhere (records : list value) (i : nat) (c c' : value) (n m : Z) :
  nth_error records i = Some c -> id_of c = Some n -> id_of c' = Some n -> m <> n ->
  find_record m (set_nth i c' records) = find_record m records.
Proof.
  unfold find_record. intros Hn Hc Hc' N. revert i Hn.
  induction records as [|x r IH]; intros i Hn.
  - destruct i; discriminate Hn.
  - destruct i as [|j]; simpl in *.
    + inv Hn. rewrite (id_of_id_is c n m Hc), (id_of_id_is c' n m Hc').
      replace (n =? m) with false by (symmetry; apply Z.eqb_neq; congruence).
      reflexivity.
    + rewrite (IH j Hn). reflexivity.
Qed.

Lemma set_nth_has_id (records : list value) (i : nat) (c' : value) :
  Forall (fun c => has_id c = true) records -> has_id c' = true ->
  Forall (fun c => has_id c = true) (set_nth i c' records).
Proof.
  intros H Hc. revert i. induction H as [|x r Hx Hr IH]; intros i.
  - destruct i; constructor.
  - destruct i; simpl; constructor; auto.
Qed.

(** X4.  After an update, get-by-id of the updated id answers with the
    record as updated, and get-by-id of any other id answers as
    before. *)
Theorem get_after_update (now : string) (records : list value) (n m : Z)
    (old d : dict) :
  store_ok records -> In (VDict old) records -> dict_get old "id" = Some (VInt n) ->
  dict_ok d -> d <> [] ->
  exists car after,
    update_car now Writes (Stored (VList records)) n (VDict d) =
      Ok (updated "Car" car, after) /\
    get_car after n = Ok (fetched car) /\
    (m <> n -> get_car after m = get_car (Stored (VList records)) m).
Proof.
  intros Hs Hin Hid Hok Hne.
  destruct (update_car_merges now records n old d Hs Hin Hid Hok Hne)
    as (i & car & Hn & Hrun & Cid & _).
  assert (Ho : id_of (VDict old) = Some n) by (simpl; rewrite Hid; reflexivity).
  assert (Hc : id_of (VDict car) = Some n) by (simpl; rewrite Cid; reflexivity).
  assert (H := id_of_has_id records (proj1 Hs)).
  assert (H' : Forall (fun c => has_id c = true) (set_nth i (VDict car) records)).
  { apply set_nth_has_id; [exact H|]. unfold has_id, dict_has. rewrite Cid. reflexivity. }
  eexists _, _. split; [exact Hrun|].
  unfold get_car. cbn [load_json_file].
  rewrite (get_by_id_first _ _ _ H'). split.
  - rewrite (find_record_rewritten records i _ _ n Hs Hn Ho Hc). reflexivity.
  - intros N. rewrite (get_by_id_first _ _ _ H'), (get_by_id_first _ _ _ H).
    rewrite (find_record_elsewhere records i _ _ n m Hn Ho Hc N). reflexivity.
Qed.

Lemma get_after_update_witness :
  let old := match nth 1 sample_cars VNone with VDict d => d | _ => [] end in
  let d := [("price", VInt 560000)] in
  store_ok sample_cars /\ In (VDict old) sample_cars /\
  dict_get old "id" = Some (VInt 2) /\ dict_ok d /\ d <> [] /\
  exists car after,
    update_car "2025-02-01T12:00:00" Writes (Stored (VList sample_cars)) 2 (VDict d) =
      Ok (updated "Car" car, after) /\
    get_car after 2 = Ok (fetched car).
Proof.
  intros old d.
  assert (Hin : In (VDict old) sample_cars) by (right; left; reflexivity).
  assert (Hok : dict_ok d)
    by (unfold dict_ok; simpl; repeat constructor; simpl; intuition discriminate).
  assert (Hne : d <> []) by discriminate.
  split; [exact sample_cars_ok|]. split; [exact Hin|]. split; [reflexivity|].
  split; [exact Hok|]. split; [exact Hne|].
  destruct (get_after_update "2025-02-01T12:00:00" sample_cars 2 1 old d
              sample_cars_ok Hin eq_refl Hok Hne) as (car & after & H1 & H2 & _).
  exists car, after. split; assumption.
Defined.

(* ================================================================== *)
(** ** Requests that are turned down *)

Lemma lookup_id_none (records : list value) (n : Z) :
  Forall (fun c => has_id c = true) records -> find_record n records = None ->
  exists o, lookup_id (VList records) n = Ok (o, VNone).
Proof.
  intros H F. destruct (lookup_id_first records n H) as (o & Hl & _).
  rewrite F in Hl. exists o. exact Hl.
Qed.

(** X5.  An update for an id that no record has is answered 404, and an
    update of a car with an empty payload is answered 400; in both
    cases nothing is written, whatever a write would do. *)
Theorem update_turned_down (now : string) (io : disk) (records : list value) (n : Z)
    (data : value) :
  Forall (fun c => has_id c = true) records ->
  (find_record n records = None ->
   update_car now io (Stored (VList records)) n data =
     Ok (not_found "Car" n, Stored (VList records)) /\
   update_booking now io (Stored (VList records)) n data =
     Ok (not_found "Booking" n, Stored (VList records))) /\
  (find_record n records <> None -> truthy data = false ->
   update_car now io (Stored (VList records)) n data =
     Ok ((error_body "No data provided" 400, 400), Stored (VList records))).
Proof.
  intros H. split.
  - intros F. destruct (lookup_id_none records n H F) as (o & Hl).
    unfold update_car, update_booking. cbn [load_json_file]. rewrite Hl.
    split; reflexivity.
  - intros F T. destruct (lookup_id_first records n H) as (o & Hl & _).
    destruct (find_record n records) as [c|] eqn:E; [|contradiction F; reflexivity].
    destruct (find_record_truthy records n c H E) as (Tc & _).
    unfold update_car. cbn [load_json_file]. rewrite Hl. cbn [bind].
    rewrite Tc, T. reflexivity.
Qed.

Lemma update_turned_down_witness :
  Forall (fun c => has_id c = true) sample_cars /\
  update_car "2025-02-01T12:00:00" (Fails Malformed) (Stored (VList sample_cars)) 8
    (VDict [("price", VInt 1)]) =
    Ok (not_found "Car" 8, Stored (VList sample_cars)) /\
  update_car "2025-02-01T12:00:00" Writes (Stored (VList sample_cars)) 2 (VDict []) =
    Ok ((error_body "No data provided" 400, 400), Stored (VList sample_cars)).
Proof.
  split; [exact sample_cars_have_id|]. split.
  - exact (proj1 (proj1 (update_turned_down "2025-02-01T12:00:00" (Fails Malformed)
                           sample_cars 8 (VDict [("price", VInt 1)])
                           sample_cars_have_id) eq_refl)).
  - refine (proj2 (update_turned_down "2025-02-01T12:00:00" Writes
                     sample_cars 2 (VDict []) sample_cars_have_id) _ eq_refl).
    discriminate.
Defined.

Lemma first_missing_pure (d : dict) (fields : list string) :
  first_missing (VDict d) fields = Ok (first_lacking d fields).
Proof.
  unfold first_lacking. induction fields as [|f r IH]; simpl; [reflexivity|].
  destruct (dict_has d f); simpl; [exact IH|reflexivity].
Qed.

(** X6.  A car payload that lacks a required field is answered 400 with
    the name of the first field it lacks, in the order brand, model,
    price, segment, fuelType, transmission; an empty payload is
    answered 400 "No data provided".  Nothing is read or written: the
    answer is the same whatever the file holds. *)
Theorem add_car_turned_down (now : string) (io : disk) (f : file) (d : dict)
    (field : string) :
  (d = [] ->
   add_car now io f (VDict d) = Ok ((error_body "No data provided" 400, 400), f)) /\
  (d <> [] -> first_lacking d required_car_fields = Some field ->
   add_car now io f (VDict d) =
     Ok ((error_body ("Missing required field: " ++ field) 400, 400), f)) /\
  (first_lacking d required_car_fields = None <->
   has_fields d required_car_fields = true).
Proof.
  split; [|split].
  - intros ->. reflexivity.
  - intros Hne Hf. unfold add_car.
    assert (T : truthy (VDict d) = true) by (destruct d; [contradiction Hne|]; reflexivity).
    rewrite T. cbn [negb]. rewrite first_missing_pure, Hf. reflexivity.
  - unfold first_lacking, has_fields. split; intros H.
    + apply forallb_forall. intros x Hx.
      pose proof (find_none _ _ H x Hx) as N. simpl in N.
      destruct (dict_has d x); [reflexivity|discriminate].
    + destruct (find (fun f0 => negb (dict_has d f0)) required_car_fields) as [x|] eqn:E;
        [|reflexivity].
      apply find_some in E. destruct E as [Hin Hx].
      rewrite forallb_forall in H. rewrite (H x Hin) in Hx. discriminate.
Qed.

Lemma add_car_turned_down_witness :
  let d := [("brand", VStr "Maruti Suzuki"); ("model", VStr "Swift");
            ("segment", VStr "Hatchback")] in
  d <> [] /\ first_lacking d required_car_fields = Some "price" /\
  add_car "2025-02-01T12:00:00" Writes (Stored (VList sample_cars)) (VDict d) =
    Ok ((error_body "Missing required field: price" 400, 400), Stored (VList sample_cars)).
Proof.
  intros d. assert (Hne : d <> []) by discriminate.
  split; [exact Hne|]. split; [reflexivity|].
  exact (proj1 (proj2 (add_car_turned_down "2025-02-01T12:00:00" Writes
                         (Stored (VList sample_cars)) d "price")) Hne eq_refl).
Defined.

(** X7.  A booking payload with an invalid field is answered 422 with
    the validator's messages as details, and no booking is stored,
    whatever the bookings file holds. *)
Theorem create_booking_turned_down (now : string) (io : disk) (f : file) (d : dict)
    (field : string) :
  d <> [] -> invalid d field = true ->
  exists errors,
    validate_booking_data (VDict d) = Ok (VDict errors) /\
    create_booking now io f (VDict d) = Ok (rejected (VDict errors), f) /\
    dict_get errors field = message d field /\
    dict_get errors field <> None.
Proof.
  intros Hne Hinv. destruct (validate_pure d) as (errors & Hrun & Hget).
  apply message_invalid in Hinv. rewrite <- Hget in Hinv.
  destruct errors as [|kv r]; [contradiction Hinv; reflexivity|].
  exists (kv :: r). split; [exact Hrun|]. split; [|split; [apply Hget|exact Hinv]].
  unfold create_booking.
  assert (T : truthy (VDict d) = true) by (destruct d; [contradiction Hne|]; reflexivity).
  rewrite T. cbn [negb]. rewrite Hrun. reflexivity.
Qed.

Lemma create_booking_turned_down_witness :
  let d := booking_form "asha.example.com" "9876543210" in
  d <> [] /\ invalid d "email" = true /\
  exists errors,
    create_booking "2025-02-01T12:00:00" Writes (Stored (VList one_booking)) (VDict d) =
      Ok (rejected (VDict errors), Stored (VList one_booking)) /\
    dict_get errors "email" = Some (VStr "Invalid email format").
Proof.
  intros d. assert (Hne : d <> []) by discriminate.
  split; [exact Hne|]. split; [reflexivity|].
  destruct (create_booking_turned_down "2025-02-01T12:00:00" Writes
              (Stored (VList one_booking)) d "email" Hne eq_refl)
    as (errors & _ & Hrun & Hmsg & _).
  exists errors. split; [exact Hrun|exact Hmsg].
Defined.

(* ================================================================== *)
(** ** What add and booking store *)

Lemma dict_extend_merged (items base : dict) (k : string) :
  dict_ok items -> dict_get (dict_extend base items) k = merged items base k.
Proof.
  unfold dict_extend, merged. intros Hok. revert base.
  induction items as [|[k0 v0] r IH]; intros base; simpl; [reflexivity|].
  inv Hok. rewrite (IH H2). destruct (String.eqb k0 k) eqn:E.
  - apply String.eqb_eq in E; subst k0.
    rewrite (dict_get_absent r k H1). apply dict_get_set_same.
  - destruct (dict_get r k); [reflexivity|].
    apply dict_get_set_other. intros ->. rewrite String.eqb_refl in E. discriminate.
Qed.

(** What [add_car] does with a payload that has the required fields. *)
Lemma add_car_runs (now : string) (io : disk) (cars : list value) (d : dict) :
  Forall (fun c => id_of c <> None) cars ->
  has_fields d required_car_fields = true ->
  let car := VDict (new_car_record now (next_id cars) d) in
  add_car now io (Stored (VList cars)) (VDict d) =
    Ok (written io (added car) (VList (cars ++ [car])%list) "Failed to save car").
Proof.
  intros H Hf car. unfold add_car.
  assert (T : truthy (VDict d) = true) by (destruct d; [discriminate Hf|reflexivity]).
  rewrite T. cbn [negb]. rewrite (first_missing_none d _ Hf). cbn [bind load_json_file].
  rewrite (next_car_id_pure cars H). destruct io; reflexivity.
Qed.

(** X8.  The car that add stores has every field of the payload with
    the payload's value, the id included, except [addedDate], which is
    the time of the add; the id is the next id of the store only when
    the payload has none. *)
Theorem add_car_stores_payload (now : string) (cars : list value) (d : dict) :
  Forall (fun c => id_of c <> None) cars ->
  has_fields d required_car_fields = true -> dict_ok d ->
  exists car,
    add_car now Writes (Stored (VList cars)) (VDict d) =
      Ok (added (VDict car), Stored (VList (cars ++ [VDict car])%list)) /\
    dict_get car "addedDate" = Some (VStr now) /\
    (forall k v, k <> "addedDate" -> dict_get d k = Some v -> dict_get car k = Some v) /\
    (dict_get d "id" = None -> dict_get car "id" = Some (VInt (next_id cars))) /\
    (forall k, k <> "addedDate" -> k <> "id" -> dict_get d k = None ->
               dict_get car k = None).
Proof.
  intros H Hf Hok. exists (new_car_record now (next_id cars) d).
  split; [exact (add_car_runs now Writes cars d H Hf)|].
  unfold new_car_record. split; [apply dict_get_set_same|].
  split; [|split].
  - intros k v K E. rewrite dict_get_set_other by congruence.
    rewrite (dict_extend_merged d _ k Hok). unfold merged. rewrite E. reflexivity.
  - intros E. rewrite dict_get_set_other by discriminate.
    rewrite (dict_extend_merged d _ "id" Hok). unfold merged. rewrite E. reflexivity.
  - intros k K1 K2 E. rewrite dict_get_set_other by congruence.
    rewrite (dict_extend_merged d _ k Hok). unfold merged. rewrite E.
    cbn [dict_get].
    destruct (String.eqb "id" k) eqn:Ek; [|reflexivity].
    apply String.eqb_eq in Ek. congruence.
Qed.

Lemma sample_cars_ids : Forall (fun c => id_of c <> None) sample_cars.
Proof. exact (proj1 sample_cars_ok). Qed.

Lemma add_car_stores_payload_witness :
  let d := ("colour", VStr "red") :: ("addedDate", VStr "1999-01-01") :: car_form 7 in
  Forall (fun c => id_of c <> None) sample_cars /\
  has_fields d required_car_fields = true /\ dict_ok d /\
  exists car,
    add_car "2025-02-01T12:00:00" Writes (Stored (VList sample_cars)) (VDict d) =
      Ok (added (VDict car), Stored (VList (sample_cars ++ [VDict car])%list)) /\
    dict_get car "addedDate" = Some (VStr "2025-02-01T12:00:00") /\
    dict_get car "colour" = Some (VStr "red").
Proof.
  intros d.
  assert (Hok : dict_ok d)
    by (unfold dict_ok; simpl; repeat constructor; simpl; intuition discriminate).
  split; [exact sample_cars_ids|]. split; [reflexivity|]. split; [exact Hok|].
  destruct (add_car_stores_payload "2025-02-01T12:00:00" sample_cars d
              sample_cars_ids eq_refl Hok) as (car & Hrun & Hdate & Hget & _).
  exists car. split; [exact Hrun|]. split; [exact Hdate|].
  apply Hget; [discriminate|reflexivity].
Defined.

(** X9.  A failed write is answered 500 by add and by delete, and the
    file is then as the failed write left it; a write that succeeds is
    answered 201 by add and 200 by delete. *)
Theorem failed_write_is_reported (now : string) (io : disk) (cars : list value)
    (d : dict) (n : Z) :
  Forall (fun c => id_of c <> None) cars ->
  has_fields d required_car_fields = true ->
  exists r1 f1 r2 f2 r3 f3,
    add_car now io (Stored (VList cars)) (VDict d) = Ok (r1, f1) /\
    delete_car io (Stored (VList cars)) n = Ok (r2, f2) /\
    delete_booking io (Stored (VList cars)) n = Ok (r3, f3) /\
    match io with
    | Writes => snd r1 = 201 /\ snd r2 = 200 /\ snd r3 = 200
    | Fails after =>
        r1 = (error_body "Failed to save car" 500, 500) /\
        r2 = (error_body "Failed to delete car" 500, 500) /\
        r3 = (error_body "Failed to delete booking" 500, 500) /\
        f1 = after /\ f2 = after /\ f3 = after
    end.
Proof.
  intros H Hf. pose proof (add_car_runs now io cars d H Hf) as A.
  pose proof (delete_comprehension n cars (id_of_has_id cars H)) as D.
  unfold delete_car, delete_booking. cbn [load_json_file]. rewrite D. cbn [bind].
  destruct io; simpl in *; do 6 eexists; (split; [exact A|]);
    (split; [reflexivity|]); (split; [reflexivity|]); repeat split.
Qed.

Lemma failed_write_is_reported_witness :
  Forall (fun c => id_of c <> None) sample_cars /\
  has_fields (car_form 7) required_car_fields = true /\
  exists r1 f1 r2 f2,
    add_car "2025-02-01T12:00:00" (Fails Malformed) (Stored (VList sample_cars))
      (VDict (car_form 7)) = Ok (r1, f1) /\
    delete_car (Fails Malformed) (Stored (VList sample_cars)) 2 = Ok (r2, f2) /\
    snd r1 = 500 /\ snd r2 = 500 /\ f1 = Malformed /\ f2 = Malformed.
Proof.
  split; [exact sample_cars_ids|]. split; [reflexivity|].
  destruct (failed_write_is_reported "2025-02-01T12:00:00" (Fails Malformed)
              sample_cars (car_form 7) 2 sample_cars_ids eq_refl)
    as (r1 & f1 & r2 & f2 & r3 & f3 & A & D & _ & E1 & E2 & _ & E4 & E5 & _).
  exists r1, f1, r2, f2. subst. repeat split; assumption.
Defined.

(** X10.  The booking stored for a valid form has exactly the ten keys
    of a booking: the next id of the store, the name, email and phone
    trimmed, the car model, date and time as given, the comments
    trimmed (empty when there are none), the time of the booking, and
    the status "pending"; any other field of the payload, an [id] or a
    [status] included, is left out. *)
Theorem create_booking_stores (now : string) (bookings : list value) (d : dict) :
  Forall (fun c => id_of c <> None) bookings ->
  is_form d = true -> validate_booking_data (VDict d) = Ok VNone ->
  exists b,
    create_booking now Writes (Stored (VList bookings)) (VDict d) =
      Ok (booked (VDict b), Stored (VList (bookings ++ [VDict b])%list)) /\
    map fst b = booking_keys /\
    dict_get b "id" = Some (VInt (next_id bookings)) /\
    dict_get b "status" = Some (VStr "pending") /\
    dict_get b "bookingDate" = Some (VStr now) /\
    dict_get b "name" = trimmed d "name" /\
    dict_get b "email" = trimmed d "email" /\
    dict_get b "phone" = trimmed d "phone" /\
    dict_get b "carModel" = dict_get d "carModel" /\
    dict_get b "preferredDate" = dict_get d "preferredDate" /\
    dict_get b "preferredTime" = dict_get d "preferredTime" /\
    dict_get b "comments" =
      match dict_get d "comments" with
      | None => Some (VStr "")
      | Some _ => trimmed d "comments"
      end.
Proof.
  intros H Hf Hv. unfold is_form, has_fields in Hf. simpl forallb in Hf.
  repeat (apply andb_prop in Hf; destruct Hf as [Hf ?]).
  unfold str_field, dict_has, trimmed in *.
  destruct (dict_get d "name") as [[| | |name| |]|] eqn:E1; try discriminate.
  destruct (dict_get d "email") as [[| | |email| |]|] eqn:E2; try discriminate.
  destruct (dict_get d "phone") as [[| | |phone| |]|] eqn:E3; try discriminate.
  destruct (dict_get d "carModel") as [model|] eqn:E4; try discriminate.
  destruct (dict_get d "preferredDate") as [date|] eqn:E5; try discriminate.
  destruct (dict_get d "preferredTime") as [time|] eqn:E6; try discriminate.
  assert (T : truthy (VDict d) = true) by (destruct d; [discriminate E1|reflexivity]).
  unfold create_booking. rewrite T. cbn [negb]. rewrite Hv.
  cbn [bind truthy load_json_file].
  rewrite (next_booking_id_pure bookings H). cbn [bind]. unfold stripped.
  cbn [py_getitem py_get]. rewrite E1, E2, E3, E4, E5, E6. cbn [bind py_strip].
  destruct (dict_get d "comments") as [[| | |s| |]|] eqn:E7; try discriminate;
    cbn [bind py_strip py_append save_json_file];
    eexists; (split; [reflexivity|]); repeat split.
Qed.

Lemma create_booking_stores_witness :
  let d := ("status", VStr "confirmed") :: ("id", VInt 40) ::
           booking_form "  asha@example.com " "9876543210" in
  Forall (fun c => id_of c <> None) one_booking /\
  is_form d = true /\ validate_booking_data (VDict d) = Ok VNone /\
  exists b,
    create_booking "2025-02-01T12:00:00" Writes (Stored (VList one_booking)) (VDict d) =
      Ok (booked (VDict b), Stored (VList (one_booking ++ [VDict b])%list)) /\
    dict_get b "id" = Some (VInt 2) /\
    dict_get b "status" = Some (VStr "pending") /\
    dict_get b "email" = Some (VStr "asha@example.com").
Proof.
  intros d.
  assert (H : Forall (fun c => id_of c <> None) one_booking)
    by (repeat constructor; discriminate).
  split; [exact H|]. split; [reflexivity|]. split; [reflexivity|].
  destruct (create_booking_stores "2025-02-01T12:00:00" one_booking d H eq_refl eq_refl)
    as (b & Hrun & _ & Hid & Hst & _ & _ & Hem & _).
  exists b. split; [exact Hrun|]. split; [exact Hid|]. split; [exact Hst|exact Hem].
Defined.

(* ================================================================== *)
(** ** Where a handler raises *)

(** A payload that passes the validator has the six required fields. *)
Lemma valid_has_required (d : dict) (f : string) :
  validate_booking_data (VDict d) = Ok VNone -> is_required f = true ->
  dict_get d f <> None.
Proof.
  intros Hv R. destruct (validate_pure d) as (errors & Hrun & Hget).
  rewrite Hrun in Hv. inv Hv. destruct errors; [|discriminate].
  intros N.
  assert (V : invalid d f = true) by (unfold invalid, blank; rewrite R, N; reflexivity).
  apply message_invalid in V. apply V. rewrite <- Hget. reflexivity.
Qed.

(** X11.  The validator reads a field through [str], so it passes a
    name, email or phone that is not a string (a phone given as the
    number 9876543210); the booking then raises [AttributeError] at
    [.strip()] and nothing is stored. *)
Theorem create_booking_raises_on_non_text (now : string) (io : disk)
    (bookings : list value) (d : dict) (k : string) (v : value) :
  Forall (fun c => id_of c <> None) bookings ->
  validate_booking_data (VDict d) = Ok VNone ->
  In k ["name"; "email"; "phone"] -> dict_get d k = Some v -> not_str v = true ->
  create_booking now io (Stored (VList bookings)) (VDict d) = Raise AttributeError.
Proof.
  intros H Hv Hk Hd Hn.
  pose proof (valid_has_required d "name" Hv eq_refl) as P1.
  pose proof (valid_has_required d "email" Hv eq_refl) as P2.
  pose proof (valid_has_required d "phone" Hv eq_refl) as P3.
  assert (T : truthy (VDict d) = true) by (destruct d; [discriminate Hd|reflexivity]).
  unfold create_booking. rewrite T. cbn [negb]. rewrite Hv.
  cbn [bind truthy load_json_file].
  rewrite (next_booking_id_pure bookings H). cbn [bind]. unfold stripped.
  cbn [py_getitem].
  destruct (dict_get d "name") as [v1|] eqn:E1; [|contradiction P1; reflexivity].
  destruct (dict_get d "email") as [v2|] eqn:E2; [|contradiction P2; reflexivity].
  destruct (dict_get d "phone") as [v3|] eqn:E3; [|contradiction P3; reflexivity].
  destruct v1; try reflexivity. destruct v2; try reflexivity.
  destruct v3; try reflexivity.
  exfalso. simpl in Hk.
  destruct Hk as [<-|[<-|[<-|[]]]];
    [rewrite E1 in Hd|rewrite E2 in Hd|rewrite E3 in Hd]; inv Hd; discriminate Hn.
Qed.

Lemma create_booking_raises_on_non_text_witness :
  let d := [("name", VStr "Asha Rao"); ("email", VStr "asha@example.com");
            ("phone", VInt 9876543210); ("carModel", VStr "Punch");
            ("preferredDate", VStr "2025-01-15"); ("preferredTime", VStr "10:00")] in
  Forall (fun c => id_of c <> None) one_booking /\
  validate_booking_data (VDict d) = Ok VNone /\
  create_booking "2025-02-01T12:00:00" Writes (Stored (VList one_booking)) (VDict d) =
    Raise AttributeError.
Proof.
  intros d.
  assert (H : Forall (fun c => id_of c <> None) one_booking)
    by (repeat constructor; discriminate).
  split; [exact H|]. split; [reflexivity|].
  apply (create_booking_raises_on_non_text "2025-02-01T12:00:00" Writes one_booking d
           "phone" (VInt 9876543210) H eq_refl).
  - right; right; left; reflexivity.
  - reflexivity.
  - reflexivity.
Defined.

Lemma filterM_raises_last {A : Type} (p : A -> res bool) (l : list A) (c : A) (e : exn) :
  (forall a, In a l -> exists b, p a = Ok b) -> p c = Raise e ->
  filterM p (l ++ [c])%list = Raise e.
Proof.
  intros H Hc. induction l as [|a r IH]; simpl.
  - rewrite Hc. reflexivity.
  - destruct (H a (or_introl eq_refl)) as (b & ->). simpl.
    rewrite IH; [reflexivity|]. intros x Hx. apply H. right; exact Hx.
Qed.

(** X12.  Add checks that a car has a brand, not that the brand is a
    string: a car with a brand of another type is stored, and from then
    on every listing with a brand criterion raises [AttributeError]. *)
Theorem brand_filter_raises_after_add (now : string) (cars : list value) (d : dict)
    (v : value) (args : query) :
  Forall (fun c => is_car c = true) cars ->
  Forall (fun c => id_of c <> None) cars ->
  has_fields d required_car_fields = true -> dict_ok d ->
  dict_get d "brand" = Some v -> not_str v = true ->
  given (q_brand args) = true ->
  exists car after,
    add_car now Writes (Stored (VList cars)) (VDict d) = Ok (added car, after) /\
    get_cars after args = Raise AttributeError.
Proof.
  intros Hcars Hids Hf Hok Hb Hn Hg.
  eexists _, _. split; [exact (add_car_runs now Writes cars d Hids Hf)|].
  assert (B : dict_get (new_car_record now (next_id cars) d) "brand" = Some v).
  { unfold new_car_record. rewrite dict_get_set_other by discriminate.
    rewrite (dict_extend_merged d _ "brand" Hok). unfold merged. rewrite Hb. reflexivity. }
  unfold get_cars. cbn [load_json_file]. rewrite Hg. unfold narrow at 1.
  unfold comprehension. cbn [py_iter bind].
  rewrite (filterM_raises_last _ cars _ AttributeError); [reflexivity| |].
  - intros a Ha. rewrite Forall_forall in Hcars.
    destruct (tests_pure args a (Hcars a Ha)) as (E & _). eexists. exact E.
  - unfold field_is. cbn [py_getitem]. rewrite B. cbn [bind].
    destruct v; try reflexivity. discriminate Hn.
Qed.

Lemma brand_filter_raises_after_add_witness :
  let d := [("brand", VInt 5); ("model", VStr "Swift"); ("price", VInt 600000);
            ("segment", VStr "Hatchback"); ("fuelType", VStr "Petrol");
            ("transmission", VStr "Manual")] in
  let args := with_brand no_criteria (Some "tata motors") in
  Forall (fun c => is_car c = true) sample_cars /\
  Forall (fun c => id_of c <> None) sample_cars /\
  has_fields d required_car_fields = true /\ dict_ok d /\
  dict_get d "brand" = Some (VInt 5) /\ given (q_brand args) = true /\
  exists car after,
    add_car "2025-02-01T12:00:00" Writes (Stored (VList sample_cars)) (VDict d) =
      Ok (added car, after) /\
    get_cars after args = Raise AttributeError.
Proof.
  intros d args.
  assert (Hc : Forall (fun c => is_car c = true) sample_cars) by (repeat constructor).
  assert (Hok : dict_ok d)
    by (unfold dict_ok; simpl; repeat constructor; simpl; intuition discriminate).
  split; [exact Hc|]. split; [exact sample_cars_ids|]. split; [reflexivity|].
  split; [exact Hok|]. split; [reflexivity|]. split; [reflexivity|].
  exact (brand_filter_raises_after_add "2025-02-01T12:00:00" sample_cars d (VInt 5) args
           Hc sample_cars_ids eq_refl Hok eq_refl eq_refl eq_refl).
Defined.

(* ================================================================== *)
(** ** A file that cannot be read *)

(** The body of a list answer with nothing in it, as the load of a
    file that cannot be read gives it: [data] is the empty dict. *)
Lemma unavailable_loads_empty_dict (f : file) :
  unavailable f = true -> load_json_file f (VList []) = VDict [].
Proof. destruct f; [reflexivity|reflexivity|reflexivity|discriminate]. Qed.

(** X13.  When the file is missing, unreadable or not JSON: get-by-id
    and update answer 404 and write nothing, the lists of bookings and
    brands answer count 0 with the empty dict as data, and a delete
    answers 200 and writes the empty list. *)
Theorem unavailable_file_reads_as_empty (now : string) (io : disk) (f : file)
    (n : Z) (data : value) :
  unavailable f = true ->
  get_car f n = Ok (not_found "Car" n) /\
  get_booking f n = Ok (not_found "Booking" n) /\
  get_brand f n = Ok (not_found "Brand" n) /\
  update_car now io f n data = Ok (not_found "Car" n, f) /\
  update_booking now io f n data = Ok (not_found "Booking" n, f) /\
  get_bookings f =
    Ok (VDict [("status", VStr "success"); ("count", VInt 0); ("data", VDict [])], 200) /\
  get_brands f =
    Ok (VDict [("status", VStr "success"); ("count", VInt 0); ("data", VDict [])], 200) /\
  delete_car Writes f n = Ok (deleted "Car" n, Stored (VList [])) /\
  delete_booking Writes f n = Ok (deleted "Booking" n, Stored (VList [])).
Proof.
  intros U. pose proof (unavailable_loads_empty_dict f U) as L.
  unfold get_car, get_booking, get_brand, update_car, update_booking, get_bookings,
    get_brands, delete_car, delete_booking.
  rewrite L. repeat split.
Qed.

Lemma unavailable_file_reads_as_empty_witness :
  unavailable Absent = true /\
  get_car Absent 1 = Ok (not_found "Car" 1) /\
  delete_car Writes Absent 1 = Ok (deleted "Car" 1, Stored (VList [])).
Proof.
  destruct (unavailable_file_reads_as_empty "2025-02-01T12:00:00" Writes Absent 1 VNone
              eq_refl) as (G & _ & _ & _ & _ & _ & _ & D & _).
  split; [reflexivity|]. split; [exact G|exact D].
Defined.

(** X14.  When the file is missing, unreadable or not JSON, adding a
    car that has the required fields and booking a form that passes
    the validator raise [AttributeError]: the load gives a dict, which
    has no [append]. *)
Theorem unavailable_file_breaks_add (now : string) (io : disk) (f : file) (d : dict) :
  unavailable f = true ->
  (has_fields d required_car_fields = true ->
   add_car now io f (VDict d) = Raise AttributeError) /\
  (validate_booking_data (VDict d) = Ok VNone ->
   create_booking now io f (VDict d) = Raise AttributeError).
Proof.
  intros U. pose proof (unavailable_loads_empty_dict f U) as L. split.
  - intros Hf. unfold add_car.
    assert (T : truthy (VDict d) = true) by (destruct d; [discriminate Hf|reflexivity]).
    rewrite T. cbn [negb]. rewrite (first_missing_none d _ Hf). cbn [bind].
    rewrite L. reflexivity.
  - intros Hv.
    pose proof (valid_has_required d "name" Hv eq_refl) as P1.
    pose proof (valid_has_required d "email" Hv eq_refl) as P2.
    pose proof (valid_has_required d "phone" Hv eq_refl) as P3.
    pose proof (valid_has_required d "carModel" Hv eq_refl) as P4.
    pose proof (valid_has_required d "preferredDate" Hv eq_refl) as P5.
    pose proof (valid_has_required d "preferredTime" Hv eq_refl) as P6.
    assert (T : truthy (VDict d) = true) by (destruct d; [contradiction P1|]; reflexivity).
    unfold create_booking. rewrite T. cbn [negb]. rewrite Hv. cbn [bind truthy].
    rewrite L. unfold stripped. cbn [next_booking_id py_iter map mapM bind py_getitem py_get].
    destruct (dict_get d "name") as [v1|]; [|contradiction P1; reflexivity].
    destruct (dict_get d "email") as [v2|]; [|contradiction P2; reflexivity].
    destruct (dict_get d "phone") as [v3|]; [|contradiction P3; reflexivity].
    destruct (dict_get d "carModel") as [v4|]; [|contradiction P4; reflexivity].
    destruct (dict_get d "preferredDate") as [v5|]; [|contradiction P5; reflexivity].
    destruct (dict_get d "preferredTime") as [v6|]; [|contradiction P6; reflexivity].
    destruct v1; try reflexivity. destruct v2; try reflexivity.
    destruct v3; try reflexivity.
    destruct (dict_get d "comments") as [[| | | | |]|]; reflexivity.
Qed.

Lemma unavailable_file_breaks_add_witness :
  unavailable Absent = true /\
  validate_booking_data (VDict (booking_form "asha@example.com" "9876543210")) = Ok VNone /\
  create_booking "2025-02-01T12:00:00" Writes Absent
    (VDict (booking_form "asha@example.com" "9876543210")) = Raise AttributeError.
Proof.
  split; [reflexivity|]. split; [reflexivity|].
  exact (proj2 (unavailable_file_breaks_add "2025-02-01T12:00:00" Writes Absent
                  (booking_form "asha@example.com" "9876543210") eq_refl) eq_refl).
Defined.

(* ================================================================== *)
(** ** More on the statistics *)

Lemma counts_total_bumped (m : counts) (k : value) :
  counts_total (counts_set m k (counts_get m k 0 + 1)) = counts_total m + 1.
Proof.
  induction m as [|[k0 n0] r IH]; simpl; [reflexivity|].
  destruct (key_eqb k0 k); simpl; [lia|]. rewrite IH. lia.
Qed.

Lemma count_brands_total (cars : list value) (dist dist' : counts) :
  count_brands cars dist = Ok dist' ->
  counts_total dist' = counts_total dist + Z.of_nat (List.length cars).
Proof.
  revert dist. induction cars as [|c r IH]; intros dist Hrun; simpl in Hrun.
  - inv Hrun. simpl. lia.
  - destruct (py_getitem c "brand") as [b|]; [|discriminate]. simpl in Hrun.
    destruct (hashable b); [|discriminate].
    rewrite (IH _ Hrun), counts_total_bumped. simpl List.length. lia.
Qed.

(** X15.  The counts of the brand distribution add up to the number of
    cars: every car is counted under exactly one brand.  This is so
    whenever the statistics are answered, which they are for car
    records whose mean price is within the range of a float. *)
Theorem brand_counts_add_up (cars bookings brands : list value) :
  Forall (fun c => is_car c = true) cars -> mean_fits cars ->
  exists s,
    get_stats (Stored (VList cars)) (Stored (VList bookings)) (Stored (VList brands)) =
      Ok (s, 200) /\
    counts_total (brandDistribution s) = totalCars s.
Proof.
  intros H Hfit.
  destruct (get_stats_runs cars bookings brands H Hfit) as (dist & Hc & _ & Hrun).
  eexists. split; [exact Hrun|]. simpl.
  rewrite (count_brands_total cars [] dist Hc). reflexivity.
Qed.

Lemma brand_counts_add_up_witness :
  Forall (fun c => is_car c = true) sample_cars /\ mean_fits sample_cars /\
  exists s,
    get_stats (Stored (VList sample_cars)) (Stored (VList sample_bookings))
              (Stored (VList sample_brands)) = Ok (s, 200) /\
    counts_total (brandDistribution s) = totalCars s.
Proof.
  split; [exact sample_cars_are_cars|]. split; [exact sample_mean_fits|].
  exact (brand_counts_add_up sample_cars sample_bookings sample_brands
           sample_cars_are_cars sample_mean_fits).
Defined.

(* ================================================================== *)
(** ** More on the list operation *)

Lemma given_text (o : option string) :
  given o = negb (PyStr.is_empty (PyStr.lower (text o))).
Proof. destruct o as [s|]; simpl; [rewrite is_empty_lower|]; reflexivity. Qed.

(** X16.  The texts of a query count up to case, and an empty text is
    the same as none: two queries that agree in this way get the same
    answer, whatever the file holds. *)
Theorem get_cars_ignores_case (f : file) (a b : query) :
  same_criteria a b -> get_cars f a = get_cars f b.
Proof.
  intros (Hb & Hs & Hf & Ht & Hq & Hmin & Hmax).
  unfold get_cars, field_is. rewrite !given_text.
  rewrite Hb, Hs, Hf, Ht, Hq, Hmin, Hmax. reflexivity.
Qed.

Lemma get_cars_ignores_case_witness :
  same_criteria (with_brand no_criteria (Some "TATA Motors"))
                (with_brand no_criteria (Some "tata motors")) /\
  get_cars (Stored (VList sample_cars)) (with_brand no_criteria (Some "TATA Motors")) =
  get_cars (Stored (VList sample_cars)) (with_brand no_criteria (Some "tata motors")).
Proof.
  assert (H : same_criteria (with_brand no_criteria (Some "TATA Motors"))
                            (with_brand no_criteria (Some "tata motors")))
    by (repeat split).
  split; [exact H|].
  exact (get_cars_ignores_case (Stored (VList sample_cars)) _ _ H).
Defined.

(** The list operation on car records. *)
Lemma get_cars_runs (cars : list value) (args : query) :
  Forall (fun c => is_car c = true) cars ->
  get_cars (Stored (VList cars)) args = Ok (listing (filter (satisfies args) cars)).
Proof.
  intros HF. assert (HF0 := proj1 (Forall_forall _ cars) HF).
  unfold get_cars. cbn [load_json_file].
  narrow_step args (text_test "brand" (q_brand args)).
  narrow_step args (text_test "segment" (q_segment args)).
  narrow_step args (text_test "fuelType" (q_fuelType args)).
  narrow_step args (text_test "transmission" (q_transmission args)).
  narrow_step args (price_test Z.geb (q_minPrice args)).
  narrow_step args (price_test Z.leb (q_maxPrice args)).
  narrow_step args (search_test (PyStr.lower (text (q_search args)))).
  clear HF. rewrite !filter_filter. cbn [py_len bind]. unfold listing.
  erewrite (filter_ext_in _ (satisfies args)); [reflexivity|].
  intros c Hc. rewrite (satisfies_tests args c (HF0 c Hc)), !andb_assoc.
  reflexivity.
Qed.

Lemma filter_swap {A : Type} (p q : A -> bool) (l : list A) :
  filter q (filter p l) = filter p (filter q l).
Proof.
  rewrite !filter_filter. apply filter_ext. intros x. apply andb_comm.
Qed.

(** X17.  Listing the answer of a listing: under the same criteria it
    changes nothing, and under other criteria the outcome does not
    depend on which of the two is applied first.  An answer holds only
    records of the store. *)
Theorem get_cars_composes (cars : list value) (a b : query) :
  Forall (fun c => is_car c = true) cars ->
  exists la lb lab,
    get_cars (Stored (VList cars)) a = Ok (listing la) /\
    get_cars (Stored (VList cars)) b = Ok (listing lb) /\
    get_cars (Stored (VList la)) a = Ok (listing la) /\
    get_cars (Stored (VList la)) b = Ok (listing lab) /\
    get_cars (Stored (VList lb)) a = Ok (listing lab) /\
    incl la cars /\
    (List.length la <= List.length cars)%nat.
Proof.
  intros H.
  exists (filter (satisfies a) cars), (filter (satisfies b) cars),
         (filter (satisfies b) (filter (satisfies a) cars)).
  pose proof (filter_cars (satisfies a) cars H) as Ha.
  pose proof (filter_cars (satisfies b) cars H) as Hb.
  rewrite !(get_cars_runs cars _ H), !(get_cars_runs _ _ Ha), (get_cars_runs _ _ Hb).
  rewrite filter_idem, (filter_swap (satisfies b) (satisfies a)).
  repeat split.
  - apply incl_filter.
  - apply filter_length_le.
Qed.

Lemma get_cars_composes_witness :
  let a := with_minPrice no_criteria (Some 600000) in
  let b := with_brand no_criteria (Some "Tata Motors") in
  Forall (fun c => is_car c = true) sample_cars /\
  exists la lb lab,
    get_cars (Stored (VList sample_cars)) a = Ok (listing la) /\
    get_cars (Stored (VList sample_cars)) b = Ok (listing lb) /\
    get_cars (Stored (VList la)) b = Ok (listing lab) /\
    get_cars (Stored (VList lb)) a = Ok (listing lab).
Proof.
  intros a b.
  assert (H : Forall (fun c => is_car c = true) sample_cars) by (repeat constructor).
  split; [exact H|].
  destruct (get_cars_composes sample_cars a b H)
    as (la & lb & lab & H1 & H2 & _ & H4 & H5 & _).
  exists la, lb, lab. repeat split; assumption.
Defined.

Lemma outside_empty_range (c : value) (args : query) (lo hi : Z) :
  is_car c = true -> q_minPrice args = Some lo -> q_maxPrice args = Some hi ->
  lo <> 0 -> hi <> 0 -> hi < lo -> satisfies args c = false.
Proof.
  intros H Hlo Hhi Nlo Nhi Hlt.
  destruct (is_car_fields c H) as (_ & _ & _ & _ & _ & p & _ & _ & _ & _ & _ & Hp).
  unfold satisfies, satisfies_with, within. rewrite Hlo, Hhi, Hp. simpl.
  apply Z.eqb_neq in Nlo. apply Z.eqb_neq in Nhi. rewrite Nlo, Nhi. simpl.
  destruct (p >=? lo) eqn:G; [|rewrite !andb_false_r; reflexivity].
  replace (p <=? hi) with false by (symmetry; apply Z.leb_gt; lia).
  rewrite !andb_false_r. reflexivity.
Qed.

(** X18.  With a lowest price above the highest price, both not 0, no
    car is listed. *)
Theorem get_cars_empty_price_range (cars : list value) (args : query) (lo hi : Z) :
  Forall (fun c => is_car c = true) cars ->
  q_minPrice args = Some lo -> q_maxPrice args = Some hi ->
  lo <> 0 -> hi <> 0 -> hi < lo ->
  get_cars (Stored (VList cars)) args = Ok (listing []).
Proof.
  intros H Hlo Hhi Nlo Nhi Hlt. rewrite (get_cars_runs cars args H).
  replace (filter (satisfies args) cars) with (@nil value); [reflexivity|].
  symmetry. induction H as [|c r Hc Hr IH]; simpl; [reflexivity|].
  rewrite (outside_empty_range c args lo hi Hc Hlo Hhi Nlo Nhi Hlt). exact IH.
Qed.

Lemma get_cars_empty_price_range_witness :
  let args := with_maxPrice (with_minPrice no_criteria (Some 900000)) (Some 500000) in
  Forall (fun c => is_car c = true) sample_cars /\
  get_cars (Stored (VList sample_cars)) args = Ok (listing []).
Proof.
  intros args.
  assert (H : Forall (fun c => is_car c = true) sample_cars) by (repeat constructor).
  split; [exact H|].
  apply (get_cars_empty_price_range sample_cars args 900000 500000 H eq_refl eq_refl);
    [discriminate|discriminate|reflexivity].
Defined.

(* ================================================================== *)
(** ** More on the validator *)

Lemma check_required_agree (d d' : dict) (fields : list string) (errors : dict) :
  (forall f, In f fields -> dict_get d f = dict_get d' f) ->
  check_required (VDict d) fields errors = check_required (VDict d') fields errors.
Proof.
  revert errors. induction fields as [|f r IH]; intros errors H; [reflexivity|].
  simpl. unfold dict_has. rewrite <- (H f (or_introl eq_refl)).
  destruct (dict_get d f); simpl; apply IH; intros x Hx; apply H; right; exact Hx.
Qed.

(** X19.  The validator reads the six required fields and nothing
    else: two payloads that agree on them get the same answer. *)
Theorem validate_reads_required_only (d d' : dict) :
  (forall f, is_required f = true -> dict_get d f = dict_get d' f) ->
  validate_booking_data (VDict d) = validate_booking_data (VDict d').
Proof.
  intros H. unfold validate_booking_data.
  rewrite (check_required_agree d d' required_booking_fields []).
  - cbn [py_contains py_getitem]. unfold dict_has.
    rewrite <- (H "email" eq_refl), <- (H "phone" eq_refl). reflexivity.
  - intros f Hf. apply H. unfold is_required. apply existsb_exists.
    exists f. split; [exact Hf|apply String.eqb_refl].
Qed.

Lemma validate_reads_required_only_witness :
  let d := booking_form "asha@example.com" "9876543210" in
  let d' := ("comments", VStr "call me") :: ("status", VStr "confirmed") :: d in
  (forall f, is_required f = true -> dict_get d f = dict_get d' f) /\
  validate_booking_data (VDict d) = validate_booking_data (VDict d').
Proof.
  intros d d'.
  assert (H : forall f, is_required f = true -> dict_get d f = dict_get d' f).
  { intros f R. unfold is_required in R. apply existsb_exists in R.
    destruct R as (x & Hx & E). apply String.eqb_eq in E. subst x.
    simpl in Hx. repeat (destruct Hx as [<-|Hx]; [reflexivity|]). contradiction. }
  split; [exact H|]. exact (validate_reads_required_only d d' H).
Defined.

(* ================================================================== *)
(** ** Seeding the files *)

(** X20.  The seeding writes only the files that do not exist and
    leaves every file that exists as it is, readable or not; when its
    writes succeed all three files exist afterwards, and a second
    seeding changes nothing. *)
Theorem create_sample_data_only_fills_gaps (io1 io2 io3 : disk) (fs : files) :
  let after := create_sample_data io1 io2 io3 fs in
  let seeded := create_sample_data Writes Writes Writes fs in
  (file_exists (CARS_FILE fs) = true -> CARS_FILE after = CARS_FILE fs) /\
  (file_exists (BOOKINGS_FILE fs) = true -> BOOKINGS_FILE after = BOOKINGS_FILE fs) /\
  (file_exists (BRANDS_FILE fs) = true -> BRANDS_FILE after = BRANDS_FILE fs) /\
  (file_exists (CARS_FILE fs) = false ->
   CARS_FILE seeded = Stored (VList sample_cars)) /\
  (file_exists (BOOKINGS_FILE fs) = false ->
   BOOKINGS_FILE seeded = Stored (VList sample_bookings)) /\
  (file_exists (BRANDS_FILE fs) = false ->
   BRANDS_FILE seeded = Stored (VList sample_brands)) /\
  file_exists (CARS_FILE seeded) = true /\
  file_exists (BOOKINGS_FILE seeded) = true /\
  file_exists (BRANDS_FILE seeded) = true /\
  create_sample_data io1 io2 io3 seeded = seeded.
Proof.
  destruct fs as [c b r]. unfold create_sample_data, seed. cbn [CARS_FILE BOOKINGS_FILE BRANDS_FILE].
  repeat split; try (intros H; rewrite H; reflexivity);
    try (destruct c; reflexivity); try (destruct b; reflexivity);
    try (destruct r; reflexivity).
  destruct c, b, r; reflexivity.
Qed.

(* ================================================================== *)
(** ** Ids over the life of a store *)

Lemma py_max_le (l : list Z) (b : Z) :
  0 <= b -> (forall x, In x l -> x <= b) -> py_max l <= b.
Proof.
  intros Hb H. destruct l as [|n r]; simpl; [exact Hb|].
  assert (K : forall r m, m <= b -> (forall x, In x r -> x <= b) ->
                          fold_left Z.max r m <= b).
  { clear. induction r as [|a r IH]; simpl; intros m Hm Hr; [exact Hm|].
    apply IH; [|intros x Hx; apply Hr; right; exact Hx].
    pose proof (Hr a (or_introl eq_refl)). lia. }
  apply K; [apply H; left; reflexivity|intros x Hx; apply H; right; exact Hx].
Qed.

Lemma ids_of_without (n : Z) (records : list value) (x : Z) :
  In x (ids_of (without_id n records)) -> In x (ids_of records) /\ x <> n.
Proof.
  unfold without_id. induction records as [|c r IH]; simpl; [contradiction|].
  destruct (id_of c) as [m|] eqn:E.
  - rewrite (id_of_id_is c m n E). destruct (m =? n) eqn:Emn; simpl.
    + intros Hx. destruct (IH Hx). split; [right|]; assumption.
    + rewrite E. intros [<-|Hx].
      * split; [left; reflexivity|]. apply Z.eqb_neq in Emn. exact Emn.
      * destruct (IH Hx). split; [right|]; assumption.
  - destruct (negb (id_is n c)); simpl; [rewrite E|]; exact IH.
Qed.

(** X21.  Ids are not kept apart over time: once the record with the
    largest id is deleted, the next record added gets an id that is not
    above the deleted one, so a deleted id can come back. *)
Theorem deleted_id_can_come_back (now : string) (records : list value) (n : Z)
    (d : dict) :
  Forall (fun c => id_of c <> None) records ->
  (forall x, In x (ids_of records) -> x <= n) -> 1 <= n ->
  has_fields d required_car_fields = true -> dict_get d "id" = None ->
  exists after car k,
    delete_car Writes (Stored (VList records)) n = Ok (deleted "Car" n, Stored (VList after)) /\
    add_car now Writes (Stored (VList after)) (VDict d) =
      Ok (added (VDict car), Stored (VList (after ++ [VDict car])%list)) /\
    id_of (VDict car) = Some k /\ k <= n.
Proof.
  intros H Hmax Hn Hf Hid.
  assert (H' : Forall (fun c => id_of c <> None) (without_id n records)).
  { rewrite Forall_forall in *. intros c Hc. apply filter_In in Hc. apply H, Hc. }
  destruct (add_car_assigns_next_id now (without_id n records) d H' Hf Hid)
    as (car & Hrun & Cid).
  exists (without_id n records), car, (next_id (without_id n records)).
  split; [apply delete_car_removes, id_of_has_id, H|].
  split; [exact Hrun|]. split; [exact Cid|].
  unfold next_id.
  assert (py_max (ids_of (without_id n records)) <= n - 1); [|lia].
  apply py_max_le; [lia|]. intros x Hx.
  destruct (ids_of_without n records x Hx) as [Hin Hne].
  specialize (Hmax x Hin). lia.
Qed.

Lemma deleted_id_can_come_back_witness :
  let d := match car_form 0 with _ :: rest => rest | [] => [] end in
  Forall (fun c => id_of c <> None) sample_cars /\
  (forall x, In x (ids_of sample_cars) -> x <= 3) /\
  has_fields d required_car_fields = true /\ dict_get d "id" = None /\
  exists after car k,
    delete_car Writes (Stored (VList sample_cars)) 3 =
      Ok (deleted "Car" 3, Stored (VList after)) /\
    add_car "2025-02-01T12:00:00" Writes (Stored (VList after)) (VDict d) =
      Ok (added (VDict car), Stored (VList (after ++ [VDict car])%list)) /\
    id_of (VDict car) = Some k /\ k <= 3.
Proof.
  intros d.
  assert (M : forall x, In x (ids_of sample_cars) -> x <= 3)
    by (simpl; intros x [<-|[<-|[<-|[]]]]; lia).
  split; [exact sample_cars_ids|]. split; [exact M|]. split; [reflexivity|].
  split; [reflexivity|].
  apply (deleted_id_can_come_back "2025-02-01T12:00:00" sample_cars 3 d
           sample_cars_ids M); [lia|reflexivity|reflexivity].
Defined.
